(** * utils/datasets.py: padding, label remapping, flipping and batch collation

    A shallow embedding of [utils/datasets.py] and the properties of its
    geometric pipeline and of [ListDataset.collate_fn].

    Conventions of the model.
    - Python integers are [Z]; lengths read from a tensor shape are injected
      with [Z.of_nat].
    - Tensor entries are exact rationals ([Qc]): floating-point rounding (and
      the float64 to float32 conversion of [targets[:, 1:] = boxes]) is not
      modelled.
    - An image tensor of shape (C, H, W) is a list of C channels, each a list
      of H rows of W entries.
    - An annotation tensor of shape (n, 6) is a list of n six-field rows; the
      (n, 5) array read from a label file is a list of five-field rows.
    - Exceptions are values of [result]; the file system, the image decoder,
      the colour jitter and the random draws are explicit inputs. *)

From Stdlib Require Import ZArith QArith Qcanon Lia Ascii String List.
From stdpp Require Import base option list strings numbers gmap.

Local Open Scope Z_scope.

(** ** Python exceptions as values *)

Inductive exn : Set :=
  | ZeroDivisionError | IndexError | TypeError | ValueError | RuntimeError | OSError.

Inductive result (A : Type) : Type :=
  | Ok (a : A)
  | Raise (e : exn).
Arguments Ok {A} a.
Arguments Raise {A} e.

(** [result] is a monad; stdpp's [x ← m; k] notation sequences the calls. *)
Global Instance result_ret : MRet result := λ A a, Ok a.
Global Instance result_bind : MBind result := λ A B k m,
  match m with
  | Ok a => k a
  | Raise e => Raise e
  end.

(** ** The Python built-ins the file uses *)

Module Py.

(** [l[k]]: negative positions count from the end, anything outside the list
    raises IndexError. *)
Definition getitem {A : Type} (l : list A) (k : Z) : result A :=
  let n := Z.of_nat (length l) in
  let pos := if k <? 0 then k + n else k in
  if pos <? 0 then Raise IndexError
  else match l !! Z.to_nat pos with
       | Some x => Ok x
       | None => Raise IndexError
       end.

(** [a % b] on integers: the sign follows the divisor, as [Z.modulo]. *)
Definition mod_ (a b : Z) : result Z :=
  if b =? 0 then Raise ZeroDivisionError else Ok (a mod b).

(** [range(start, stop, step)] for a positive step. *)
Definition range (start stop step : Z) : list Z :=
  (λ k : nat, start + Z.of_nat k * step)
    <$> seq 0 (Z.to_nat ((stop - start + step - 1) / step)).

(** [random.choice(seq)]: [seq[randbelow(len(seq))]]; the draw [r] stands
    for the generator's output and is reduced below the length. *)
Definition random_choice {A : Type} (r : nat) (l : list A) : result A :=
  match l with
  | [] => Raise IndexError
  | _ => getitem l (Z.of_nat (r mod length l)%nat)
  end.

(** Code points below 256 for which [str.isspace] holds. *)
Definition isspace (c : ascii) : bool :=
  let n := nat_of_ascii c in
  ((9 <=? n) && (n <=? 13) || (28 <=? n) && (n <=? 32)
   || (n =? 133) || (n =? 160))%nat.

(** [s.rstrip()] *)
Fixpoint rstrip (s : string) : string :=
  match s with
  | EmptyString => EmptyString
  | String c s' =>
      match rstrip s' with
      | EmptyString => if isspace c then EmptyString else String c EmptyString
      | r => String c r
      end
  end.

(** [s.replace(old, new)] for a non-empty [old]: occurrences are replaced
    left to right without overlap.  [skip] counts the characters of a
    matched occurrence still to be dropped. *)
Fixpoint replace_from (old new : string) (skip : nat) (s : string) : string :=
  match s with
  | EmptyString => EmptyString
  | String c s' =>
      match skip with
      | S k => replace_from old new k s'
      | O =>
          if String.prefix old s
          then String.append new (replace_from old new (String.length old - 1) s')
          else String c (replace_from old new 0 s')
      end
  end.

Definition replace (s old new : string) : string := replace_from old new 0 s.

End Py.

(** ** Tensors *)

(** An image tensor (C, H, W). *)
Abbreviation image := (list (list (list Qc))).

(** One row of the (n, 5) array of a label file: class, cx, cy, w, h. *)
Record box : Type := Box {
  box_class : Qc; box_cx : Qc; box_cy : Qc; box_w : Qc; box_h : Qc
}.

(** One row of an (n, 6) annotation tensor. *)
Record target : Type := Target {
  batch_index : Qc; class_id : Qc;
  center_x : Qc; center_y : Qc; width : Qc; height : Qc
}.

Abbreviation boxes_tensor := (list box).
Abbreviation targets_tensor := (list target).

(** The padding list [[left, right, top, bottom]] handed to [F.pad]. *)
Abbreviation padding := (Z * Z * Z * Z)%type.

Module Torch.

(** [img] is a proper tensor of shape (c, h, w). *)
Definition is_tensor3 (c h w : nat) (img : image) : Prop :=
  length img = c ∧
  Forall (λ ch, length ch = h ∧ Forall (λ row, length row = w) ch) img.

(** [img.shape], read off the first channel and its first row. *)
Definition shape (img : image) : Z * Z * Z :=
  let ch := default [] (head img) in
  let row := default [] (head ch) in
  (Z.of_nat (length img), Z.of_nat (length ch), Z.of_nat (length row)).

(** [torch.flip(img, [-1])]: every row is reversed. *)
Definition flip_last (img : image) : image :=
  (λ ch : list (list Qc), (λ row : list Qc, reverse row) <$> ch) <$> img.

(** [F.pad(img, [left, right, top, bottom], mode='constant', value=v)] on a
    (C, H, W) tensor with non-negative amounts. *)
Definition pad (img : image) (p : padding) (v : Qc) : image :=
  let '(p_left, p_right, p_top, p_bottom) := p in
  let '(_, _, w) := shape img in
  let blank := replicate (Z.to_nat (p_left + w + p_right)) v in
  (λ ch : list (list Qc),
     replicate (Z.to_nat p_top) blank
     ++ ((λ row : list Qc, replicate (Z.to_nat p_left) v ++ row ++ replicate (Z.to_nat p_right) v) <$> ch)
     ++ replicate (Z.to_nat p_bottom) blank) <$> img.

(** [torch.cat(ts, 0)] on (n_i, 6) tensors; an empty list is a RuntimeError. *)
Definition cat (ts : list targets_tensor) : result targets_tensor :=
  match ts with
  | [] => Raise RuntimeError
  | _ => Ok (concat ts)
  end.

Definition same_shape (a b : image) : bool :=
  bool_decide (shape a = shape b).

(** [torch.stack(imgs)]: the list must be non-empty and of one shape. *)
Definition stack (imgs : list image) : result (list image) :=
  match imgs with
  | [] => Raise RuntimeError
  | a :: rest =>
      if forallb (same_shape a) rest then Ok imgs else Raise RuntimeError
  end.

(** Shape (N, C, H, W) of a stacked tensor. *)
Definition is_tensor4 (n c h w : nat) (imgs : list image) : Prop :=
  length imgs = n ∧ Forall (is_tensor3 c h w) imgs.

End Torch.

(** ** Module-level functions of datasets.py *)

(** [horisontal_flip(images, targets)].  [targets] may be the Python [None],
    on which the subscript [targets[:, 2]] is a TypeError. *)
Definition flip_row (t : target) : target :=
  Target (batch_index t) (class_id t) (1 - center_x t)%Qc
         (center_y t) (width t) (height t).

Definition horisontal_flip (images : image) (targets : option targets_tensor)
  : result (image * targets_tensor) :=
  let images := Torch.flip_last images in
  match targets with
  | None => Raise TypeError
  | Some t => Ok (images, flip_row <$> t)
  end.

(** [pad_to_square(img, pad_value=0)] *)
Definition pad_to_square (img : image) (pad_value : Qc) : image * padding :=
  let '(_, h, w) := Torch.shape img in
  let difference := Z.abs (h - w) in
  let pad : padding :=
    if h <=? w
    then (0, 0, difference / 2, difference - difference / 2)
    else (difference / 2, difference - difference / 2, 0, 0) in
  (Torch.pad img pad pad_value, pad).

(** ** The environment of a dataset *)

(** What [os.path.exists] and [np.loadtxt] find at a label path: nothing, a
    path that exists and cannot be opened for reading (a directory, a file
    without read permission), a file that does not parse as numbers, or the
    numeric fields line by line. *)
Inductive label_file : Type :=
  | Absent
  | Unreadable
  | Unparsable
  | Rows (rows : list (list Qc)).

(** [image_file p] is [ToTensor()(Image.open(p).convert('RGB'))], [None] when
    the file cannot be opened or decoded; [color_jitter] is the pixel
    perturbation of [ColorJitter], seen on the decoded tensor. *)
Record world : Type := World {
  image_file : string → option image;
  label_at : string → label_file;
  color_jitter : image → image
}.

Definition path_exists (f : label_file) : bool :=
  match f with Absent => false | _ => true end.

(** [np.loadtxt(path)], flattened in row-major order: a path that cannot be
    opened is an OSError (or a subclass of it), ragged rows and non-numeric
    text are a ValueError. *)
Definition np_loadtxt (f : label_file) : result (list Qc) :=
  match f with
  | Absent => Raise OSError
  | Unreadable => Raise OSError
  | Unparsable => Raise ValueError
  | Rows [] => Ok []
  | Rows (r :: rest) =>
      if forallb (λ r' : list Qc, (length r' =? length r)%nat) rest
      then Ok (concat (r :: rest))
      else Raise ValueError
  end.

(** [a.reshape(-1, 5)]: the element count must be a multiple of 5. *)
Fixpoint reshape5 (flat : list Qc) : result boxes_tensor :=
  match flat with
  | [] => Ok []
  | a :: b :: c :: d :: e :: rest => bs ← reshape5 rest; Ok (Box a b c d e :: bs)
  | _ => Raise ValueError
  end.

(** [Image.open(img_path).convert('RGB')] through [transforms]. *)
Definition load_image (env : world) (augment : bool) (img_path : string)
  : result image :=
  match image_file env img_path with
  | None => Raise OSError
  | Some img => Ok (if augment then color_jitter env img else img)
  end.

(** Lines 112-130 of [__getitem__] on one row of [boxes]: corners in the
    unpadded frame, shift by the padding, back to centre and size relative to
    the padded frame, and a zero in column 0. *)
Definition remap_box (h_factor w_factor : Z) (pad : padding)
    (padded_h padded_w : Z) (b : box) : target :=
  let '(pad0, pad1, pad2, pad3) := pad in
  let x1 := (Qc_of_Z w_factor * (box_cx b - box_w b / 2))%Qc in
  let y1 := (Qc_of_Z h_factor * (box_cy b - box_h b / 2))%Qc in
  let x2 := (Qc_of_Z w_factor * (box_cx b + box_w b / 2))%Qc in
  let y2 := (Qc_of_Z h_factor * (box_cy b + box_h b / 2))%Qc in
  let x1 := (x1 + Qc_of_Z pad0)%Qc in
  let y1 := (y1 + Qc_of_Z pad2)%Qc in
  let x2 := (x2 + Qc_of_Z pad1)%Qc in
  let y2 := (y2 + Qc_of_Z pad3)%Qc in
  Target 0%Qc (box_class b)
    (((x1 + x2) / 2) / Qc_of_Z padded_w)%Qc
    (((y1 + y2) / 2) / Qc_of_Z padded_h)%Qc
    (box_w b * (Qc_of_Z w_factor / Qc_of_Z padded_w))%Qc
    (box_h b * (Qc_of_Z h_factor / Qc_of_Z padded_h))%Qc.

(** The integer quotients [w_factor / padded_w] and [h_factor / padded_h] of
    lines 126-127 raise on a zero divisor. *)
Definition remap_boxes (h_factor w_factor : Z) (pad : padding)
    (padded_h padded_w : Z) (boxes : boxes_tensor) : result targets_tensor :=
  if padded_w =? 0 then Raise ZeroDivisionError
  else if padded_h =? 0 then Raise ZeroDivisionError
  else Ok (remap_box h_factor w_factor pad padded_h padded_w <$> boxes).

(** ** The datasets *)

Record ImageFolder : Type := MkImageFolder {
  files : list string;
  folder_img_size : Z
}.

Record ListDataset : Type := MkListDataset {
  img_files : list string;
  label_files : list string;
  img_size : Z;
  max_objects : Z;
  augment : bool;
  multiscale : bool;
  normalized_labels : bool;
  batch_count : Z
}.

Definition label_path_of (path : string) : string :=
  Py.replace (Py.replace (Py.replace (Py.replace path "images" "labels")
                                     ".png" ".txt")
                         ".jpg" ".txt")
             "JPEGImages" "labels".

(** [ListDataset.__init__]; [lines] is [file.readlines()] of the list file. *)
Definition ListDataset_init (lines : list string) (img_size : Z)
    (augment multiscale normalized_labels : bool) : ListDataset :=
  {| img_files := lines;
     label_files := label_path_of <$> lines;
     img_size := img_size;
     max_objects := 100;
     augment := augment;
     multiscale := multiscale;
     normalized_labels := normalized_labels;
     batch_count := 0 |}.

Definition set_img_size (s : Z) (self : ListDataset) : ListDataset :=
  {| img_files := img_files self; label_files := label_files self;
     img_size := s; max_objects := max_objects self;
     augment := augment self; multiscale := multiscale self;
     normalized_labels := normalized_labels self;
     batch_count := batch_count self |}.

Definition set_batch_count (n : Z) (self : ListDataset) : ListDataset :=
  {| img_files := img_files self; label_files := label_files self;
     img_size := img_size self; max_objects := max_objects self;
     augment := augment self; multiscale := multiscale self;
     normalized_labels := normalized_labels self;
     batch_count := n |}.

Definition set_files (imgs labels : list string) (self : ListDataset) : ListDataset :=
  {| img_files := imgs; label_files := labels;
     img_size := img_size self; max_objects := max_objects self;
     augment := augment self; multiscale := multiscale self;
     normalized_labels := normalized_labels self;
     batch_count := batch_count self |}.

(** [ListDataset.__getitem__(index)].  [u] is the value [np.random.random()]
    returns when the augmentation branch asks for it. *)
Definition ListDataset_getitem (env : world) (self : ListDataset)
    (index : Z) (u : Qc) : result (string * image * option targets_tensor) :=
  k ← Py.mod_ index (Z.of_nat (length (img_files self)));
  line ← Py.getitem (img_files self) k;
  let img_path := Py.rstrip line in
  img ← load_image env (augment self) img_path;
  let '(_, h, w) := Torch.shape img in
  let '(h_factor, w_factor) := if normalized_labels self then (h, w) else (1, 1) in
  let '(img, pad) := pad_to_square img 0%Qc in
  let '(_, padded_h, padded_w) := Torch.shape img in
  k ← Py.mod_ index (Z.of_nat (length (img_files self)));
  line ← Py.getitem (label_files self) k;
  let label_path := Py.rstrip line in
  targets ←
    (if path_exists (label_at env label_path)
     then flat ← np_loadtxt (label_at env label_path);
          boxes ← reshape5 flat;
          targets ← remap_boxes h_factor w_factor pad padded_h padded_w boxes;
          Ok (Some targets)
     else Ok None);
  if augment self
  then if bool_decide (u < 1 / 2)%Qc
       then '(img, targets) ← horisontal_flip img targets;
            Ok (img_path, img, Some targets)
       else Ok (img_path, img, targets)
  else Ok (img_path, img, targets).

Definition ListDataset_len (self : ListDataset) : Z :=
  Z.of_nat (length (img_files self)).

(** ** Annotation tensors as shared objects *)

(** [collate_fn] writes into the tensors its batch refers to, so a batch item
    holds a reference into a store of annotation tensors ([None] is the
    Python [None]). *)
Abbreviation heap := (gmap nat targets_tensor).
Abbreviation item := (string * image * option nat)%type.

Definition item_path (it : item) : string := it.1.1.
Definition item_image (it : item) : image := it.1.2.
Definition item_targets (it : item) : option nat := it.2.

Definition deref (σ : heap) (l : nat) : targets_tensor := default [] (σ !! l).

(** [boxes[:, 0] = i] *)
Definition set_batch_index (i : nat) (boxes : targets_tensor) : targets_tensor :=
  (λ t : target,
     Target (Qc_of_Z (Z.of_nat i)) (class_id t) (center_x t) (center_y t)
            (width t) (height t)) <$> boxes.

(** [for i, boxes in enumerate(targets): boxes[:, 0] = i], counting from [i]. *)
Fixpoint index_targets (i : nat) (targets : list nat) (σ : heap) : heap :=
  match targets with
  | [] => σ
  | l :: rest => index_targets (S i) rest (alter (set_batch_index i) l σ)
  end.

(** [try: torch.cat(targets, 0) except RuntimeError: None] *)
Definition cat_or_none (ts : list targets_tensor) : result (option targets_tensor) :=
  match Torch.cat ts with
  | Ok t => Ok (Some t)
  | Raise RuntimeError => Ok None
  | Raise e => Raise e
  end.

(** A tensor returned by [__getitem__] is a new object ([torch.zeros] at
    line 129): it goes to a location the store does not use yet. *)
Definition alloc (σ : heap) (t : targets_tensor) : nat * heap :=
  let l := fresh (dom σ) in (l, <[l := t]> σ).

(** The batch a data loader hands to [collate_fn]:
    [[dataset[i] for i in indices]], one [__getitem__] call per index, each
    with its own random draw. *)
Fixpoint fetch (env : world) (self : ListDataset) (σ : heap)
    (requests : list (Z * Qc)) : result (heap * list item) :=
  match requests with
  | [] => Ok (σ, [])
  | (index, u) :: rest =>
      '(path, img, targets) ← ListDataset_getitem env self index u;
      match targets with
      | None =>
          '(σ', items) ← fetch env self σ rest;
          Ok (σ', (path, img, None) :: items)
      | Some t =>
          let '(l, σ1) := alloc σ t in
          '(σ', items) ← fetch env self σ1 rest;
          Ok (σ', (path, img, Some l) :: items)
      end
  end.

(** A resampler with corner-aligned nearest-neighbour sampling, one concrete
    function of the shape [F.interpolate] has. *)
Definition sample_index (n_in n_out i : nat) : nat :=
  (i * (n_in - 1) / (n_out - 1))%nat.

Definition sample_resize (img : image) (size : Z) : image :=
  let s := Z.to_nat size in
  (λ ch : list (list Qc),
     (λ y : nat,
        let row := default [] (ch !! sample_index (length ch) s y) in
        (λ x : nat, default 0%Qc (row !! sample_index (length row) s x))
          <$> seq 0 s)
       <$> seq 0 s) <$> img.

Section Datasets.

(** [F.interpolate(img.unsqueeze(0), size=size, mode='bilinear',
    align_corners=True).squeeze(0)] belongs to the tensor library; the
    datasets are defined over any such function.  The library raises for a
    size that is not positive and for a picture without rows or columns,
    where this function has a value: a theorem that states that a call
    returns assumes a positive size and pictures of positive height and
    width. *)
Variable interpolate : image → Z → image.

Definition resize (img : image) (size : Z) : image := interpolate img size.

(** [ImageFolder.__getitem__(index)] *)
Definition ImageFolder_getitem (env : world) (self : ImageFolder) (index : Z)
  : result (string * image) :=
  k ← Py.mod_ index (Z.of_nat (length (files self)));
  img_path ← Py.getitem (files self) k;
  img ← load_image env false img_path;
  let '(img, _) := pad_to_square img 0%Qc in
  let img := resize img (folder_img_size self) in
  Ok (img_path, img).

Definition ImageFolder_len (self : ImageFolder) : Z :=
  Z.of_nat (length (files self)).

(** [ListDataset.collate_fn(batch)].  The call reads and writes the object
    [self] and the annotation tensors in [σ]; [r] is the draw
    [random.choice] makes when it is called.  The state is returned also
    when the call raises. *)
Definition collate_fn (self : ListDataset) (σ : heap) (batch : list item)
    (r : nat)
  : ListDataset * heap
    * result (list string * list image * option targets_tensor) :=
  match batch with
  | [] => (self, σ, Raise ValueError)
  | _ :: _ =>
      let paths := item_path <$> batch in
      let imgs := item_image <$> batch in
      let targets := item_targets <$> batch in
      let targets := omap id targets in
      let σ := index_targets 0 targets σ in
      match cat_or_none (deref σ <$> targets) with
      | Raise e => (self, σ, Raise e)
      | Ok targets =>
          match
            (if multiscale self && (batch_count self mod 10 =? 0)
             then Py.random_choice r (Py.range 320 (608 + 1) 32)
             else Ok (img_size self))
          with
          | Raise e => (self, σ, Raise e)
          | Ok size =>
              let self := set_img_size size self in
              match Torch.stack ((λ img, resize img (img_size self)) <$> imgs) with
              | Raise e => (self, σ, Raise e)
              | Ok imgs =>
                  (set_batch_count (batch_count self + 1) self, σ,
                   Ok (paths, imgs, targets))
              end
          end
      end
  end.

(** A run of [collate_fn] calls on one dataset object, stopping at the first
    call that raises.  The log holds, per completed call, the resolution the
    call resized with and the batch counter it left. *)
Fixpoint collate_run (self : ListDataset) (σ : heap)
    (calls : list (list item * nat)) : ListDataset * list (Z * Z) :=
  match calls with
  | [] => (self, [])
  | (batch, r) :: rest =>
      match collate_fn self σ batch r with
      | (self', σ', Ok _) =>
          let '(final, log) := collate_run self' σ' rest in
          (final, (img_size self', batch_count self') :: log)
      | (self', _, Raise _) => (self', [])
      end
  end.

End Datasets.

(** ** Well-formed inputs *)

(** Every image of the batch is a [c]-channel tensor with a positive height
    and width, as [ToTensor] gives on a decoded RGB picture ([c = 3]). *)
Definition images_ok (c : nat) (batch : list item) : Prop :=
  Forall (λ it : item,
            ∃ h w : nat, Torch.is_tensor3 c h w (item_image it)
                         ∧ (0 < h)%nat ∧ (0 < w)%nat) batch.

(** Every picture the environment decodes is a 3-channel tensor with a
    positive height and width, jittered or not. *)
Definition world_ok (env : world) : Prop :=
  ∀ (aug : bool) (p : string) (img : image),
    load_image env aug p = Ok img →
    ∃ h w : nat, Torch.is_tensor3 3 h w img ∧ (0 < h)%nat ∧ (0 < w)%nat.

(** The references of a batch that are not [None], in batch order. *)
Definition batch_refs (batch : list item) : list nat :=
  omap id (item_targets <$> batch).

(** Whether a call of [collate_fn] in state [self] draws a resolution
    (the test of line 158). *)
Definition draws (self : ListDataset) : bool :=
  multiscale self && (batch_count self mod 10 =? 0).

(** ** Sample inputs *)

(** A [c]-channel black picture of height [h] and width [w]. *)
Definition blank_image (c h w : nat) : image :=
  replicate c (replicate h (replicate w 0%Qc)).

Definition newline : string := String (ascii_of_nat 10) EmptyString.

(** A list file of three pictures: [a.jpg] is 100 wide and 50 high and has
    the one label [0 0.5 0.5 0.2 0.4]; [b.jpg] has a label file without
    rows; [c.jpg] has no label file. *)
Definition sample_lines : list string :=
  [String.append "data/images/a.jpg" newline;
   String.append "data/images/b.jpg" newline;
   String.append "data/images/c.jpg" newline].

Definition sample_world : world :=
  {| image_file := λ p,
       if bool_decide (p = "data/images/a.jpg") then Some (blank_image 3 50 100)
       else if bool_decide (p = "data/images/b.jpg") then Some (blank_image 3 4 3)
       else if bool_decide (p = "data/images/c.jpg") then Some (blank_image 3 2 2)
       else None;
     label_at := λ p,
       if bool_decide (p = "data/labels/a.txt")
       then Rows [[0%Qc; Q2Qc (1 # 2); Q2Qc (1 # 2); Q2Qc (1 # 5); Q2Qc (2 # 5)]]
       else if bool_decide (p = "data/labels/b.txt") then Rows []
       else Absent;
     color_jitter := λ img, img |}.

Definition sample_dataset : ListDataset :=
  ListDataset_init sample_lines 416 true true true.

(** The same list without augmentation and multiscale, resizing to 4x4. *)
Definition sample_dataset_fixed : ListDataset :=
  ListDataset_init sample_lines 4 false false true.

Definition sample_folder : ImageFolder :=
  MkImageFolder ["data/images/a.jpg"; "data/images/b.jpg"] 416.

(** Three annotation tensors in the store: one record, no record, two
    records; and batches over them. *)
Definition sample_record (k x : Z) : target :=
  Target 0%Qc (Qc_of_Z k) (Q2Qc (Qmake x 8)) (Q2Qc (1 # 2)) (Q2Qc (1 # 4)) (Q2Qc (1 # 4)).

Definition sample_heap : heap :=
  <[0%nat := [sample_record 7 1]]>
    (<[1%nat := []]>
       (<[2%nat := [sample_record 3 2; sample_record 5 3]]> ∅)).

Definition sample_item (p : string) (t : option nat) : item :=
  (p, blank_image 3 2 3, t).

(** First and third picture annotated, the second without annotations. *)
Definition sample_batch : list item :=
  [sample_item "a" (Some 0%nat); sample_item "b" None; sample_item "c" (Some 2%nat)].

(** The same with the zero-row tensor in the middle. *)
Definition sample_batch_zero : list item :=
  [sample_item "a" (Some 0%nat); sample_item "b" (Some 1%nat); sample_item "c" (Some 2%nat)].

Definition sample_batch_none : list item :=
  [sample_item "b" None; sample_item "c" None].

(** ** Reading tensors *)

(** [img[k, y, x]] *)
Definition pixel (img : image) (k y x : nat) : option Qc :=
  ch ← img !! k; row ← ch !! y; row !! x.

(** The five numbers of one row of the (n, 5) array, in column order. *)
Definition box_fields (b : box) : list Qc :=
  [box_class b; box_cx b; box_cy b; box_w b; box_h b].

(** The environment [env] with the label file at [p] replaced by [f]. *)
Definition with_label (env : world) (p : string) (f : label_file) : world :=
  {| image_file := image_file env;
     label_at := λ q, if bool_decide (q = p) then f else label_at env q;
     color_jitter := color_jitter env |}.

(** [old in s] for a non-empty [old]. *)
Fixpoint occurs (old s : string) : bool :=
  match s with
  | EmptyString => false
  | String _ s' => String.prefix old s || occurs old s'
  end.

(** Two annotation tensors that agree in all columns but column 0. *)
Definition same_boxes (a b : targets_tensor) : Prop :=
  Forall2 (λ t t' : target,
             class_id t = class_id t' ∧ center_x t = center_x t'
             ∧ center_y t = center_y t' ∧ width t = width t'
             ∧ height t = height t') a b.

(** * Properties *)

(** ** Shapes *)

Lemma shape_of_tensor3 (c h w : nat) (img : image) :
  Torch.is_tensor3 c h w img → (0 < c)%nat → (0 < h)%nat →
  Torch.shape img = (Z.of_nat c, Z.of_nat h, Z.of_nat w).
Proof.
  intros [Hc Hall] Hc0 Hh0. unfold Torch.shape.
  destruct img as [|ch img']; simpl in *; [lia|].
  apply Forall_cons in Hall as [[Hh Hrows] _].
  destruct ch as [|row ch']; simpl in *; [lia|].
  apply Forall_cons in Hrows as [Hw _].
  by rewrite <- Hc, <- Hh, <- Hw.
Qed.

Lemma pad_is_tensor3 (c h w : nat) (img : image) (l r t b : Z) (v : Qc) :
  Torch.is_tensor3 c h w img → (0 < c)%nat → (0 < h)%nat →
  0 ≤ l → 0 ≤ r → 0 ≤ t → 0 ≤ b →
  Torch.is_tensor3 c (Z.to_nat t + h + Z.to_nat b) (Z.to_nat l + w + Z.to_nat r)
    (Torch.pad img (l, r, t, b) v).
Proof.
  intros Himg Hc0 Hh0 Hl Hr Ht Hb. unfold Torch.pad.
  rewrite (shape_of_tensor3 c h w img Himg Hc0 Hh0).
  destruct Himg as [Hc Hall]. split.
  - by rewrite length_fmap.
  - apply Forall_fmap. eapply Forall_impl; [exact Hall|].
    intros ch [Hh Hrows]. simpl. split.
    + rewrite !length_app, !length_replicate, length_fmap. lia.
    + rewrite !Forall_app. split_and!.
      * apply Forall_replicate. rewrite length_replicate. lia.
      * apply Forall_fmap. eapply Forall_impl; [exact Hrows|].
        intros row Hw. simpl in *.
        rewrite !length_app, !length_replicate. lia.
      * apply Forall_replicate. rewrite length_replicate. lia.
Qed.

(** ** [pad_to_square] *)

(** The padding list [pad_to_square] computes, as a function of the shape. *)
Lemma pad_to_square_eq (c h w : nat) (img : image) (v : Qc) :
  Torch.is_tensor3 c h w img → (0 < c)%nat → (0 < h)%nat →
  let d := Z.abs (Z.of_nat h - Z.of_nat w) in
  let pad := if Z.of_nat h <=? Z.of_nat w
             then (0, 0, d / 2, d - d / 2) else (d / 2, d - d / 2, 0, 0) in
  pad_to_square img v = (Torch.pad img pad v, pad).
Proof.
  intros Himg Hc0 Hh0. unfold pad_to_square.
  by rewrite (shape_of_tensor3 c h w img Himg Hc0 Hh0).
Qed.

Lemma half_split (d : Z) :
  0 ≤ d → 0 ≤ d / 2 ∧ d - d / 2 = (d + 1) / 2 ∧ 0 ≤ d - d / 2.
Proof.
  intros Hd.
  pose proof (Z.div_mod d 2); pose proof (Z.mod_pos_bound d 2).
  pose proof (Z.div_mod (d + 1) 2); pose proof (Z.mod_pos_bound (d + 1) 2).
  split_and!; [apply Z.div_pos; lia|lia|lia].
Qed.

(** The padded image is a square of side [max h w]. *)
Lemma pad_to_square_shape (c h w : nat) (img : image) (v : Qc) :
  Torch.is_tensor3 c h w img → (0 < c)%nat → (0 < h)%nat →
  Torch.is_tensor3 c (Nat.max h w) (Nat.max h w) (pad_to_square img v).1
  ∧ Torch.shape (pad_to_square img v).1
    = (Z.of_nat c, Z.max (Z.of_nat h) (Z.of_nat w),
       Z.max (Z.of_nat h) (Z.of_nat w)).
Proof.
  intros Himg Hc0 Hh0.
  rewrite (pad_to_square_eq c h w img v Himg Hc0 Hh0). cbn [fst].
  set (d := Z.abs (Z.of_nat h - Z.of_nat w)).
  destruct (half_split d ltac:(unfold d; lia)) as (Hf & _ & Hc').
  assert (Hout : Torch.is_tensor3 c (Nat.max h w) (Nat.max h w)
            (Torch.pad img
               (if Z.of_nat h <=? Z.of_nat w
                then (0, 0, d / 2, d - d / 2) else (d / 2, d - d / 2, 0, 0)) v)).
  { destruct (Z.leb_spec (Z.of_nat h) (Z.of_nat w)) as [Hle|Hlt].
    - pose proof (pad_is_tensor3 c h w img 0 0 (d / 2) (d - d / 2) v
                    Himg Hc0 Hh0 ltac:(lia) ltac:(lia) Hf Hc') as Hout.
      replace (Z.to_nat (d / 2) + h + Z.to_nat (d - d / 2))%nat
        with (Nat.max h w) in Hout by (unfold d in *; lia).
      by replace (Z.to_nat 0 + w + Z.to_nat 0)%nat
        with (Nat.max h w) in Hout by lia.
    - pose proof (pad_is_tensor3 c h w img (d / 2) (d - d / 2) 0 0 v
                    Himg Hc0 Hh0 Hf Hc' ltac:(lia) ltac:(lia)) as Hout.
      replace (Z.to_nat (d / 2) + w + Z.to_nat (d - d / 2))%nat
        with (Nat.max h w) in Hout by (unfold d in *; lia).
      by replace (Z.to_nat 0 + h + Z.to_nat 0)%nat
        with (Nat.max h w) in Hout by lia. }
  split; [done|].
  rewrite (shape_of_tensor3 _ _ _ _ Hout Hc0 ltac:(lia)). repeat f_equal; lia.
Qed.

(** C5. For every image of height [h] and width [w], [pad_to_square] returns
    an image of height and width [max h w] and a padding list
    [left, right, top, bottom] whose entries sum to [|h - w|]; the padded axis
    gets the floor half first and the ceiling half second, the other axis
    gets nothing (top/bottom is the padded axis when [h <= w], left/right
    otherwise), so exactly one pair is non-zero when [h] and [w] differ, and
    all four entries are zero when [h = w]. *)
Theorem pad_to_square_spec (c h w : nat) (img : image) (v : Qc) :
  Torch.is_tensor3 c h w img → (0 < c)%nat → (0 < h)%nat →
  ∃ (out : image) (left right top bottom : Z),
    pad_to_square img v = (out, (left, right, top, bottom))
    ∧ Torch.is_tensor3 c (Nat.max h w) (Nat.max h w) out
    ∧ Torch.shape out = (Z.of_nat c, Z.max (Z.of_nat h) (Z.of_nat w),
                         Z.max (Z.of_nat h) (Z.of_nat w))
    ∧ left + right + top + bottom = Z.abs (Z.of_nat h - Z.of_nat w)
    ∧ ((left = 0 ∧ right = 0
        ∧ top = Z.abs (Z.of_nat h - Z.of_nat w) / 2
        ∧ bottom = (Z.abs (Z.of_nat h - Z.of_nat w) + 1) / 2)
       ∨ (top = 0 ∧ bottom = 0
          ∧ left = Z.abs (Z.of_nat h - Z.of_nat w) / 2
          ∧ right = (Z.abs (Z.of_nat h - Z.of_nat w) + 1) / 2))
    ∧ (h ≠ w →
       (left + right ≠ 0 ∧ top + bottom = 0)
       ∨ (left + right = 0 ∧ top + bottom ≠ 0))
    ∧ (h = w → left = 0 ∧ right = 0 ∧ top = 0 ∧ bottom = 0).
Proof.
  intros Himg Hc0 Hh0.
  destruct (pad_to_square_shape c h w img v Himg Hc0 Hh0) as [Hout Hshape].
  pose proof (pad_to_square_eq c h w img v Himg Hc0 Hh0) as Heq. cbv zeta in Heq.
  rewrite Heq in Hout, Hshape. cbn [fst] in Hout, Hshape.
  set (d := Z.abs (Z.of_nat h - Z.of_nat w)) in *.
  destruct (half_split d ltac:(unfold d; lia)) as (Hf & Hceil & Hc').
  destruct (Z.leb_spec (Z.of_nat h) (Z.of_nat w)) as [Hle|Hlt].
  - exists (Torch.pad img (0, 0, d / 2, d - d / 2) v), 0, 0, (d / 2), (d - d / 2).
    split_and!; try done.
    + lia.
    + left. split_and!; [done|done|done|lia].
    + intros Hne. right. unfold d in *. lia.
    + intros ->. unfold d in *. rewrite Z.sub_diag in *. simpl in *. done.
  - exists (Torch.pad img (d / 2, d - d / 2, 0, 0) v), (d / 2), (d - d / 2), 0, 0.
    split_and!; try done.
    + lia.
    + right. split_and!; [done|done|done|lia].
    + intros Hne. left. unfold d in *. lia.
    + intros ->. lia.
Qed.

(** ** [horisontal_flip] *)

Lemma flip_last_involutive (img : image) :
  Torch.flip_last (Torch.flip_last img) = img.
Proof.
  unfold Torch.flip_last.
  rewrite <- list_fmap_compose.
  rewrite <- (list_fmap_id img) at 2. apply list_fmap_ext. intros _ ch _. simpl.
  rewrite <- list_fmap_compose.
  rewrite <- (list_fmap_id ch) at 2. apply list_fmap_ext. intros _ row _. simpl.
  apply reverse_involutive.
Qed.

Lemma flip_row_involutive (t : target) : flip_row (flip_row t) = t.
Proof. destruct t as [b k x y w h]. unfold flip_row. simpl. f_equal. ring. Qed.

(** C8. On every image and every annotation tensor, one application of
    [horisontal_flip] reverses the image along its width, rewrites every
    [center_x] to [1 - center_x] and leaves the other columns (batch index,
    class, [center_y], width, height) as they were; a second application
    returns the original image and the original annotations (arithmetic on
    exact rationals, so the round trip is exact). *)
Theorem horisontal_flip_involution (img : image) (targets : targets_tensor) :
  horisontal_flip img (Some targets)
    = Ok (Torch.flip_last img, flip_row <$> targets)
  ∧ center_x <$> (flip_row <$> targets)
    = (λ x : Qc, (1 - x)%Qc) <$> (center_x <$> targets)
  ∧ batch_index <$> (flip_row <$> targets) = batch_index <$> targets
  ∧ class_id <$> (flip_row <$> targets) = class_id <$> targets
  ∧ center_y <$> (flip_row <$> targets) = center_y <$> targets
  ∧ width <$> (flip_row <$> targets) = width <$> targets
  ∧ height <$> (flip_row <$> targets) = height <$> targets
  ∧ ('(img', targets') ← horisontal_flip img (Some targets);
     horisontal_flip img' (Some targets')) = Ok (img, targets).
Proof.
  split_and!; try done; try (by rewrite <- !list_fmap_compose).
  unfold horisontal_flip, mbind, result_bind. rewrite flip_last_involutive.
  rewrite <- list_fmap_compose.
  rewrite <- (list_fmap_id targets) at 2. do 2 f_equal.
  apply list_fmap_ext. intros _ t _. apply flip_row_involutive.
Qed.

(** ** [__getitem__] *)

(** Position [index mod n] is inside a list of [n >= 1] entries. *)
Lemma getitem_mod {A : Type} (l : list A) (index : Z) :
  l ≠ [] →
  ∃ x, l !! Z.to_nat (index mod Z.of_nat (length l)) = Some x
       ∧ Py.getitem l (index mod Z.of_nat (length l)) = Ok x.
Proof.
  intros Hne.
  assert (Hlen : 0 < Z.of_nat (length l)) by (destruct l; simpl in *; [done|lia]).
  pose proof (Z.mod_pos_bound index _ Hlen) as Hb.
  destruct (lookup_lt_is_Some_2 l (Z.to_nat (index mod Z.of_nat (length l))))
    as [x Hx]; [lia|].
  exists x. split; [done|].
  assert (Hlt : (index mod Z.of_nat (length l) <? 0) = false)
    by (apply Z.ltb_ge; lia).
  unfold Py.getitem. cbv zeta. by rewrite !Hlt, Hx.
Qed.

Lemma mod_nonempty {A : Type} (l : list A) (index : Z) :
  l ≠ [] →
  Py.mod_ index (Z.of_nat (length l)) = Ok (index mod Z.of_nat (length l)).
Proof.
  intros Hne. unfold Py.mod_.
  destruct (Z.eqb_spec (Z.of_nat (length l)) 0) as [H0|]; [|done].
  destruct l; simpl in *; [done|lia].
Qed.

Lemma getitem_lookup {A : Type} (l : list A) (k : Z) (x : A) :
  0 ≤ k → l !! Z.to_nat k = Some x → Py.getitem l k = Ok x.
Proof.
  intros Hk Hx.
  assert (Hlt : (k <? 0) = false) by (apply Z.ltb_ge; lia).
  unfold Py.getitem. cbv zeta. by rewrite !Hlt, Hx.
Qed.

(** [__getitem__] once the list entries at [index % len] and the decoded
    image are known: what is left is the label branch and the flip. *)
Lemma getitem_eval (env : world) (self : ListDataset) (index : Z) (u : Qc)
    (line lline : string) (img : image) (c h w : nat) :
  img_files self !! Z.to_nat (index mod Z.of_nat (length (img_files self))) = Some line →
  label_files self !! Z.to_nat (index mod Z.of_nat (length (img_files self))) = Some lline →
  load_image env (augment self) (Py.rstrip line) = Ok img →
  Torch.is_tensor3 c h w img → (0 < c)%nat → (0 < h)%nat →
  ListDataset_getitem env self index u =
    (targets ←
       (if path_exists (label_at env (Py.rstrip lline))
        then flat ← np_loadtxt (label_at env (Py.rstrip lline));
             boxes ← reshape5 flat;
             targets ← remap_boxes
                         (if normalized_labels self then Z.of_nat h else 1)
                         (if normalized_labels self then Z.of_nat w else 1)
                         (pad_to_square img 0%Qc).2
                         (Z.max (Z.of_nat h) (Z.of_nat w))
                         (Z.max (Z.of_nat h) (Z.of_nat w)) boxes;
             Ok (Some targets)
        else Ok None);
     if augment self
     then if bool_decide (u < 1 / 2)%Qc
          then '(img', targets) ← horisontal_flip (pad_to_square img 0%Qc).1 targets;
               Ok (Py.rstrip line, img', Some targets)
          else Ok (Py.rstrip line, (pad_to_square img 0%Qc).1, targets)
     else Ok (Py.rstrip line, (pad_to_square img 0%Qc).1, targets)).
Proof.
  intros Hline Hlline Hload Himg Hc0 Hh0.
  assert (Hne : img_files self ≠ []) by (intros E; by rewrite E in Hline).
  assert (Hlen : 0 < Z.of_nat (length (img_files self)))
    by (destruct (img_files self); simpl in *; [done|lia]).
  pose proof (Z.mod_pos_bound index _ Hlen) as Hb.
  destruct (pad_to_square_shape c h w img 0%Qc Himg Hc0 Hh0) as [_ Hshape].
  unfold ListDataset_getitem.
  rewrite (mod_nonempty _ index Hne). cbn [mbind result_bind].
  rewrite (getitem_lookup _ _ _ (proj1 Hb) Hline),
    (getitem_lookup _ _ _ (proj1 Hb) Hlline). cbn [mbind result_bind].
  rewrite Hload. cbn [mbind result_bind].
  rewrite (shape_of_tensor3 c h w img Himg Hc0 Hh0).
  destruct (pad_to_square img 0%Qc) as [out pad]. cbn [fst snd] in *.
  rewrite Hshape. by destruct (normalized_labels self).
Qed.

(** C2. When the derived label file does not exist, [__getitem__] returns
    [None] as the annotation set as long as the flip is not taken; with
    [augment=True] and a draw below 0.5 the call reaches
    [horisontal_flip(img, None)] and raises TypeError. *)
Theorem getitem_missing_label (env : world) (self : ListDataset) (index : Z)
    (u : Qc) (line lline : string) (img : image) :
  img_files self !! Z.to_nat (index mod Z.of_nat (length (img_files self))) = Some line →
  label_files self !! Z.to_nat (index mod Z.of_nat (length (img_files self))) = Some lline →
  load_image env (augment self) (Py.rstrip line) = Ok img →
  label_at env (Py.rstrip lline) = Absent →
  ListDataset_getitem env self index u =
    if augment self && bool_decide (u < 1 / 2)%Qc
    then Raise TypeError
    else Ok (Py.rstrip line, (pad_to_square img 0%Qc).1, None).
Proof.
  intros Hline Hlline Hload Habs.
  assert (Hne : img_files self ≠ []) by (intros E; by rewrite E in Hline).
  assert (Hlen : 0 < Z.of_nat (length (img_files self)))
    by (destruct (img_files self); simpl in *; [done|lia]).
  pose proof (Z.mod_pos_bound index _ Hlen) as Hb.
  unfold ListDataset_getitem.
  rewrite (mod_nonempty _ index Hne). cbn [mbind result_bind].
  rewrite (getitem_lookup _ _ _ (proj1 Hb) Hline),
    (getitem_lookup _ _ _ (proj1 Hb) Hlline). cbn [mbind result_bind].
  rewrite Hload, Habs. cbn [mbind result_bind path_exists].
  destruct (Torch.shape img) as [[? h] w].
  destruct (if normalized_labels self then _ else _) as [h_factor w_factor].
  destruct (pad_to_square img 0%Qc) as [out pad].
  destruct (Torch.shape out) as [[? padded_h] padded_w]. cbn [fst].
  destruct (augment self); [|done].
  by destruct (bool_decide (u < 1 / 2)%Qc).
Qed.

(** A label file that exists and holds no row gives an annotation tensor with
    zero rows, not [None]; the flip, when taken, leaves it empty. *)
Lemma getitem_zero_rows (env : world) (self : ListDataset) (index : Z)
    (u : Qc) (line lline : string) (img : image) (c h w : nat) :
  img_files self !! Z.to_nat (index mod Z.of_nat (length (img_files self))) = Some line →
  label_files self !! Z.to_nat (index mod Z.of_nat (length (img_files self))) = Some lline →
  load_image env (augment self) (Py.rstrip line) = Ok img →
  Torch.is_tensor3 c h w img → (0 < c)%nat → (0 < h)%nat →
  label_at env (Py.rstrip lline) = Rows [] →
  ListDataset_getitem env self index u =
    Ok (Py.rstrip line,
        if augment self && bool_decide (u < 1 / 2)%Qc
        then Torch.flip_last (pad_to_square img 0%Qc).1
        else (pad_to_square img 0%Qc).1,
        Some []).
Proof.
  intros Hline Hlline Hload Himg Hc0 Hh0 Hrows.
  rewrite (getitem_eval env self index u line lline img c h w) by done.
  rewrite Hrows. cbn [path_exists np_loadtxt reshape5 mbind result_bind].
  unfold remap_boxes.
  assert (Hmax : (Z.max (Z.of_nat h) (Z.of_nat w) =? 0) = false)
    by (apply Z.eqb_neq; lia).
  rewrite Hmax. cbn [mbind result_bind fmap list_fmap].
  destruct (augment self); [|done].
  by destruct (bool_decide (u < 1 / 2)%Qc).
Qed.

Lemma flip_last_is_tensor3 (c h w : nat) (img : image) :
  Torch.is_tensor3 c h w img → Torch.is_tensor3 c h w (Torch.flip_last img).
Proof.
  intros [Hc Hall]. split; [by unfold Torch.flip_last; rewrite length_fmap|].
  apply Forall_fmap. eapply Forall_impl; [exact Hall|].
  intros ch [Hh Hrows]. simpl. split; [by rewrite length_fmap|].
  apply Forall_fmap. eapply Forall_impl; [exact Hrows|].
  intros row Hw. simpl in *. by rewrite length_reverse.
Qed.

(** Two annotation rows are equal when their entries are equal as fractions. *)
Lemma Target_canon (a b x y w h a' b' x' y' w' h' : Qc) :
  (a == a')%Q → (b == b')%Q → (x == x')%Q → (y == y')%Q →
  (w == w')%Q → (h == h')%Q →
  Target a b x y w h = Target a' b' x' y' w' h'.
Proof. intros. f_equal; by apply Qc_is_canon. Qed.

(** C4. A 100x50 image (width 100, height 50) with the one normalized label
    [0 0.5 0.5 0.2 0.4]: [pad_to_square] pads top and bottom by 25 each and
    nothing left and right, the padded frame is 100x100, and the annotation
    [__getitem__] returns has class 0, centre (0.5, 0.5), width 0.2 and
    height 0.2 (exact rational arithmetic). *)
Theorem getitem_100x50_example (env : world) (self : ListDataset) (index : Z)
    (u : Qc) (line lline : string) (img : image) (c : nat) :
  img_files self !! Z.to_nat (index mod Z.of_nat (length (img_files self))) = Some line →
  label_files self !! Z.to_nat (index mod Z.of_nat (length (img_files self))) = Some lline →
  load_image env (augment self) (Py.rstrip line) = Ok img →
  Torch.is_tensor3 c 50 100 img → (0 < c)%nat →
  normalized_labels self = true →
  label_at env (Py.rstrip lline)
    = Rows [[0%Qc; Q2Qc (1 # 2); Q2Qc (1 # 2); Q2Qc (1 # 5); Q2Qc (2 # 5)]] →
  (pad_to_square img 0%Qc).2 = (0, 0, 25, 25)
  ∧ Torch.is_tensor3 c 100 100 (pad_to_square img 0%Qc).1
  ∧ ∃ out : image,
      Torch.is_tensor3 c 100 100 out
      ∧ ListDataset_getitem env self index u =
          Ok (Py.rstrip line, out,
              Some [Target 0%Qc 0%Qc (Q2Qc (1 # 2)) (Q2Qc (1 # 2))
                           (Q2Qc (1 # 5)) (Q2Qc (1 # 5))]).
Proof.
  intros Hline Hlline Hload Himg Hc0 Hnorm Hrows.
  assert (Hh0 : (0 < 50)%nat) by lia.
  destruct (pad_to_square_shape c 50 100 img 0%Qc Himg Hc0 Hh0) as [Hout _].
  assert (Hpad : (pad_to_square img 0%Qc).2 = (0, 0, 25, 25))
    by (by rewrite (pad_to_square_eq c 50 100 img 0%Qc Himg Hc0 Hh0)).
  split_and!; [done|done|].
  rewrite (getitem_eval env self index u line lline img c 50 100) by done.
  rewrite Hrows, Hnorm, Hpad.
  cbn [path_exists np_loadtxt forallb concat app reshape5 mbind result_bind].
  assert (Hremap :
    remap_boxes (Z.of_nat 50) (Z.of_nat 100) (0, 0, 25, 25)
      (Z.max (Z.of_nat 50) (Z.of_nat 100)) (Z.max (Z.of_nat 50) (Z.of_nat 100))
      [Box 0%Qc (Q2Qc (1 # 2)) (Q2Qc (1 # 2)) (Q2Qc (1 # 5)) (Q2Qc (2 # 5))]
    = Ok [Target 0%Qc 0%Qc (Q2Qc (1 # 2)) (Q2Qc (1 # 2))
                 (Q2Qc (1 # 5)) (Q2Qc (1 # 5))]).
  { unfold remap_boxes.
    change (Z.max (Z.of_nat 50) (Z.of_nat 100) =? 0) with false.
    cbn [fmap list_fmap]. do 2 f_equal.
    apply Target_canon; by vm_compute. }
  rewrite Hremap. cbn [mbind result_bind].
  destruct (augment self); [|by eauto].
  destruct (bool_decide (u < 1 / 2)%Qc); [|by eauto].
  exists (Torch.flip_last (pad_to_square img 0%Qc).1).
  split; [by apply flip_last_is_tensor3|].
  unfold horisontal_flip. cbn [mbind result_bind fmap list_fmap].
  set (t := Target 0%Qc 0%Qc (Q2Qc (1 # 2)) (Q2Qc (1 # 2)) (Q2Qc (1 # 5)) (Q2Qc (1 # 5))).
  assert (Hflip : flip_row t = t) by (apply Target_canon; by vm_compute).
  by rewrite Hflip.
Qed.

(** ** Index wrapping *)

(** [__init__] derives one label path per image path. *)
Lemma ListDataset_init_lengths (lines : list string) (size : Z)
    (aug ms norm : bool) :
  length (label_files (ListDataset_init lines size aug ms norm))
  = length (img_files (ListDataset_init lines size aug ms norm)).
Proof. simpl. by rewrite length_fmap. Qed.

(** [__getitem__(index)] only looks at the entries at position
    [index mod N]: a dataset holding just these gives the same item at 0. *)
Lemma ListDataset_getitem_select (env : world) (self : ListDataset) (index : Z)
    (u : Qc) (line lline : string) :
  img_files self !! Z.to_nat (index mod Z.of_nat (length (img_files self))) = Some line →
  label_files self !! Z.to_nat (index mod Z.of_nat (length (img_files self))) = Some lline →
  ListDataset_getitem env self index u
  = ListDataset_getitem env (set_files [line] [lline] self) 0 u.
Proof.
  intros Hline Hlline.
  assert (Hne : img_files self ≠ []) by (intros E; by rewrite E in Hline).
  assert (Hlen : 0 < Z.of_nat (length (img_files self)))
    by (destruct (img_files self); simpl in *; [done|lia]).
  pose proof (Z.mod_pos_bound index _ Hlen) as Hb.
  unfold ListDataset_getitem.
  rewrite (mod_nonempty _ index Hne). cbn [mbind result_bind].
  rewrite (getitem_lookup _ _ _ (proj1 Hb) Hline),
    (getitem_lookup _ _ _ (proj1 Hb) Hlline).
  reflexivity.
Qed.

Lemma np_loadtxt_not_IndexError (f : label_file) :
  np_loadtxt f ≠ Raise IndexError.
Proof. destruct f as [| | |[|r rest]]; simpl; try done. by case_match. Qed.

Lemma reshape5_not_IndexError (flat : list Qc) :
  reshape5 flat ≠ Raise IndexError.
Proof.
  remember (length flat) as n eqn:Hn.
  revert flat Hn. induction (lt_wf n) as [n _ IH]. intros flat ->.
  destruct flat as [|a [|b [|c [|d [|e rest]]]]]; simpl; try done.
  specialize (IH (length rest) ltac:(simpl; lia) rest eq_refl).
  by destruct (reshape5 rest).
Qed.

Lemma ListDataset_getitem_not_IndexError (env : world) (self : ListDataset)
    (index : Z) (u : Qc) :
  img_files self ≠ [] → length (label_files self) = length (img_files self) →
  ListDataset_getitem env self index u ≠ Raise IndexError.
Proof.
  intros Hne Hlen.
  destruct (getitem_mod (img_files self) index Hne) as (line & _ & Hline).
  assert (Hne' : label_files self ≠ [])
    by (intros E; rewrite E in Hlen; by destruct (img_files self)).
  destruct (getitem_mod (label_files self) index Hne') as (lline & _ & Hlline).
  rewrite Hlen in Hlline.
  unfold ListDataset_getitem.
  rewrite (mod_nonempty _ index Hne). cbn [mbind result_bind].
  rewrite Hline, Hlline. cbn [mbind result_bind].
  unfold load_image. destruct (image_file env _) as [img|]; [|done].
  cbn [mbind result_bind].
  destruct (Torch.shape _) as [[? h] w].
  destruct (if normalized_labels self then _ else _) as [h_factor w_factor].
  destruct (pad_to_square _ _) as [out pad].
  destruct (Torch.shape out) as [[? padded_h] padded_w].
  destruct (path_exists _).
  - pose proof (np_loadtxt_not_IndexError (label_at env (Py.rstrip lline))).
    destruct (np_loadtxt _) as [flat|e]; [|by cbn; congruence].
    cbn [mbind result_bind].
    pose proof (reshape5_not_IndexError flat).
    destruct (reshape5 flat) as [boxes|e]; [|by cbn; congruence].
    cbn [mbind result_bind]. unfold remap_boxes.
    repeat case_match; by cbn.
  - cbn [mbind result_bind]. repeat case_match; by cbn.
Qed.

(** ** [collate_fn] *)

Lemma set_batch_index_spec (i : nat) (boxes : targets_tensor) :
  Forall (λ t, batch_index t = Qc_of_Z (Z.of_nat i)) (set_batch_index i boxes)
  ∧ class_id <$> set_batch_index i boxes = class_id <$> boxes
  ∧ center_x <$> set_batch_index i boxes = center_x <$> boxes
  ∧ center_y <$> set_batch_index i boxes = center_y <$> boxes
  ∧ width <$> set_batch_index i boxes = width <$> boxes
  ∧ height <$> set_batch_index i boxes = height <$> boxes.
Proof.
  unfold set_batch_index. split_and!; try (by rewrite <- list_fmap_compose).
  apply Forall_fmap, Forall_true. done.
Qed.

Lemma index_targets_notin (targets : list nat) (i : nat) (σ : heap) (l : nat) :
  l ∉ targets → index_targets i targets σ !! l = σ !! l.
Proof.
  revert i σ. induction targets as [|l' rest IH]; intros i σ Hl; [done|].
  apply not_elem_of_cons in Hl as [Hne Hrest]. simpl.
  rewrite IH by done. by rewrite lookup_alter_ne.
Qed.

(** With distinct tensors in the list, the one at position [k] ends with
    column 0 set to [i + k]. *)
Lemma index_targets_lookup (targets : list nat) (i k : nat) (σ : heap) (l : nat) :
  NoDup targets → targets !! k = Some l →
  index_targets i targets σ !! l = set_batch_index (i + k) <$> σ !! l.
Proof.
  revert i k σ. induction targets as [|l' rest IH]; intros i k σ Hnd Hk; [done|].
  apply NoDup_cons in Hnd as [Hnotin Hnd]. simpl.
  destruct k as [|k]; simpl in Hk.
  - injection Hk as ->. rewrite index_targets_notin by done.
    rewrite lookup_alter_eq. by rewrite Nat.add_0_r.
  - rewrite (IH (S i) k) by done.
    assert (l' ≠ l) by (intros ->; apply Hnotin; by eapply list_elem_of_lookup_2).
    rewrite lookup_alter_ne by done. by replace (S i + k)%nat with (i + S k)%nat by lia.
Qed.

Lemma deref_index_targets (targets : list nat) (i : nat) (σ : heap) :
  NoDup targets →
  deref (index_targets i targets σ) <$> targets
  = imap (λ k l, set_batch_index (i + k) (deref σ l)) targets.
Proof.
  intros Hnd. apply list_eq. intros k.
  rewrite list_lookup_fmap, list_lookup_imap.
  destruct (targets !! k) as [l|] eqn:Hk; [|done]. simpl. f_equal.
  unfold deref. rewrite (index_targets_lookup targets i k σ l) by done.
  by destruct (σ !! l).
Qed.

(** The ten resolutions of [range(320, 608 + 1, 32)], and what
    [random.choice] returns on them. *)
Lemma multiscale_range :
  Py.range 320 (608 + 1) 32 = [320; 352; 384; 416; 448; 480; 512; 544; 576; 608].
Proof. reflexivity. Qed.

Lemma random_choice_range (r : nat) :
  Py.random_choice r (Py.range 320 (608 + 1) 32)
  = Ok (320 + 32 * Z.of_nat (r mod 10)).
Proof.
  rewrite multiscale_range. unfold Py.random_choice.
  change (length [320; 352; 384; 416; 448; 480; 512; 544; 576; 608]) with 10%nat.
  pose proof (Nat.mod_upper_bound r 10 ltac:(lia)) as Hb.
  destruct (r mod 10)%nat as [|[|[|[|[|[|[|[|[|[|k]]]]]]]]]]; try reflexivity. lia.
Qed.

(** What [__getitem__] reads: the picture file named by the entry at
    [index % len], and the label file named by the entry of [label_files] at
    the same position. *)
Lemma getitem_reads_entry (env : world) (self : ListDataset) (index : Z)
    (u : Qc) (line lline : string) :
  img_files self !! Z.to_nat (index mod Z.of_nat (length (img_files self))) = Some line →
  label_files self !! Z.to_nat (index mod Z.of_nat (length (img_files self))) = Some lline →
  world_ok env →
  match load_image env (augment self) (Py.rstrip line) with
  | Raise _ => ListDataset_getitem env self index u = Raise OSError
  | Ok img0 =>
      let padded := (pad_to_square img0 0%Qc).1 in
      let flips := augment self && bool_decide (u < 1 / 2)%Qc in
      (label_at env (Py.rstrip lline) = Absent →
       ListDataset_getitem env self index u
       = if flips then Raise TypeError
         else Ok (Py.rstrip line, padded, None))
      ∧ (∀ (p : string) (img : image) (t : option targets_tensor),
           ListDataset_getitem env self index u = Ok (p, img, t) →
           p = Py.rstrip line
           ∧ img = (if flips then Torch.flip_last padded else padded)
           ∧ (t = None ↔ label_at env (Py.rstrip lline) = Absent))
  end.
Proof.
  intros Hline Hlline Hw.
  destruct (load_image env (augment self) (Py.rstrip line)) as [img0|e] eqn:Hload.
  2:{ assert (Hne : img_files self ≠ []) by (intros E; by rewrite E in Hline).
      assert (Hlen : 0 < Z.of_nat (length (img_files self)))
        by (destruct (img_files self); simpl in *; [done|lia]).
      pose proof (Z.mod_pos_bound index _ Hlen) as Hb.
      unfold ListDataset_getitem.
      rewrite (mod_nonempty _ index Hne). cbn [mbind result_bind].
      rewrite (getitem_lookup _ _ _ (proj1 Hb) Hline). cbn [mbind result_bind].
      rewrite Hload. cbn [mbind result_bind].
      unfold load_image in Hload.
      destruct (image_file env (Py.rstrip line)); [done|]. by injection Hload as <-. }
  destruct (Hw _ _ _ Hload) as (h & w & Himg & Hh & Hw0).
  rewrite (getitem_eval env self index u line lline img0 3 h w Hline Hlline Hload
             Himg ltac:(lia) Hh).
  cbv zeta. split.
  - intros ->. cbn [path_exists mbind result_bind].
    destruct (augment self); [destruct (bool_decide (u < 1 / 2)%Qc)|]; done.
  - intros p img t.
    destruct (label_at env (Py.rstrip lline)) as [| | |rows] eqn:Hlab;
      cbn [path_exists mbind result_bind].
    + destruct (augment self); [destruct (bool_decide (u < 1 / 2)%Qc)|];
        cbn [andb horisontal_flip mbind result_bind]; [done|..];
        intros [= <- <- <-]; done.
    + done.
    + done.
    + destruct (np_loadtxt (Rows rows)) as [flat|e]; cbn [mbind result_bind]; [|done].
      destruct (reshape5 flat) as [boxes|e]; cbn [mbind result_bind]; [|done].
      destruct (remap_boxes _ _ _ _ _ boxes) as [targets|e];
        cbn [mbind result_bind]; [|done].
      destruct (augment self); [destruct (bool_decide (u < 1 / 2)%Qc)|];
        cbn [andb horisontal_flip mbind result_bind];
        intros [= <- <- <-]; (split_and!; [done|done|]); by split.
Qed.

Section CollateProperties.

Variable interpolate : image → Z → image.

(** What the model asks of [F.interpolate]: resizing a (C, H, W) tensor with
    positive dimensions to a positive [size] gives a (C, size, size) one. *)
Hypothesis interpolate_shape :
  ∀ (img : image) (c h w : nat) (size : Z),
    Torch.is_tensor3 c h w img → (0 < c)%nat → (0 < h)%nat → (0 < w)%nat →
    0 < size →
    Torch.is_tensor3 c (Z.to_nat size) (Z.to_nat size) (interpolate img size).

Lemma stack_same_shape (imgs : list image) (c h w : nat) :
  imgs ≠ [] → (0 < c)%nat → (0 < h)%nat →
  Forall (Torch.is_tensor3 c h w) imgs →
  Torch.stack imgs = Ok imgs.
Proof.
  intros Hne Hc0 Hh0 Hall. destruct imgs as [|a rest]; [done|].
  apply Forall_cons in Hall as [Ha Hrest]. unfold Torch.stack.
  assert (Hsame : forallb (Torch.same_shape a) rest = true).
  { apply forallb_forall. intros b Hb. apply list_elem_of_In in Hb.
    unfold Torch.same_shape. apply bool_decide_eq_true.
    rewrite Forall_forall in Hrest.
    rewrite (shape_of_tensor3 c h w a), (shape_of_tensor3 c h w b); auto. }
  by rewrite Hsame.
Qed.

Lemma resized_batch (batch : list item) (c : nat) (size : Z) :
  (0 < c)%nat → images_ok c batch → 0 < size →
  Torch.is_tensor4 (length batch) c (Z.to_nat size) (Z.to_nat size)
    ((λ img, resize interpolate img size) <$> (item_image <$> batch)).
Proof.
  intros Hc0 Hok Hs. split; [by rewrite !length_fmap|].
  rewrite <- list_fmap_compose. apply Forall_fmap.
  eapply Forall_impl; [exact Hok|].
  intros it (h & w & Himg & Hh & Hw). simpl. unfold resize.
  by eapply interpolate_shape.
Qed.

(** A call on a non-empty batch of proper images completes, and this is
    its result and the state it leaves. *)
Lemma collate_fn_ok (self : ListDataset) (σ : heap) (batch : list item)
    (r : nat) (c : nat) :
  batch ≠ [] → (0 < c)%nat → images_ok c batch →
  (draws self = false → 0 < img_size self) →
  let size := if draws self then 320 + 32 * Z.of_nat (r mod 10)
              else img_size self in
  let σ' := index_targets 0 (batch_refs batch) σ in
  0 < size
  ∧ collate_fn interpolate self σ batch r =
      (set_batch_count (batch_count self + 1) (set_img_size size self), σ',
       Ok (item_path <$> batch,
           (λ img, resize interpolate img size) <$> (item_image <$> batch),
           match batch_refs batch with
           | [] => None
           | _ => Some (concat (deref σ' <$> batch_refs batch))
           end)).
Proof.
  intros Hne Hc0 Hok Hpos size σ'.
  assert (Hsize : 0 < size).
  { unfold size. destruct (draws self); [lia|by apply Hpos]. }
  split; [done|].
  pose proof (resized_batch batch c size Hc0 Hok Hsize) as [Hlen Hall].
  unfold collate_fn. destruct batch as [|it batch']; [done|].
  fold (batch_refs (it :: batch')). fold σ'.
  assert (Hcat : cat_or_none (deref σ' <$> batch_refs (it :: batch'))
            = Ok match batch_refs (it :: batch') with
                 | [] => None
                 | _ => Some (concat (deref σ' <$> batch_refs (it :: batch')))
                 end).
  { unfold cat_or_none, Torch.cat. by destruct (batch_refs (it :: batch')). }
  rewrite Hcat. fold (draws self).
  assert (Hchoice :
    (if draws self then Py.random_choice r (Py.range 320 (608 + 1) 32)
     else Ok (img_size self)) = Ok size).
  { unfold size. destruct (draws self); [apply random_choice_range|done]. }
  rewrite Hchoice. cbn [img_size set_img_size].
  rewrite (stack_same_shape _ c (Z.to_nat size) (Z.to_nat size));
    [done|done|done|lia|done].
Qed.

(** *** Index wrapping, both datasets *)

Lemma ListDataset_getitem_mod (env : world) (self : ListDataset) (index : Z)
    (u : Qc) :
  img_files self ≠ [] →
  ListDataset_getitem env self index u
  = ListDataset_getitem env self
      (index mod Z.of_nat (length (img_files self))) u.
Proof.
  intros Hne. unfold ListDataset_getitem.
  rewrite !(mod_nonempty _ _ Hne). by rewrite Z.mod_mod by (destruct (img_files self); simpl in *; [done|lia]).
Qed.

Lemma ImageFolder_getitem_facts (env : world) (self : ImageFolder) (index : Z) :
  files self ≠ [] →
  ∃ path : string,
    files self !! Z.to_nat (index mod Z.of_nat (length (files self))) = Some path
    ∧ ImageFolder_getitem interpolate env self index
      = ImageFolder_getitem interpolate env
          (MkImageFolder [path] (folder_img_size self)) 0
    ∧ ImageFolder_getitem interpolate env self index
      = ImageFolder_getitem interpolate env self
          (index mod Z.of_nat (length (files self)))
    ∧ ImageFolder_getitem interpolate env self index ≠ Raise IndexError.
Proof.
  intros Hne.
  destruct (getitem_mod (files self) index Hne) as (path & Hlook & Hget).
  exists path. unfold ImageFolder_getitem.
  rewrite !(mod_nonempty _ _ Hne).
  rewrite Z.mod_mod by (destruct (files self); simpl in *; [done|lia]).
  cbn [mbind result_bind]. rewrite Hget. cbn [mbind result_bind].
  split_and!; try done.
  unfold load_image. destruct (image_file env path); [|done].
  cbn [mbind result_bind]. by destruct (pad_to_square _ _).
Qed.

(** What [ImageFolder.__getitem__] reads and returns: the file named by the
    entry at [index % len]. *)
Lemma ImageFolder_getitem_reads (env : world) (self : ImageFolder) (index : Z)
    (path : string) :
  files self !! Z.to_nat (index mod Z.of_nat (length (files self))) = Some path →
  ImageFolder_getitem interpolate env self index
  = match image_file env path with
    | None => Raise OSError
    | Some img0 =>
        Ok (path, resize interpolate (pad_to_square img0 0%Qc).1
                    (folder_img_size self))
    end.
Proof.
  clear interpolate_shape. intros Hpath.
  assert (Hne : files self ≠ []) by (intros E; by rewrite E in Hpath).
  assert (Hlen : 0 < Z.of_nat (length (files self)))
    by (destruct (files self); simpl in *; [done|lia]).
  pose proof (Z.mod_pos_bound index _ Hlen) as Hb.
  unfold ImageFolder_getitem.
  rewrite (mod_nonempty _ index Hne). cbn [mbind result_bind].
  rewrite (getitem_lookup _ _ _ (proj1 Hb) Hpath). cbn [mbind result_bind].
  unfold load_image. destruct (image_file env path) as [img0|]; [|done].
  cbn [mbind result_bind]. by destruct (pad_to_square img0 0%Qc).
Qed.

(** C10. For a dataset of [N >= 1] files and every integer [index],
    [__getitem__(index)] takes the entry at list position [index mod N]:
    the position is inside the list, the item is the one a dataset holding
    only that entry yields at index 0, it equals the item at the in-range
    index [index mod N], and the call never raises IndexError.  This holds
    for [ListDataset] (whose [label_files] is as long as [img_files]) and
    for [ImageFolder].  The file named by that entry is the one read (with a
    decoder that gives 3-channel pictures).  For [ListDataset]: if the file
    named by the stripped entry does not decode, the call raises OSError;
    if it decodes and the label file of that position is absent, the call
    returns the stripped entry, that picture (colour-jittered under
    [augment]) padded to a square and [None] (or raises TypeError where it
    flips); and whenever the call returns, the path is the stripped entry,
    the picture is that file's picture padded to a square (and mirrored
    where it flips), and the annotations are [None] exactly when the label
    file of that position is absent.  For
    [ImageFolder] with a positive [img_size]: the call raises OSError if the
    file named by the entry does not decode, and otherwise returns the entry
    and that file's picture padded to a square and resized. *)
Theorem getitem_index_wraps (env : world) (self : ListDataset)
    (folder : ImageFolder) (index : Z) (u : Qc) :
  img_files self ≠ [] →
  length (label_files self) = length (img_files self) →
  files folder ≠ [] →
  (∃ line lline : string,
      img_files self !! Z.to_nat (index mod Z.of_nat (length (img_files self)))
        = Some line
      ∧ label_files self !! Z.to_nat (index mod Z.of_nat (length (img_files self)))
        = Some lline
      ∧ ListDataset_getitem env self index u
        = ListDataset_getitem env (set_files [line] [lline] self) 0 u
      ∧ ListDataset_getitem env self index u
        = ListDataset_getitem env self
            (index mod Z.of_nat (length (img_files self))) u
      ∧ ListDataset_getitem env self index u ≠ Raise IndexError
      ∧ (world_ok env →
         match load_image env (augment self) (Py.rstrip line) with
         | Raise _ => ListDataset_getitem env self index u = Raise OSError
         | Ok img0 =>
             let padded := (pad_to_square img0 0%Qc).1 in
             let flips := augment self && bool_decide (u < 1 / 2)%Qc in
             (label_at env (Py.rstrip lline) = Absent →
              ListDataset_getitem env self index u
              = if flips then Raise TypeError
                else Ok (Py.rstrip line, padded, None))
             ∧ (∀ (p : string) (img : image) (t : option targets_tensor),
                  ListDataset_getitem env self index u = Ok (p, img, t) →
                  p = Py.rstrip line
                  ∧ img = (if flips then Torch.flip_last padded else padded)
                  ∧ (t = None ↔ label_at env (Py.rstrip lline) = Absent))
         end))
  ∧ (∃ path : string,
      files folder !! Z.to_nat (index mod Z.of_nat (length (files folder)))
        = Some path
      ∧ ImageFolder_getitem interpolate env folder index
        = ImageFolder_getitem interpolate env
            (MkImageFolder [path] (folder_img_size folder)) 0
      ∧ ImageFolder_getitem interpolate env folder index
        = ImageFolder_getitem interpolate env folder
            (index mod Z.of_nat (length (files folder)))
      ∧ ImageFolder_getitem interpolate env folder index ≠ Raise IndexError
      ∧ (world_ok env → 0 < folder_img_size folder →
         ImageFolder_getitem interpolate env folder index
         = match image_file env path with
           | None => Raise OSError
           | Some img0 =>
               Ok (path, resize interpolate (pad_to_square img0 0%Qc).1
                           (folder_img_size folder))
           end)).
Proof.
  intros Hne Hlen Hfolder. split.
  - destruct (getitem_mod (img_files self) index Hne) as (line & Hline & _).
    assert (Hne' : label_files self ≠ [])
      by (intros E; rewrite E in Hlen; by destruct (img_files self)).
    destruct (getitem_mod (label_files self) index Hne') as (lline & Hlline & _).
    rewrite Hlen in Hlline.
    exists line, lline. split_and!; try done.
    + by apply ListDataset_getitem_select.
    + by apply ListDataset_getitem_mod.
    + by apply ListDataset_getitem_not_IndexError.
    + by apply getitem_reads_entry.
  - destruct (ImageFolder_getitem_facts env folder index Hfolder)
      as (path & Hpath & H1 & H2 & H3).
    exists path. split_and!; try done.
    intros _ _. by apply ImageFolder_getitem_reads.
Qed.

(** *** Positions in the filtered sequence *)

Lemma batch_refs_app (b1 b2 : list item) :
  batch_refs (b1 ++ b2) = batch_refs b1 ++ batch_refs b2.
Proof. unfold batch_refs. by rewrite fmap_app, omap_app. Qed.

Lemma batch_refs_length (batch : list item) :
  (length (batch_refs batch) ≤ length batch)%nat.
Proof.
  induction batch as [|[[p img] [l|]] rest IH]; [done| |].
  - change (batch_refs ((p, img, Some l) :: rest)) with (l :: batch_refs rest).
    simpl. lia.
  - change (batch_refs ((p, img, None) :: rest)) with (batch_refs rest).
    simpl. lia.
Qed.

Lemma batch_refs_all_none (batch : list item) :
  Forall (λ it, item_targets it = None) batch → batch_refs batch = [].
Proof.
  induction 1 as [|[[p img] t] rest Hnone _ IH]; [done|].
  unfold batch_refs in *. simpl in *. by rewrite Hnone.
Qed.

(** The item at batch position [j] that carries a tensor sits in the
    filtered sequence at the number of tensor-carrying items before it. *)
Lemma batch_refs_position (batch : list item) (j : nat) (p : string)
    (img : image) (l : nat) :
  batch !! j = Some (p, img, Some l) →
  batch_refs batch !! length (batch_refs (take j batch)) = Some l
  ∧ (length (batch_refs (take j batch)) ≤ j)%nat.
Proof.
  intros Hj. split.
  - replace (batch_refs batch)
      with (batch_refs (take j batch ++ (p, img, Some l) :: drop (S j) batch))
      by (by rewrite take_drop_middle).
    rewrite batch_refs_app.
    rewrite lookup_app_r by lia. by rewrite Nat.sub_diag.
  - pose proof (batch_refs_length (take j batch)) as Hle.
    rewrite length_take in Hle. lia.
Qed.

Lemma batch_refs_position_lt (batch : list item) (j j' : nat)
    (p : string) (img : image) :
  (j' < j)%nat → batch !! j' = Some (p, img, None) →
  (length (batch_refs (take j batch)) < j)%nat.
Proof.
  intros Hlt Hj'.
  assert (Hj'' : take j batch !! j' = Some (p, img, None))
    by (by rewrite lookup_take_lt).
  replace (batch_refs (take j batch))
    with (batch_refs (take j' (take j batch)
                      ++ (p, img, None) :: drop (S j') (take j batch)))
    by (by rewrite take_drop_middle).
  rewrite batch_refs_app.
  change (batch_refs ((p, img, None) :: drop (S j') (take j batch)))
    with (batch_refs (drop (S j') (take j batch))).
  rewrite length_app.
  pose proof (batch_refs_length (take j' (take j batch))) as H1.
  pose proof (batch_refs_length (drop (S j') (take j batch))) as H2.
  rewrite length_take in H1. rewrite length_drop in H2.
  assert (j' < length batch)%nat by (by eapply lookup_lt_Some).
  rewrite length_take in H1, H2. lia.
Qed.

(** C1 (as the code has it). For a batch of items whose annotation tensors
    are distinct objects (each comes from its own [__getitem__] call),
    [collate_fn] drops the items whose annotation set is [None] and overwrites
    column 0 of every record of the i-th remaining tensor with [i], its
    position in the filtered sequence: the tensors themselves are updated and
    the concatenated output holds the remaining sets in order with these
    indices.  The indices run over [0 .. K-1] where [K] counts the remaining
    sets, those that are not [None]; a tensor without rows is one of them.
    The index of the item at batch position [j] is the number of remaining
    sets before it: at most [j], and less than [j] as soon as an earlier item
    carried [None]. *)
Theorem collate_fn_batch_index (self : ListDataset) (σ : heap)
    (batch : list item) (r : nat) (c : nat) :
  batch ≠ [] → (0 < c)%nat → images_ok c batch →
  (draws self = false → 0 < img_size self) →
  NoDup (batch_refs batch) →
  ∃ (self' : ListDataset) (σ' : heap) (paths : list string)
    (imgs : list image) (targets : option targets_tensor),
    collate_fn interpolate self σ batch r = (self', σ', Ok (paths, imgs, targets))
    ∧ (∀ (i l : nat), batch_refs batch !! i = Some l →
         (i < length (batch_refs batch))%nat
         ∧ σ' !! l = set_batch_index i <$> σ !! l
         ∧ Forall (λ t, batch_index t = Qc_of_Z (Z.of_nat i)) (deref σ' l))
    ∧ targets = match batch_refs batch with
                | [] => None
                | _ => Some (concat (imap (λ i l, set_batch_index i (deref σ l))
                                          (batch_refs batch)))
                end
    ∧ (∀ (j : nat) (p : string) (img : image) (l : nat),
         batch !! j = Some (p, img, Some l) →
         batch_refs batch !! length (batch_refs (take j batch)) = Some l
         ∧ (length (batch_refs (take j batch)) ≤ j)%nat
         ∧ ∀ (j' : nat) (p' : string) (img' : image),
             (j' < j)%nat → batch !! j' = Some (p', img', None) →
             (length (batch_refs (take j batch)) < j)%nat).
Proof.
  intros Hne Hc0 Hok Hpos Hnd.
  destruct (collate_fn_ok self σ batch r c Hne Hc0 Hok Hpos) as [_ Heq].
  eexists _, _, _, _, _. split; [exact Heq|]. split_and!.
  - intros i l Hi. split; [by eapply lookup_lt_Some|].
    pose proof (index_targets_lookup (batch_refs batch) 0 i σ l Hnd Hi) as Hl.
    rewrite Nat.add_0_l in Hl. split; [done|].
    unfold deref. rewrite Hl. destruct (σ !! l); simpl; [|done].
    apply set_batch_index_spec.
  - by rewrite (deref_index_targets _ 0 σ Hnd).
  - intros j p img l Hj.
    destruct (batch_refs_position batch j p img l Hj) as [H1 H2].
    split_and!; [done|done|].
    intros j' p' img' Hlt Hj'. by eapply batch_refs_position_lt.
Qed.

(** C3 (as the code has it). A label file that exists and holds no row does
    not give the no-annotations marker: [__getitem__] returns an annotation
    tensor with zero rows.  [collate_fn] filters only [None], so this
    tensor stays in the filtered sequence: it takes the next index of the
    numbering, the sets after it are numbered one higher, it adds no record
    to the concatenated tensor, and the annotation output is a tensor (not
    [None]) even when nothing else in the batch carries a record. *)
Theorem zero_row_label_kept (env : world) (self : ListDataset) (index : Z)
    (u : Qc) (line lline : string) (img : image) (ch h w : nat)
    (σ : heap) (b1 b2 : list item) (p : string) (img0 : image) (l : nat)
    (r : nat) (c : nat) :
  img_files self !! Z.to_nat (index mod Z.of_nat (length (img_files self))) = Some line →
  label_files self !! Z.to_nat (index mod Z.of_nat (length (img_files self))) = Some lline →
  load_image env (augment self) (Py.rstrip line) = Ok img →
  Torch.is_tensor3 ch h w img → (0 < ch)%nat → (0 < h)%nat →
  label_at env (Py.rstrip lline) = Rows [] →
  (0 < c)%nat → images_ok c (b1 ++ (p, img0, Some l) :: b2) →
  (draws self = false → 0 < img_size self) →
  NoDup (batch_refs (b1 ++ (p, img0, Some l) :: b2)) →
  σ !! l = Some [] →
  (∃ out : image,
      ListDataset_getitem env self index u = Ok (Py.rstrip line, out, Some []))
  ∧ ∃ (self' : ListDataset) (σ' : heap) (paths : list string)
      (imgs : list image) (targets : targets_tensor),
      collate_fn interpolate self σ (b1 ++ (p, img0, Some l) :: b2) r
        = (self', σ', Ok (paths, imgs, Some targets))
      ∧ batch_refs (b1 ++ (p, img0, Some l) :: b2)
        = batch_refs b1 ++ l :: batch_refs b2
      ∧ targets
        = concat (imap (λ i l', set_batch_index i (deref σ l')) (batch_refs b1))
          ++ concat (imap (λ i l', set_batch_index (S (length (batch_refs b1)) + i)
                                                  (deref σ l'))
                          (batch_refs b2)).
Proof.
  intros Hline Hlline Hload Himg Hch0 Hh0 Hrows Hc0 Hok Hpos Hnd Hl.
  split.
  - eexists. by eapply getitem_zero_rows.
  - assert (Hne : b1 ++ (p, img0, Some l) :: b2 ≠ []) by (by destruct b1).
    destruct (collate_fn_ok self σ _ r c Hne Hc0 Hok Hpos) as [_ Heq].
    assert (Hrefs : batch_refs (b1 ++ (p, img0, Some l) :: b2)
                    = batch_refs b1 ++ l :: batch_refs b2)
      by (by rewrite batch_refs_app).
    rewrite (deref_index_targets _ 0 σ Hnd) in Heq. rewrite Hrefs in Heq.
    destruct (batch_refs b1 ++ l :: batch_refs b2) eqn:Hcons;
      [by destruct (batch_refs b1)|]. rewrite <- Hcons in Heq.
    eexists _, _, _, _, _. split; [exact Heq|]. split; [done|].
    rewrite imap_app, imap_cons, concat_app. simpl.
    unfold deref at 2. rewrite Hl. simpl. f_equal.
    f_equal. apply imap_ext. intros i l' _. simpl. do 2 f_equal. lia.
Qed.

(** *** The resolution of a batch *)

(** C7. One call of [collate_fn] on a non-empty batch of [C]-channel images
    resizes every image of the batch with one resolution [S], the value
    [self.img_size] has after the call, and the stacked output has shape
    [N, C, S, S]; [S] differs from the resolution before the call only when
    [multiscale] is on and the batch counter is a multiple of 10. *)
Theorem collate_fn_one_resolution (self : ListDataset) (σ : heap)
    (batch : list item) (r : nat) (c : nat) :
  batch ≠ [] → (0 < c)%nat → images_ok c batch →
  (draws self = false → 0 < img_size self) →
  ∃ (self' : ListDataset) (σ' : heap) (paths : list string)
    (imgs : list image) (targets : option targets_tensor),
    collate_fn interpolate self σ batch r = (self', σ', Ok (paths, imgs, targets))
    ∧ 0 < img_size self'
    ∧ imgs = (λ img, resize interpolate img (img_size self'))
               <$> (item_image <$> batch)
    ∧ Torch.is_tensor4 (length batch) c (Z.to_nat (img_size self'))
        (Z.to_nat (img_size self')) imgs
    ∧ (img_size self' ≠ img_size self →
       multiscale self = true ∧ batch_count self mod 10 = 0).
Proof.
  intros Hne Hc0 Hok Hpos.
  destruct (collate_fn_ok self σ batch r c Hne Hc0 Hok Hpos) as [Hsize Heq].
  eexists _, _, _, _, _. split; [exact Heq|]. cbn [img_size set_batch_count set_img_size].
  split_and!; [done|done|by apply resized_batch|].
  unfold draws. destruct (multiscale self); simpl; [|done].
  destruct (Z.eqb_spec (batch_count self mod 10) 0); done.
Qed.

(** C9. When every item of a non-empty batch of [C]-channel images carries
    [None], [collate_fn] completes: the annotation output is [None], no tensor is written, the
    paths are kept and the images are stacked into a tensor of the full
    batch size.  The stacked tensor holds, at each batch position, that
    item's image resized to the resolution [S] the object holds after the
    call, so it has shape [(N, C, S, S)] and [torch.stack] accepts the
    resized images; [S] is the resolution drawn in a call that draws and the
    object's [img_size] otherwise; the call counts as a batch
    ([batch_count] goes up by one) and changes nothing else of the
    object. *)
Theorem collate_fn_no_annotations (self : ListDataset) (σ : heap)
    (batch : list item) (r : nat) (c : nat) :
  batch ≠ [] → (0 < c)%nat → images_ok c batch →
  (draws self = false → 0 < img_size self) →
  Forall (λ it, item_targets it = None) batch →
  ∃ (self' : ListDataset) (imgs : list image),
    collate_fn interpolate self σ batch r
      = (self', σ, Ok (item_path <$> batch, imgs, None))
    ∧ length imgs = length batch
    ∧ Torch.is_tensor4 (length batch) c (Z.to_nat (img_size self'))
        (Z.to_nat (img_size self')) imgs
    ∧ imgs = (λ img, resize interpolate img (img_size self'))
               <$> (item_image <$> batch)
    ∧ (∀ (j : nat) (it : item),
         batch !! j = Some it →
         imgs !! j = Some (resize interpolate (item_image it) (img_size self')))
    ∧ Torch.stack imgs = Ok imgs
    ∧ 0 < img_size self'
    ∧ img_size self'
      = (if draws self then 320 + 32 * Z.of_nat (r mod 10) else img_size self)
    ∧ self' = set_batch_count (batch_count self + 1)
                (set_img_size (img_size self') self)
    ∧ batch_count self' = batch_count self + 1.
Proof.
  intros Hne Hc0 Hok Hpos Hnone.
  destruct (collate_fn_ok self σ batch r c Hne Hc0 Hok Hpos) as [Hsize Heq].
  rewrite (batch_refs_all_none batch Hnone) in Heq. simpl in Heq.
  eexists _, _. split; [exact Heq|]. cbn [img_size set_batch_count set_img_size].
  pose proof (resized_batch batch c
                (if draws self then 320 + 32 * Z.of_nat (r mod 10)
                 else img_size self) Hc0 Hok Hsize) as Hshape.
  split_and!; try done.
  - by rewrite !length_fmap.
  - intros j it Hj. by rewrite !list_lookup_fmap, Hj.
  - destruct Hshape as [_ Hall].
    eapply stack_same_shape; [|exact Hc0| |exact Hall]; [|lia].
    destruct batch; [done|]. done.
Qed.

(** *** The resize schedule *)

Lemma drawn_in_range (r : nat) :
  320 + 32 * Z.of_nat (r mod 10) ∈ Py.range 320 (608 + 1) 32.
Proof.
  rewrite multiscale_range.
  pose proof (Nat.mod_upper_bound r 10 ltac:(lia)) as Hb.
  destruct (r mod 10)%nat as [|[|[|[|[|[|[|[|[|[|k]]]]]]]]]];
    [simpl; set_solver ..|lia].
Qed.

Lemma draws_multiscale (self : ListDataset) :
  multiscale self = true →
  draws self = bool_decide (batch_count self mod 10 = 0).
Proof.
  intros Hms. unfold draws. rewrite Hms. simpl.
  destruct (Z.eqb_spec (batch_count self mod 10) 0);
    [by rewrite bool_decide_eq_true_2|by rewrite bool_decide_eq_false_2].
Qed.

(** C6. Over successive [collate_fn] calls on one dataset with
    [multiscale] on, each on a non-empty batch of [C]-channel images: every
    call completes and leaves the batch counter one higher; the call that starts with a counter that is a multiple of 10
    resizes with a resolution drawn by [random.choice] from
    [{320, 352, ..., 608}]; every other call resizes with the resolution of
    the call before it (the resolution the dataset holds, for the first
    call of the run).  After [__init__] the counter is 0 and the resolution
    is the configured [img_size]. *)
Theorem collate_fn_schedule (calls : list (list item * nat))
    (self : ListDataset) (σ : heap) (c : nat) :
  multiscale self = true → (0 < c)%nat →
  Forall (λ call, call.1 ≠ [] ∧ images_ok c call.1) calls →
  (batch_count self mod 10 ≠ 0 → 0 < img_size self) →
  length (collate_run interpolate self σ calls).2 = length calls
  ∧ batch_count (collate_run interpolate self σ calls).1
    = batch_count self + Z.of_nat (length calls)
  ∧ (∀ (k : nat) (batch : list item) (r : nat),
       calls !! k = Some (batch, r) →
       ∃ s : Z,
         (collate_run interpolate self σ calls).2 !! k
           = Some (s, batch_count self + Z.of_nat k + 1)
         ∧ ((batch_count self + Z.of_nat k) mod 10 = 0 →
            Py.random_choice r (Py.range 320 (608 + 1) 32) = Ok s
            ∧ s ∈ [320; 352; 384; 416; 448; 480; 512; 544; 576; 608])
         ∧ ((batch_count self + Z.of_nat k) mod 10 ≠ 0 →
            s = match k with
                | O => img_size self
                | S k' =>
                    default 0
                      (fst <$> (collate_run interpolate self σ calls).2 !! k')
                end))
  ∧ (∀ (lines : list string) (size : Z) (aug ms norm : bool),
       batch_count (ListDataset_init lines size aug ms norm) = 0
       ∧ img_size (ListDataset_init lines size aug ms norm) = size).
Proof.
  intros Hms Hc0 Hall Hpos.
  assert (Hrun :
    length (collate_run interpolate self σ calls).2 = length calls
    ∧ batch_count (collate_run interpolate self σ calls).1
      = batch_count self + Z.of_nat (length calls)
    ∧ (∀ (k : nat) (batch : list item) (r : nat),
         calls !! k = Some (batch, r) →
         ∃ s : Z,
           (collate_run interpolate self σ calls).2 !! k
             = Some (s, batch_count self + Z.of_nat k + 1)
           ∧ ((batch_count self + Z.of_nat k) mod 10 = 0 →
              Py.random_choice r (Py.range 320 (608 + 1) 32) = Ok s
              ∧ s ∈ [320; 352; 384; 416; 448; 480; 512; 544; 576; 608])
           ∧ ((batch_count self + Z.of_nat k) mod 10 ≠ 0 →
              s = match k with
                  | O => img_size self
                  | S k' =>
                      default 0
                        (fst <$> (collate_run interpolate self σ calls).2 !! k')
                  end))); [|by destruct Hrun as (? & ? & ?)].
  revert self σ Hms Hpos.
  induction Hall as [|[batch r] rest [Hne Hok] Hrest IH]; intros self σ Hms Hpos.
  { simpl. split_and!; [done|lia|done]. }
  assert (Hpos' : draws self = false → 0 < img_size self).
  { rewrite (draws_multiscale self Hms). intros Hd.
    apply Hpos. by apply bool_decide_eq_false in Hd. }
  destruct (collate_fn_ok self σ batch r c Hne Hc0 Hok Hpos') as [Hsize Heq].
  simpl in Hne, Hok. cbn [collate_run]. rewrite Heq.
  set (size := if draws self then 320 + 32 * Z.of_nat (r mod 10)
               else img_size self) in *.
  set (self' := set_batch_count (batch_count self + 1) (set_img_size size self)).
  specialize (IH self' (index_targets 0 (batch_refs batch) σ) Hms
                (λ _, Hsize)).
  destruct (collate_run interpolate self' _ rest) as [final log].
  cbn [fst snd img_size batch_count self' set_batch_count set_img_size] in *.
  destruct IH as (IHlen & IHcount & IHlog).
  split_and!.
  - simpl. by rewrite IHlen.
  - rewrite IHcount. simpl length. lia.
  - intros k batch' r' Hk. destruct k as [|k]; simpl in Hk.
    + injection Hk as -> ->. exists size. split_and!.
      * simpl. do 2 f_equal. lia.
      * intros Hmod. rewrite Z.add_0_r in Hmod.
        assert (Hd : draws self = true)
          by (rewrite (draws_multiscale self Hms); by apply bool_decide_eq_true).
        unfold size. rewrite Hd. split; [apply random_choice_range|].
        rewrite <- multiscale_range. apply drawn_in_range.
      * intros Hmod. rewrite Z.add_0_r in Hmod.
        assert (Hd : draws self = false)
          by (rewrite (draws_multiscale self Hms); by apply bool_decide_eq_false).
        unfold size. by rewrite Hd.
    + destruct (IHlog k batch' r' Hk) as (s & Hs & Hdraw & Hkeep).
      replace (batch_count self + 1 + Z.of_nat k)
        with (batch_count self + Z.of_nat (S k)) in * by lia.
      exists s. split_and!; [by simpl|done|].
      intros Hmod. rewrite (Hkeep Hmod). by destruct k.
Qed.

End CollateProperties.

(** ** Batches of a data loader *)

(** The picture [__getitem__] returns is a square 3-channel tensor. *)
Lemma getitem_image_ok (env : world) (self : ListDataset) (index : Z) (u : Qc)
    (p : string) (img : image) (t : option targets_tensor) :
  world_ok env →
  ListDataset_getitem env self index u = Ok (p, img, t) →
  ∃ s : nat, Torch.is_tensor3 3 s s img ∧ (0 < s)%nat.
Proof.
  intros Hw Hget.
  destruct (decide (img_files self = [])) as [E|Hne].
  { unfold ListDataset_getitem in Hget. by rewrite E in Hget. }
  destruct (getitem_mod (img_files self) index Hne) as (line & _ & Hline).
  unfold ListDataset_getitem in Hget.
  rewrite (mod_nonempty _ index Hne) in Hget. cbn [mbind result_bind] in Hget.
  rewrite Hline in Hget. cbn [mbind result_bind] in Hget.
  destruct (load_image env (augment self) (Py.rstrip line)) as [img0|] eqn:Hload;
    [|done].
  cbn [mbind result_bind] in Hget.
  destruct (Hw _ _ _ Hload) as (h & w & Himg & Hh & Hw0).
  destruct (pad_to_square_shape 3 h w img0 0%Qc Himg ltac:(lia) Hh) as [Hout _].
  destruct (Torch.shape img0) as [[? ?] ?].
  destruct (if normalized_labels self then _ else _) as [h_factor w_factor].
  destruct (pad_to_square img0 0%Qc) as [out pad]. cbn [fst] in Hout.
  destruct (Torch.shape out) as [[? padded_h] padded_w].
  destruct (Py.getitem (label_files self) _) as [lline|]; [|done].
  cbn [mbind result_bind] in Hget.
  match type of Hget with
  | (?m ≫= _) = _ => destruct m as [targets|]; [|done]
  end.
  cbn [mbind result_bind] in Hget.
  exists (Nat.max h w). split; [|lia].
  destruct (augment self); [destruct (bool_decide (u < 1 / 2)%Qc)|].
  - destruct targets as [targets|]; [|done].
    cbn in Hget. injection Hget as _ <- _. by apply flip_last_is_tensor3.
  - by injection Hget as _ <- _.
  - by injection Hget as _ <- _.
Qed.

(** A fetched batch has one item per request, each the result of its
    [__getitem__] call; the annotation tensors sit at distinct locations
    that were unused before, and the tensors already stored are untouched. *)
Lemma fetch_spec (env : world) (self : ListDataset) (requests : list (Z * Qc)) :
  ∀ (σ σ' : heap) (batch : list item),
    fetch env self σ requests = Ok (σ', batch) →
    length batch = length requests
    ∧ NoDup (batch_refs batch)
    ∧ (∀ l : nat, l ∈ batch_refs batch → σ !! l = None ∧ is_Some (σ' !! l))
    ∧ (∀ l : nat, is_Some (σ !! l) → σ' !! l = σ !! l)
    ∧ Forall2 (λ (req : Z * Qc) (it : item),
                 ListDataset_getitem env self req.1 req.2
                 = Ok (item_path it, item_image it,
                       l ← item_targets it; σ' !! l))
        requests batch.
Proof.
  induction requests as [|[index u] rest IH]; intros σ σ' batch Hfetch.
  { injection Hfetch as <- <-. split_and!; try done.
    - apply NoDup_nil_2.
    - intros l Hl. by apply elem_of_nil in Hl. }
  cbn [fetch] in Hfetch.
  destruct (ListDataset_getitem env self index u) as [[[p img] [t|]]|] eqn:Hget;
    [| |done]; cbn [mbind result_bind] in Hfetch.
  - unfold alloc in Hfetch.
    set (l := fresh (dom σ)) in *.
    assert (Hl : σ !! l = None) by (apply not_elem_of_dom, is_fresh).
    destruct (fetch env self (<[l:=t]> σ) rest) as [[σ2 items]|] eqn:Hrest;
      [|done].
    cbn [mbind result_bind] in Hfetch. injection Hfetch as <- <-.
    destruct (IH _ _ _ Hrest) as (Hlen & Hnd & Hnew & Hold & Hitems).
    assert (Hσl : σ2 !! l = Some t).
    { rewrite Hold by (rewrite lookup_insert_eq; eauto). apply lookup_insert_eq. }
    change (batch_refs ((p, img, Some l) :: items)) with (l :: batch_refs items).
    split_and!.
    + simpl. by rewrite Hlen.
    + apply NoDup_cons. split; [|done].
      intros Hin. destruct (Hnew l Hin) as [Hnone _].
      by rewrite lookup_insert_eq in Hnone.
    + intros l' Hl'. apply elem_of_cons in Hl' as [->|Hl']; [by eauto|].
      destruct (Hnew l' Hl') as [Hnone Hsome]. split; [|done].
      apply lookup_insert_None in Hnone. tauto.
    + intros l' Hsome. rewrite Hold.
      * apply lookup_insert_ne. intros ->. rewrite Hl in Hsome.
        by destruct Hsome.
      * rewrite lookup_insert_ne; [done|]. intros ->. rewrite Hl in Hsome.
        by destruct Hsome.
    + apply Forall2_cons. split; [|done]. simpl. by rewrite Hσl.
  - destruct (fetch env self σ rest) as [[σ2 items]|] eqn:Hrest; [|done].
    cbn [mbind result_bind] in Hfetch. injection Hfetch as <- <-.
    destruct (IH _ _ _ Hrest) as (Hlen & Hnd & Hnew & Hold & Hitems).
    change (batch_refs ((p, img, None) :: items)) with (batch_refs items).
    split_and!; try done.
    + simpl. by rewrite Hlen.
    + by apply Forall2_cons.
Qed.

(** So a batch fetched in a well-formed environment meets what the
    [collate_fn] theorems ask of a batch. *)
Lemma fetch_batch_ok (env : world) (self : ListDataset) (σ σ' : heap)
    (requests : list (Z * Qc)) (batch : list item) :
  world_ok env → requests ≠ [] →
  fetch env self σ requests = Ok (σ', batch) →
  batch ≠ [] ∧ images_ok 3 batch ∧ NoDup (batch_refs batch).
Proof.
  intros Hw Hne Hfetch.
  destruct (fetch_spec env self requests σ σ' batch Hfetch)
    as (Hlen & Hnd & _ & _ & Hitems).
  split_and!; [|clear Hne Hlen Hnd Hfetch|done].
  - intros ->. destruct requests; [done|simpl in Hlen; lia].
  - induction Hitems as [|req it reqs its Hget _ IH]; [apply Forall_nil_2|].
    apply Forall_cons. split; [|done].
    destruct (getitem_image_ok _ _ _ _ _ _ _ Hw Hget) as (s & Himg & Hs).
    by exists s, s.
Qed.

(** * The properties on the sample inputs *)

Lemma blank_image_is_tensor3 (c h w : nat) :
  Torch.is_tensor3 c h w (blank_image c h w).
Proof.
  unfold blank_image. split; [by rewrite length_replicate|].
  apply Forall_replicate. split; [by rewrite length_replicate|].
  apply Forall_replicate. by rewrite length_replicate.
Defined.

(** [sample_resize] has the shape behaviour asked of [F.interpolate]. *)
Lemma sample_resize_shape (img : image) (c h w : nat) (size : Z) :
  Torch.is_tensor3 c h w img → (0 < c)%nat → (0 < h)%nat → (0 < w)%nat →
  0 < size →
  Torch.is_tensor3 c (Z.to_nat size) (Z.to_nat size) (sample_resize img size).
Proof.
  intros [Hc _] _ _ _ _. unfold sample_resize.
  split; [by rewrite length_fmap|].
  apply Forall_fmap, Forall_true. intros ch. simpl.
  split; [by rewrite length_fmap, length_seq|].
  apply Forall_fmap, Forall_true. intros y. simpl.
  by rewrite length_fmap, length_seq.
Defined.

Lemma sample_items_ok (batch : list item) :
  Forall (λ it, item_image it = blank_image 3 2 3) batch → images_ok 3 batch.
Proof.
  intros Hall. eapply Forall_impl; [exact Hall|].
  intros it ->. exists 2%nat, 3%nat.
  split; [apply blank_image_is_tensor3|lia].
Defined.

Lemma pad_to_square_spec_witness :
  Torch.is_tensor3 3 2 5 (blank_image 3 2 5) ∧ (0 < 3)%nat ∧ (0 < 2)%nat
  ∧ ∃ (out : image) (left right top bottom : Z),
      pad_to_square (blank_image 3 2 5) 0%Qc = (out, (left, right, top, bottom))
      ∧ Torch.is_tensor3 3 (Nat.max 2 5) (Nat.max 2 5) out
      ∧ Torch.shape out = (Z.of_nat 3, Z.max (Z.of_nat 2) (Z.of_nat 5),
                           Z.max (Z.of_nat 2) (Z.of_nat 5))
      ∧ left + right + top + bottom = Z.abs (Z.of_nat 2 - Z.of_nat 5)
      ∧ ((left = 0 ∧ right = 0
          ∧ top = Z.abs (Z.of_nat 2 - Z.of_nat 5) / 2
          ∧ bottom = (Z.abs (Z.of_nat 2 - Z.of_nat 5) + 1) / 2)
         ∨ (top = 0 ∧ bottom = 0
            ∧ left = Z.abs (Z.of_nat 2 - Z.of_nat 5) / 2
            ∧ right = (Z.abs (Z.of_nat 2 - Z.of_nat 5) + 1) / 2))
      ∧ (2%nat ≠ 5%nat →
         (left + right ≠ 0 ∧ top + bottom = 0)
         ∨ (left + right = 0 ∧ top + bottom ≠ 0))
      ∧ (2%nat = 5%nat → left = 0 ∧ right = 0 ∧ top = 0 ∧ bottom = 0).
Proof.
  split_and!; [apply blank_image_is_tensor3|lia|lia|].
  apply (pad_to_square_spec 3 2 5 (blank_image 3 2 5) 0%Qc);
    [apply blank_image_is_tensor3|lia|lia].
Defined.

(** The padding of the 2x5 and of the 3x2 picture. *)
Example pad_to_square_2x5 :
  (pad_to_square (blank_image 1 2 5) 0%Qc).2 = (0, 0, 1, 2)
  ∧ (pad_to_square (blank_image 1 3 2) 0%Qc).2 = (0, 1, 0, 0)
  ∧ (pad_to_square (blank_image 1 4 4) 0%Qc).2 = (0, 0, 0, 0).
Proof. done. Qed.

Lemma getitem_missing_label_witness :
  img_files sample_dataset
    !! Z.to_nat (2 mod Z.of_nat (length (img_files sample_dataset)))
    = Some (String.append "data/images/c.jpg" newline)
  ∧ label_files sample_dataset
      !! Z.to_nat (2 mod Z.of_nat (length (img_files sample_dataset)))
    = Some (String.append "data/labels/c.txt" newline)
  ∧ load_image sample_world (augment sample_dataset)
      (Py.rstrip (String.append "data/images/c.jpg" newline))
    = Ok (blank_image 3 2 2)
  ∧ label_at sample_world (Py.rstrip (String.append "data/labels/c.txt" newline))
    = Absent
  ∧ ListDataset_getitem sample_world sample_dataset 2 (Q2Qc (1 # 4))
    = Raise TypeError
  ∧ ListDataset_getitem sample_world sample_dataset 2 (Q2Qc (3 # 4))
    = Ok ("data/images/c.jpg", (pad_to_square (blank_image 3 2 2) 0%Qc).1, None).
Proof.
  assert (H1 : img_files sample_dataset
                 !! Z.to_nat (2 mod Z.of_nat (length (img_files sample_dataset)))
               = Some (String.append "data/images/c.jpg" newline)) by reflexivity.
  assert (H2 : label_files sample_dataset
                 !! Z.to_nat (2 mod Z.of_nat (length (img_files sample_dataset)))
               = Some (String.append "data/labels/c.txt" newline)) by reflexivity.
  assert (H3 : load_image sample_world (augment sample_dataset)
                 (Py.rstrip (String.append "data/images/c.jpg" newline))
               = Ok (blank_image 3 2 2)) by reflexivity.
  assert (H4 : label_at sample_world
                 (Py.rstrip (String.append "data/labels/c.txt" newline))
               = Absent) by reflexivity.
  split_and!; [done|done|done|done|..].
  - rewrite (getitem_missing_label sample_world sample_dataset 2 (Q2Qc (1 # 4))
               _ _ (blank_image 3 2 2) H1 H2 H3 H4).
    reflexivity.
  - rewrite (getitem_missing_label sample_world sample_dataset 2 (Q2Qc (3 # 4))
               _ _ (blank_image 3 2 2) H1 H2 H3 H4).
    reflexivity.
Defined.

Lemma getitem_100x50_example_witness :
  img_files sample_dataset
    !! Z.to_nat (3 mod Z.of_nat (length (img_files sample_dataset)))
    = Some (String.append "data/images/a.jpg" newline)
  ∧ label_files sample_dataset
      !! Z.to_nat (3 mod Z.of_nat (length (img_files sample_dataset)))
    = Some (String.append "data/labels/a.txt" newline)
  ∧ load_image sample_world (augment sample_dataset)
      (Py.rstrip (String.append "data/images/a.jpg" newline))
    = Ok (blank_image 3 50 100)
  ∧ Torch.is_tensor3 3 50 100 (blank_image 3 50 100) ∧ (0 < 3)%nat
  ∧ normalized_labels sample_dataset = true
  ∧ label_at sample_world (Py.rstrip (String.append "data/labels/a.txt" newline))
    = Rows [[0%Qc; Q2Qc (1 # 2); Q2Qc (1 # 2); Q2Qc (1 # 5); Q2Qc (2 # 5)]]
  ∧ (pad_to_square (blank_image 3 50 100) 0%Qc).2 = (0, 0, 25, 25)
  ∧ Torch.is_tensor3 3 100 100 (pad_to_square (blank_image 3 50 100) 0%Qc).1
  ∧ ∃ out : image,
      Torch.is_tensor3 3 100 100 out
      ∧ ListDataset_getitem sample_world sample_dataset 3 (Q2Qc (3 # 4)) =
          Ok (Py.rstrip (String.append "data/images/a.jpg" newline), out,
              Some [Target 0%Qc 0%Qc (Q2Qc (1 # 2)) (Q2Qc (1 # 2))
                           (Q2Qc (1 # 5)) (Q2Qc (1 # 5))]).
Proof.
  assert (H1 : img_files sample_dataset
                 !! Z.to_nat (3 mod Z.of_nat (length (img_files sample_dataset)))
               = Some (String.append "data/images/a.jpg" newline)) by reflexivity.
  assert (H2 : label_files sample_dataset
                 !! Z.to_nat (3 mod Z.of_nat (length (img_files sample_dataset)))
               = Some (String.append "data/labels/a.txt" newline)) by reflexivity.
  assert (H3 : load_image sample_world (augment sample_dataset)
                 (Py.rstrip (String.append "data/images/a.jpg" newline))
               = Ok (blank_image 3 50 100)) by reflexivity.
  assert (H4 : label_at sample_world
                 (Py.rstrip (String.append "data/labels/a.txt" newline))
               = Rows [[0%Qc; Q2Qc (1 # 2); Q2Qc (1 # 2); Q2Qc (1 # 5); Q2Qc (2 # 5)]])
    by reflexivity.
  split_and!;
    [done|done|done|apply blank_image_is_tensor3|lia|done|done|..];
    apply (getitem_100x50_example sample_world sample_dataset 3 (Q2Qc (3 # 4))
             _ _ (blank_image 3 50 100) 3 H1 H2 H3
             (blank_image_is_tensor3 3 50 100) ltac:(lia) eq_refl H4).
Defined.

Lemma sample_world_ok : world_ok sample_world.
Proof.
  intros aug p img Hload. unfold load_image, sample_world in Hload.
  cbn [image_file color_jitter] in Hload.
  repeat case_bool_decide; try done;
    destruct aug; injection Hload as <-;
    eexists _, _; (split; [apply blank_image_is_tensor3|lia]).
Qed.

Lemma sample_batch_ok :
  images_ok 3 sample_batch ∧ images_ok 3 sample_batch_zero
  ∧ images_ok 3 sample_batch_none.
Proof. split_and!; apply sample_items_ok; by repeat constructor. Defined.

Lemma collate_fn_batch_index_witness :
  sample_batch ≠ [] ∧ (0 < 3)%nat ∧ images_ok 3 sample_batch
  ∧ (draws sample_dataset = false → 0 < img_size sample_dataset)
  ∧ NoDup (batch_refs sample_batch)
  ∧ ∃ (self' : ListDataset) (σ' : heap) (paths : list string)
      (imgs : list image) (targets : option targets_tensor),
      collate_fn sample_resize sample_dataset sample_heap sample_batch 3
        = (self', σ', Ok (paths, imgs, targets))
      ∧ (∀ (i l : nat), batch_refs sample_batch !! i = Some l →
           (i < length (batch_refs sample_batch))%nat
           ∧ σ' !! l = set_batch_index i <$> sample_heap !! l
           ∧ Forall (λ t, batch_index t = Qc_of_Z (Z.of_nat i)) (deref σ' l))
      ∧ targets = match batch_refs sample_batch with
                  | [] => None
                  | _ => Some (concat (imap (λ i l, set_batch_index i (deref sample_heap l))
                                            (batch_refs sample_batch)))
                  end
      ∧ (∀ (j : nat) (p : string) (img : image) (l : nat),
           sample_batch !! j = Some (p, img, Some l) →
           batch_refs sample_batch !! length (batch_refs (take j sample_batch)) = Some l
           ∧ (length (batch_refs (take j sample_batch)) ≤ j)%nat
           ∧ ∀ (j' : nat) (p' : string) (img' : image),
               (j' < j)%nat → sample_batch !! j' = Some (p', img', None) →
               (length (batch_refs (take j sample_batch)) < j)%nat).
Proof.
  assert (Hnd : NoDup (batch_refs sample_batch)) by compute_done.
  split_and!; [done|lia|apply sample_batch_ok|done|done|].
  apply (collate_fn_batch_index sample_resize sample_resize_shape
           sample_dataset sample_heap sample_batch 3 3);
    [done|lia|apply sample_batch_ok|done|done].
Defined.

(** Three pictures of which the second has no annotations: the records of
    the first get index 0 and those of the third index 1, not 2. *)
Example collate_fn_three_pictures :
  ∃ (self' : ListDataset) (σ' : heap) (imgs : list image),
    collate_fn sample_resize sample_dataset_fixed sample_heap sample_batch 0
    = (self', σ',
       Ok (["a"; "b"; "c"], imgs,
           Some [Target (Qc_of_Z 0) (Qc_of_Z 7) (Q2Qc (1 # 8)) (Q2Qc (1 # 2))
                        (Q2Qc (1 # 4)) (Q2Qc (1 # 4));
                 Target (Qc_of_Z 1) (Qc_of_Z 3) (Q2Qc (2 # 8)) (Q2Qc (1 # 2))
                        (Q2Qc (1 # 4)) (Q2Qc (1 # 4));
                 Target (Qc_of_Z 1) (Qc_of_Z 5) (Q2Qc (3 # 8)) (Q2Qc (1 # 2))
                        (Q2Qc (1 # 4)) (Q2Qc (1 # 4))])).
Proof. eexists _, _, _. vm_compute. reflexivity. Qed.

(** C1 on the sample inputs.  The first and the third picture contribute
    boxes, the second has a label file without rows: the two pictures with
    boxes get the indices 0 and 2, which are their batch positions and not
    the contiguous 0 and 1. *)
Lemma batch_index_counts_zero_row_sets :
  deref sample_heap 0 ≠ [] ∧ deref sample_heap 1 = [] ∧ deref sample_heap 2 ≠ []
  ∧ ∃ (self' : ListDataset) (σ' : heap) (imgs : list image),
      collate_fn sample_resize sample_dataset_fixed sample_heap sample_batch_zero 0
      = (self', σ',
         Ok (["a"; "b"; "c"], imgs,
             Some [Target (Qc_of_Z 0) (Qc_of_Z 7) (Q2Qc (1 # 8)) (Q2Qc (1 # 2))
                          (Q2Qc (1 # 4)) (Q2Qc (1 # 4));
                   Target (Qc_of_Z 2) (Qc_of_Z 3) (Q2Qc (2 # 8)) (Q2Qc (1 # 2))
                          (Q2Qc (1 # 4)) (Q2Qc (1 # 4));
                   Target (Qc_of_Z 2) (Qc_of_Z 5) (Q2Qc (3 # 8)) (Q2Qc (1 # 2))
                          (Q2Qc (1 # 4)) (Q2Qc (1 # 4))])).
Proof.
  split_and!; [by vm_compute|by vm_compute|by vm_compute|].
  eexists _, _, _. vm_compute. reflexivity.
Qed.

(** Why the tensors of a batch have to be distinct objects: when two items
    name the same tensor, the second write replaces the first. *)
Example collate_fn_shared_tensor :
  ∃ (self' : ListDataset) (σ' : heap) (imgs : list image),
    collate_fn sample_resize sample_dataset_fixed sample_heap
      [sample_item "a" (Some 0%nat); sample_item "a" (Some 0%nat)] 0
    = (self', σ',
       Ok (["a"; "a"], imgs,
           Some [Target (Qc_of_Z 1) (Qc_of_Z 7) (Q2Qc (1 # 8)) (Q2Qc (1 # 2))
                        (Q2Qc (1 # 4)) (Q2Qc (1 # 4));
                 Target (Qc_of_Z 1) (Qc_of_Z 7) (Q2Qc (1 # 8)) (Q2Qc (1 # 2))
                        (Q2Qc (1 # 4)) (Q2Qc (1 # 4))])).
Proof. eexists _, _, _. vm_compute. reflexivity. Qed.

Lemma zero_row_label_kept_witness :
  img_files sample_dataset
    !! Z.to_nat (1 mod Z.of_nat (length (img_files sample_dataset)))
    = Some (String.append "data/images/b.jpg" newline)
  ∧ label_files sample_dataset
      !! Z.to_nat (1 mod Z.of_nat (length (img_files sample_dataset)))
    = Some (String.append "data/labels/b.txt" newline)
  ∧ load_image sample_world (augment sample_dataset)
      (Py.rstrip (String.append "data/images/b.jpg" newline))
    = Ok (blank_image 3 4 3)
  ∧ Torch.is_tensor3 3 4 3 (blank_image 3 4 3) ∧ (0 < 3)%nat ∧ (0 < 4)%nat
  ∧ label_at sample_world (Py.rstrip (String.append "data/labels/b.txt" newline))
    = Rows []
  ∧ images_ok 3 ([sample_item "a" (Some 0%nat)]
                 ++ sample_item "b" (Some 1%nat) :: [sample_item "c" (Some 2%nat)])
  ∧ (draws sample_dataset = false → 0 < img_size sample_dataset)
  ∧ NoDup (batch_refs ([sample_item "a" (Some 0%nat)]
                       ++ sample_item "b" (Some 1%nat)
                          :: [sample_item "c" (Some 2%nat)]))
  ∧ sample_heap !! 1%nat = Some []
  ∧ (∃ out : image,
        ListDataset_getitem sample_world sample_dataset 1 (Q2Qc (1 # 4))
        = Ok (Py.rstrip (String.append "data/images/b.jpg" newline), out, Some []))
  ∧ ∃ (self' : ListDataset) (σ' : heap) (paths : list string)
      (imgs : list image) (targets : targets_tensor),
      collate_fn sample_resize sample_dataset sample_heap
        ([sample_item "a" (Some 0%nat)]
         ++ sample_item "b" (Some 1%nat) :: [sample_item "c" (Some 2%nat)]) 3
        = (self', σ', Ok (paths, imgs, Some targets))
      ∧ batch_refs ([sample_item "a" (Some 0%nat)]
                    ++ sample_item "b" (Some 1%nat)
                       :: [sample_item "c" (Some 2%nat)])
        = batch_refs [sample_item "a" (Some 0%nat)]
          ++ 1%nat :: batch_refs [sample_item "c" (Some 2%nat)]
      ∧ targets
        = concat (imap (λ i l', set_batch_index i (deref sample_heap l'))
                       (batch_refs [sample_item "a" (Some 0%nat)]))
          ++ concat (imap (λ i l',
                             set_batch_index
                               (S (length (batch_refs [sample_item "a" (Some 0%nat)])) + i)
                               (deref sample_heap l'))
                          (batch_refs [sample_item "c" (Some 2%nat)])).
Proof.
  assert (H1 : img_files sample_dataset
                 !! Z.to_nat (1 mod Z.of_nat (length (img_files sample_dataset)))
               = Some (String.append "data/images/b.jpg" newline)) by reflexivity.
  assert (H2 : label_files sample_dataset
                 !! Z.to_nat (1 mod Z.of_nat (length (img_files sample_dataset)))
               = Some (String.append "data/labels/b.txt" newline)) by reflexivity.
  assert (H3 : load_image sample_world (augment sample_dataset)
                 (Py.rstrip (String.append "data/images/b.jpg" newline))
               = Ok (blank_image 3 4 3)) by reflexivity.
  assert (H4 : label_at sample_world
                 (Py.rstrip (String.append "data/labels/b.txt" newline))
               = Rows []) by reflexivity.
  assert (H5 : NoDup (batch_refs ([sample_item "a" (Some 0%nat)]
                                  ++ sample_item "b" (Some 1%nat)
                                     :: [sample_item "c" (Some 2%nat)])))
    by compute_done.
  assert (H6 : sample_heap !! 1%nat = Some []) by reflexivity.
  split_and!;
    [done|done|done|apply blank_image_is_tensor3|lia|lia|done
    |apply sample_batch_ok|done|done|done|..];
    apply (zero_row_label_kept sample_resize sample_resize_shape
             sample_world sample_dataset 1 (Q2Qc (1 # 4)) _ _ (blank_image 3 4 3)
             3 4 3 sample_heap [sample_item "a" (Some 0%nat)]
             [sample_item "c" (Some 2%nat)] "b" (blank_image 3 2 3) 1%nat 3 3
             H1 H2 H3 (blank_image_is_tensor3 3 4 3) ltac:(lia) ltac:(lia) H4
             ltac:(lia) (proj1 (proj2 sample_batch_ok)) ltac:(done) H5 H6).
Defined.

(** C3 on the sample inputs.  The label file of [b.jpg] exists and holds no
    row, that of [c.jpg] does not exist.  [__getitem__] gives [None]
    for the second and an empty tensor, not [None], for the first; and in a
    batch that starts with the zero-row picture the records of the next
    picture get batch index 1, while after a picture that carries [None] they
    get 0: the two cases are not filtered alike. *)
Lemma zero_row_label_not_marker :
  (∃ out : image,
      ListDataset_getitem sample_world sample_dataset_fixed 2 (Q2Qc (3 # 4))
      = Ok ("data/images/c.jpg", out, None))
  ∧ (∃ out : image,
      ListDataset_getitem sample_world sample_dataset_fixed 1 (Q2Qc (3 # 4))
      = Ok ("data/images/b.jpg", out, Some []))
  ∧ ¬ (∃ out : image,
      ListDataset_getitem sample_world sample_dataset_fixed 1 (Q2Qc (3 # 4))
      = Ok ("data/images/b.jpg", out, None))
  ∧ (∃ (self' : ListDataset) (σ' : heap) (imgs : list image),
      collate_fn sample_resize sample_dataset_fixed sample_heap
        [sample_item "b" (Some 1%nat); sample_item "c" (Some 2%nat)] 0
      = (self', σ',
         Ok (["b"; "c"], imgs,
             Some [Target (Qc_of_Z 1) (Qc_of_Z 3) (Q2Qc (2 # 8)) (Q2Qc (1 # 2))
                          (Q2Qc (1 # 4)) (Q2Qc (1 # 4));
                   Target (Qc_of_Z 1) (Qc_of_Z 5) (Q2Qc (3 # 8)) (Q2Qc (1 # 2))
                          (Q2Qc (1 # 4)) (Q2Qc (1 # 4))])))
  ∧ (∃ (self' : ListDataset) (σ' : heap) (imgs : list image),
      collate_fn sample_resize sample_dataset_fixed sample_heap
        [sample_item "b" None; sample_item "c" (Some 2%nat)] 0
      = (self', σ',
         Ok (["b"; "c"], imgs,
             Some [Target (Qc_of_Z 0) (Qc_of_Z 3) (Q2Qc (2 # 8)) (Q2Qc (1 # 2))
                          (Q2Qc (1 # 4)) (Q2Qc (1 # 4));
                   Target (Qc_of_Z 0) (Qc_of_Z 5) (Q2Qc (3 # 8)) (Q2Qc (1 # 2))
                          (Q2Qc (1 # 4)) (Q2Qc (1 # 4))])))
  ∧ (∃ (self' : ListDataset) (σ' : heap) (imgs : list image),
      collate_fn sample_resize sample_dataset_fixed sample_heap
        [sample_item "b" (Some 1%nat)] 0
      = (self', σ', Ok (["b"], imgs, Some [])))
  ∧ (∃ (self' : ListDataset) (σ' : heap) (imgs : list image),
      collate_fn sample_resize sample_dataset_fixed sample_heap
        [sample_item "b" None] 0
      = (self', σ', Ok (["b"], imgs, None))).
Proof.
  split_and!.
  - eexists. vm_compute. reflexivity.
  - eexists. vm_compute. reflexivity.
  - intros [out Hout]. vm_compute in Hout. discriminate Hout.
  - eexists _, _, _. vm_compute. reflexivity.
  - eexists _, _, _. vm_compute. reflexivity.
  - eexists _, _, _. vm_compute. reflexivity.
  - eexists _, _, _. vm_compute. reflexivity.
Qed.

Lemma collate_fn_schedule_witness :
  multiscale sample_dataset = true ∧ (0 < 3)%nat
  ∧ Forall (λ call : list item * nat, call.1 ≠ [] ∧ images_ok 3 call.1)
      [(sample_batch, 3%nat); (sample_batch_none, 5%nat)]
  ∧ (batch_count sample_dataset mod 10 ≠ 0 → 0 < img_size sample_dataset)
  ∧ length (collate_run sample_resize sample_dataset sample_heap
              [(sample_batch, 3%nat); (sample_batch_none, 5%nat)]).2
    = length [(sample_batch, 3%nat); (sample_batch_none, 5%nat)]
  ∧ batch_count (collate_run sample_resize sample_dataset sample_heap
                   [(sample_batch, 3%nat); (sample_batch_none, 5%nat)]).1
    = batch_count sample_dataset
      + Z.of_nat (length [(sample_batch, 3%nat); (sample_batch_none, 5%nat)])
  ∧ (∀ (k : nat) (batch : list item) (r : nat),
       [(sample_batch, 3%nat); (sample_batch_none, 5%nat)] !! k = Some (batch, r) →
       ∃ s : Z,
         (collate_run sample_resize sample_dataset sample_heap
            [(sample_batch, 3%nat); (sample_batch_none, 5%nat)]).2 !! k
           = Some (s, batch_count sample_dataset + Z.of_nat k + 1)
         ∧ ((batch_count sample_dataset + Z.of_nat k) mod 10 = 0 →
            Py.random_choice r (Py.range 320 (608 + 1) 32) = Ok s
            ∧ s ∈ [320; 352; 384; 416; 448; 480; 512; 544; 576; 608])
         ∧ ((batch_count sample_dataset + Z.of_nat k) mod 10 ≠ 0 →
            s = match k with
                | O => img_size sample_dataset
                | S k' =>
                    default 0
                      (fst <$> (collate_run sample_resize sample_dataset sample_heap
                                  [(sample_batch, 3%nat); (sample_batch_none, 5%nat)]).2
                               !! k')
                end))
  ∧ (∀ (lines : list string) (size : Z) (aug ms norm : bool),
       batch_count (ListDataset_init lines size aug ms norm) = 0
       ∧ img_size (ListDataset_init lines size aug ms norm) = size).
Proof.
  assert (Hcalls : Forall (λ call : list item * nat,
                             call.1 ≠ [] ∧ images_ok 3 call.1)
                     [(sample_batch, 3%nat); (sample_batch_none, 5%nat)]).
  { apply Forall_cons. split; [split; [done|apply sample_batch_ok]|].
    apply Forall_cons. split; [split; [done|apply sample_batch_ok]|].
    apply Forall_nil_2. }
  split_and!; [done|lia|done|done|..];
    apply (collate_fn_schedule sample_resize sample_resize_shape
             [(sample_batch, 3%nat); (sample_batch_none, 5%nat)]
             sample_dataset sample_heap 3 eq_refl ltac:(lia) Hcalls ltac:(done)).
Defined.

(** Eleven calls on a fresh dataset: the call with counter 0 draws (the
    draw 0 picks 320), the next nine reuse 320 whatever the generator would
    give, and the call with counter 10 draws again (the draw 13 picks 416). *)
Example collate_run_eleven_calls :
  (collate_run sample_resize
     (ListDataset_init sample_lines 416 true true true) sample_heap
     ((λ r : nat, ([sample_item "b" None], r))
        <$> [0; 1; 2; 3; 4; 5; 6; 7; 8; 9; 13]%nat)).2
  = [(320, 1); (320, 2); (320, 3); (320, 4); (320, 5); (320, 6); (320, 7);
     (320, 8); (320, 9); (320, 10); (416, 11)].
Proof. lazy. reflexivity. Qed.

Lemma collate_fn_one_resolution_witness :
  sample_batch ≠ [] ∧ (0 < 3)%nat ∧ images_ok 3 sample_batch
  ∧ (draws sample_dataset = false → 0 < img_size sample_dataset)
  ∧ ∃ (self' : ListDataset) (σ' : heap) (paths : list string)
      (imgs : list image) (targets : option targets_tensor),
      collate_fn sample_resize sample_dataset sample_heap sample_batch 3
        = (self', σ', Ok (paths, imgs, targets))
      ∧ 0 < img_size self'
      ∧ imgs = (λ img, resize sample_resize img (img_size self'))
                 <$> (item_image <$> sample_batch)
      ∧ Torch.is_tensor4 (length sample_batch) 3 (Z.to_nat (img_size self'))
          (Z.to_nat (img_size self')) imgs
      ∧ (img_size self' ≠ img_size sample_dataset →
         multiscale sample_dataset = true ∧ batch_count sample_dataset mod 10 = 0).
Proof.
  split_and!; [done|lia|apply sample_batch_ok|done|].
  apply (collate_fn_one_resolution sample_resize sample_resize_shape
           sample_dataset sample_heap sample_batch 3 3);
    [done|lia|apply sample_batch_ok|done].
Defined.

Lemma collate_fn_no_annotations_witness :
  sample_batch_none ≠ [] ∧ (0 < 3)%nat ∧ images_ok 3 sample_batch_none
  ∧ (draws sample_dataset_fixed = false → 0 < img_size sample_dataset_fixed)
  ∧ Forall (λ it, item_targets it = None) sample_batch_none
  ∧ ∃ (self' : ListDataset) (imgs : list image),
      collate_fn sample_resize sample_dataset_fixed sample_heap sample_batch_none 0
        = (self', sample_heap, Ok (item_path <$> sample_batch_none, imgs, None))
      ∧ length imgs = length sample_batch_none
      ∧ Torch.is_tensor4 (length sample_batch_none) 3 (Z.to_nat (img_size self'))
          (Z.to_nat (img_size self')) imgs
      ∧ imgs = (λ img, resize sample_resize img (img_size self'))
                 <$> (item_image <$> sample_batch_none)
      ∧ (∀ (j : nat) (it : item),
           sample_batch_none !! j = Some it →
           imgs !! j = Some (resize sample_resize (item_image it) (img_size self')))
      ∧ Torch.stack imgs = Ok imgs
      ∧ 0 < img_size self'
      ∧ img_size self'
        = (if draws sample_dataset_fixed then 320 + 32 * Z.of_nat (0 mod 10)
           else img_size sample_dataset_fixed)
      ∧ self' = set_batch_count (batch_count sample_dataset_fixed + 1)
                  (set_img_size (img_size self') sample_dataset_fixed)
      ∧ batch_count self' = batch_count sample_dataset_fixed + 1.
Proof.
  assert (Hnone : Forall (λ it, item_targets it = None) sample_batch_none)
    by (by repeat constructor).
  split_and!; [done|lia|apply sample_batch_ok|done|done|].
  apply (collate_fn_no_annotations sample_resize sample_resize_shape
           sample_dataset_fixed sample_heap sample_batch_none 0 3);
    [done|lia|apply sample_batch_ok|done|done].
Defined.

Lemma getitem_index_wraps_witness :
  img_files sample_dataset ≠ []
  ∧ length (label_files sample_dataset) = length (img_files sample_dataset)
  ∧ files sample_folder ≠ []
  ∧ (∃ line lline : string,
        img_files sample_dataset
          !! Z.to_nat (-1 mod Z.of_nat (length (img_files sample_dataset)))
          = Some line
        ∧ label_files sample_dataset
            !! Z.to_nat (-1 mod Z.of_nat (length (img_files sample_dataset)))
          = Some lline
        ∧ ListDataset_getitem sample_world sample_dataset (-1) (Q2Qc (3 # 4))
          = ListDataset_getitem sample_world
              (set_files [line] [lline] sample_dataset) 0 (Q2Qc (3 # 4))
        ∧ ListDataset_getitem sample_world sample_dataset (-1) (Q2Qc (3 # 4))
          = ListDataset_getitem sample_world sample_dataset
              (-1 mod Z.of_nat (length (img_files sample_dataset))) (Q2Qc (3 # 4))
        ∧ ListDataset_getitem sample_world sample_dataset (-1) (Q2Qc (3 # 4))
          ≠ Raise IndexError
        ∧ (world_ok sample_world →
           match load_image sample_world (augment sample_dataset) (Py.rstrip line) with
           | Raise _ =>
               ListDataset_getitem sample_world sample_dataset (-1) (Q2Qc (3 # 4))
               = Raise OSError
           | Ok img0 =>
               let padded := (pad_to_square img0 0%Qc).1 in
               let flips := augment sample_dataset
                            && bool_decide (Q2Qc (3 # 4) < 1 / 2)%Qc in
               (label_at sample_world (Py.rstrip lline) = Absent →
                ListDataset_getitem sample_world sample_dataset (-1) (Q2Qc (3 # 4))
                = if flips then Raise TypeError
                  else Ok (Py.rstrip line, padded, None))
               ∧ (∀ (p : string) (img : image) (t : option targets_tensor),
                    ListDataset_getitem sample_world sample_dataset (-1) (Q2Qc (3 # 4))
                    = Ok (p, img, t) →
                    p = Py.rstrip line
                    ∧ img = (if flips then Torch.flip_last padded else padded)
                    ∧ (t = None ↔ label_at sample_world (Py.rstrip lline) = Absent))
           end))
  ∧ (∃ path : string,
        files sample_folder
          !! Z.to_nat (-1 mod Z.of_nat (length (files sample_folder)))
          = Some path
        ∧ ImageFolder_getitem sample_resize sample_world sample_folder (-1)
          = ImageFolder_getitem sample_resize sample_world
              (MkImageFolder [path] (folder_img_size sample_folder)) 0
        ∧ ImageFolder_getitem sample_resize sample_world sample_folder (-1)
          = ImageFolder_getitem sample_resize sample_world sample_folder
              (-1 mod Z.of_nat (length (files sample_folder)))
        ∧ ImageFolder_getitem sample_resize sample_world sample_folder (-1)
          ≠ Raise IndexError
        ∧ (world_ok sample_world → 0 < folder_img_size sample_folder →
           ImageFolder_getitem sample_resize sample_world sample_folder (-1)
           = match image_file sample_world path with
             | None => Raise OSError
             | Some img0 =>
                 Ok (path, resize sample_resize (pad_to_square img0 0%Qc).1
                             (folder_img_size sample_folder))
             end)).
Proof.
  split_and!; [done|done|done|..];
    apply (getitem_index_wraps sample_resize sample_world sample_dataset
             sample_folder (-1) (Q2Qc (3 # 4)));
    done.
Defined.

(** Index 7 of the three-picture list is picture 1, index -1 is picture 2. *)
Example getitem_out_of_range_indices :
  ListDataset_getitem sample_world sample_dataset_fixed 7 (Q2Qc (3 # 4))
  = ListDataset_getitem sample_world sample_dataset_fixed 1 (Q2Qc (3 # 4))
  ∧ ListDataset_getitem sample_world sample_dataset_fixed (-1) (Q2Qc (3 # 4))
    = ListDataset_getitem sample_world sample_dataset_fixed 2 (Q2Qc (3 # 4))
  ∧ ListDataset_getitem sample_world (ListDataset_init [] 4 false false true) 0
      (Q2Qc (3 # 4))
    = Raise ZeroDivisionError.
Proof. split_and!; reflexivity. Qed.

(** * Further properties of the code *)

(** ** Pixels under [pad_to_square] *)

Lemma pad_pixel (c h w : nat) (img : image) (l r t b : nat) (v : Qc)
    (k y x : nat) :
  Torch.is_tensor3 c h w img → (0 < c)%nat → (0 < h)%nat →
  (k < c)%nat → (y < t + h + b)%nat → (x < l + w + r)%nat →
  pixel (Torch.pad img (Z.of_nat l, Z.of_nat r, Z.of_nat t, Z.of_nat b) v) k y x
  = if bool_decide ((t ≤ y < t + h)%nat ∧ (l ≤ x < l + w)%nat)
    then pixel img k (y - t) (x - l)
    else Some v.
Proof.
  intros Himg Hc0 Hh0 Hk Hy Hx. unfold Torch.pad.
  rewrite (shape_of_tensor3 c h w img Himg Hc0 Hh0).
  destruct Himg as [Hc Hall]. unfold pixel.
  rewrite list_lookup_fmap.
  destruct (lookup_lt_is_Some_2 img k ltac:(lia)) as [ch Hch].
  rewrite Hch. cbn [fmap option_fmap option_map mbind option_bind].
  rewrite Forall_forall in Hall.
  destruct (Hall ch ltac:(by eapply list_elem_of_lookup_2)) as [Hh Hrows].
  rewrite !Nat2Z.id.
  replace (Z.to_nat (Z.of_nat l + Z.of_nat w + Z.of_nat r)) with (l + w + r)%nat
    by lia.
  destruct (decide (y < t)%nat) as [Hyt|Hyt].
  { rewrite lookup_app_l by (rewrite length_replicate; lia).
    rewrite lookup_replicate_2 by lia. cbn [mbind option_bind].
    rewrite lookup_replicate_2 by lia.
    rewrite bool_decide_eq_false_2 by lia. done. }
  rewrite lookup_app_r by (rewrite length_replicate; lia).
  rewrite length_replicate.
  destruct (decide (y < t + h)%nat) as [Hyh|Hyh].
  - rewrite lookup_app_l by (rewrite length_fmap; lia).
    rewrite list_lookup_fmap.
    destruct (lookup_lt_is_Some_2 ch (y - t) ltac:(lia)) as [row Hrow].
    rewrite Hrow. cbn [fmap option_fmap option_map mbind option_bind].
    rewrite Forall_forall in Hrows.
    pose proof (Hrows row ltac:(by eapply list_elem_of_lookup_2)) as Hw.
    simpl in Hw.
    destruct (decide (x < l)%nat) as [Hxl|Hxl].
    { rewrite lookup_app_l by (rewrite length_replicate; lia).
      rewrite lookup_replicate_2 by lia.
      rewrite bool_decide_eq_false_2 by lia. done. }
    rewrite lookup_app_r by (rewrite length_replicate; lia).
    rewrite length_replicate.
    destruct (decide (x < l + w)%nat) as [Hxw|Hxw].
    + rewrite lookup_app_l by lia.
      rewrite bool_decide_eq_true_2 by lia. done.
    + rewrite lookup_app_r by lia.
      rewrite lookup_replicate_2 by lia.
      rewrite bool_decide_eq_false_2 by lia. done.
  - rewrite lookup_app_r by (rewrite length_fmap; lia).
    rewrite length_fmap.
    rewrite lookup_replicate_2 by lia. cbn [mbind option_bind].
    rewrite lookup_replicate_2 by lia.
    rewrite bool_decide_eq_false_2 by lia. done.
Qed.

(** X1. [pad_to_square] crops nothing: with [top] and [left] the padding it
    reports, every pixel [(k, y, x)] of the input is pixel
    [(k, top + y, left + x)] of the output, and every other pixel of the
    square output holds [pad_value]. *)
Theorem pad_to_square_pixels (c h w : nat) (img : image) (v : Qc) :
  Torch.is_tensor3 c h w img → (0 < c)%nat → (0 < h)%nat →
  ∃ (out : image) (left right top bottom : nat),
    pad_to_square img v
      = (out, (Z.of_nat left, Z.of_nat right, Z.of_nat top, Z.of_nat bottom))
    ∧ (∀ k y x : nat, (k < c)%nat → (y < h)%nat → (x < w)%nat →
         pixel out k (top + y) (left + x) = pixel img k y x)
    ∧ (∀ k y x : nat, (k < c)%nat → (y < Nat.max h w)%nat → (x < Nat.max h w)%nat →
         ¬ ((top ≤ y < top + h)%nat ∧ (left ≤ x < left + w)%nat) →
         pixel out k y x = Some v).
Proof.
  intros Himg Hc0 Hh0.
  pose proof (pad_to_square_eq c h w img v Himg Hc0 Hh0) as Heq. cbv zeta in Heq.
  set (d := Z.abs (Z.of_nat h - Z.of_nat w)) in *.
  destruct (half_split d ltac:(unfold d; lia)) as (Hf & _ & Hc').
  assert (Hpad : ∃ l r t b : nat,
    (if Z.of_nat h <=? Z.of_nat w
     then (0, 0, d / 2, d - d / 2) else (d / 2, d - d / 2, 0, 0))
    = (Z.of_nat l, Z.of_nat r, Z.of_nat t, Z.of_nat b)
    ∧ (t + h + b = Nat.max h w)%nat ∧ (l + w + r = Nat.max h w)%nat).
  { destruct (Z.leb_spec (Z.of_nat h) (Z.of_nat w)).
    - exists 0%nat, 0%nat, (Z.to_nat (d / 2)), (Z.to_nat (d - d / 2)).
      rewrite !Z2Nat.id by lia. split; [done|]. unfold d in *. lia.
    - exists (Z.to_nat (d / 2)), (Z.to_nat (d - d / 2)), 0%nat, 0%nat.
      rewrite !Z2Nat.id by lia. split; [done|]. unfold d in *. lia. }
  destruct Hpad as (l & r & t & b & Hpad & Ht & Hl). rewrite Hpad in Heq.
  exists (Torch.pad img (Z.of_nat l, Z.of_nat r, Z.of_nat t, Z.of_nat b) v),
    l, r, t, b.
  split; [done|]. split.
  - intros k y x Hk Hy Hx.
    rewrite (pad_pixel c h w img l r t b v k (t + y) (l + x)) by (done || lia).
    rewrite bool_decide_eq_true_2 by lia. f_equal; lia.
  - intros k y x Hk Hy Hx Hout.
    rewrite (pad_pixel c h w img l r t b v k y x) by (done || lia).
    by rewrite bool_decide_eq_false_2.
Qed.

Lemma pad_to_square_pixels_witness :
  Torch.is_tensor3 3 2 5 (blank_image 3 2 5) ∧ (0 < 3)%nat ∧ (0 < 2)%nat
  ∧ ∃ (out : image) (left right top bottom : nat),
      pad_to_square (blank_image 3 2 5) (Q2Qc 1)
        = (out, (Z.of_nat left, Z.of_nat right, Z.of_nat top, Z.of_nat bottom))
      ∧ (∀ k y x : nat, (k < 3)%nat → (y < 2)%nat → (x < 5)%nat →
           pixel out k (top + y) (left + x) = pixel (blank_image 3 2 5) k y x)
      ∧ (∀ k y x : nat, (k < 3)%nat → (y < Nat.max 2 5)%nat → (x < Nat.max 2 5)%nat →
           ¬ ((top ≤ y < top + 2)%nat ∧ (left ≤ x < left + 5)%nat) →
           pixel out k y x = Some (Q2Qc 1)).
Proof.
  split_and!; [apply blank_image_is_tensor3|lia|lia|].
  apply (pad_to_square_pixels 3 2 5 (blank_image 3 2 5) (Q2Qc 1));
    [apply blank_image_is_tensor3|lia|lia].
Defined.

Lemma pad_nothing (img : image) (v : Qc) : Torch.pad img (0, 0, 0, 0) v = img.
Proof.
  unfold Torch.pad. destruct (Torch.shape img) as [[? ?] w].
  rewrite <- (list_fmap_id img) at 2. apply list_fmap_ext. intros _ ch _.
  simpl. rewrite app_nil_r.
  rewrite <- (list_fmap_id ch) at 2. apply list_fmap_ext. intros _ row _.
  simpl. by rewrite app_nil_r.
Qed.

(** X2. A square image comes back from [pad_to_square] unchanged, with the
    padding [0, 0, 0, 0]; so padding the output of [pad_to_square] again,
    with any fill value, changes nothing. *)
Theorem pad_to_square_idempotent (c h w : nat) (img : image) (v v' : Qc) :
  Torch.is_tensor3 c h w img → (0 < c)%nat → (0 < h)%nat →
  (h = w → pad_to_square img v = (img, (0, 0, 0, 0)))
  ∧ pad_to_square (pad_to_square img v).1 v'
    = ((pad_to_square img v).1, (0, 0, 0, 0)).
Proof.
  intros Himg Hc0 Hh0.
  assert (Hsq : ∀ (s : nat) (a : image) (u : Qc),
            Torch.is_tensor3 c s s a → (0 < s)%nat →
            pad_to_square a u = (a, (0, 0, 0, 0))).
  { intros s a u Ha Hs.
    rewrite (pad_to_square_eq c s s a u Ha Hc0 Hs).
    rewrite Z.sub_diag, Z.leb_refl. change (Z.abs 0) with 0.
    change (0 / 2) with 0. change (0 - 0) with 0. by rewrite pad_nothing. }
  split.
  - intros <-. by apply (Hsq h).
  - destruct (pad_to_square_shape c h w img v Himg Hc0 Hh0) as [Hout _].
    apply (Hsq (Nat.max h w)); [done|lia].
Qed.

Lemma pad_to_square_idempotent_witness :
  Torch.is_tensor3 3 4 3 (blank_image 3 4 3) ∧ (0 < 3)%nat ∧ (0 < 4)%nat
  ∧ (4%nat = 3%nat →
     pad_to_square (blank_image 3 4 3) (Q2Qc 1) = (blank_image 3 4 3, (0, 0, 0, 0)))
  ∧ pad_to_square (pad_to_square (blank_image 3 4 3) (Q2Qc 1)).1 0%Qc
    = ((pad_to_square (blank_image 3 4 3) (Q2Qc 1)).1, (0, 0, 0, 0)).
Proof.
  split_and!; [apply blank_image_is_tensor3|lia|lia|..];
    apply (pad_to_square_idempotent 3 4 3 (blank_image 3 4 3) (Q2Qc 1) 0%Qc);
    [apply blank_image_is_tensor3|lia|lia|apply blank_image_is_tensor3|lia|lia].
Defined.

(** ** Pixels and rows under [horisontal_flip] *)

Lemma flip_last_pixel (c h w : nat) (img : image) (k y x : nat) :
  Torch.is_tensor3 c h w img → (k < c)%nat → (y < h)%nat → (x < w)%nat →
  pixel (Torch.flip_last img) k y x = pixel img k y (w - 1 - x).
Proof.
  intros [Hc Hall] Hk Hy Hx. unfold pixel, Torch.flip_last.
  rewrite list_lookup_fmap.
  destruct (lookup_lt_is_Some_2 img k ltac:(lia)) as [ch Hch].
  rewrite Hch. cbn [fmap option_fmap option_map mbind option_bind].
  rewrite Forall_forall in Hall.
  destruct (Hall ch ltac:(by eapply list_elem_of_lookup_2)) as [Hh Hrows].
  rewrite list_lookup_fmap.
  destruct (lookup_lt_is_Some_2 ch y ltac:(lia)) as [row Hrow].
  rewrite Hrow. cbn [fmap option_fmap option_map mbind option_bind].
  rewrite Forall_forall in Hrows.
  pose proof (Hrows row ltac:(by eapply list_elem_of_lookup_2)) as Hw.
  simpl in Hw. rewrite reverse_lookup by lia. f_equal. lia.
Qed.

(** X3. [horisontal_flip] on an image of width [w] and an annotation tensor
    mirrors the picture left to right and writes column 2 only: the output
    image has the same shape and its pixel [(k, y, x)] is pixel
    [(k, y, w - 1 - x)] of the input (rows and channels stay in place); the
    annotation tensor keeps its rows, in order, and in every row the batch
    index, the class and the columns [center_y], [width] and [height] are
    the values that were there. *)
Theorem horisontal_flip_mirror (c h w : nat) (img : image)
    (targets : targets_tensor) :
  Torch.is_tensor3 c h w img →
  ∃ (out : image) (targets' : targets_tensor),
    horisontal_flip img (Some targets) = Ok (out, targets')
    ∧ Torch.is_tensor3 c h w out
    ∧ (∀ k y x : nat, (k < c)%nat → (y < h)%nat → (x < w)%nat →
         pixel out k y x = pixel img k y (w - 1 - x))
    ∧ length targets' = length targets
    ∧ Forall2 (λ t t' : target,
                 batch_index t' = batch_index t ∧ class_id t' = class_id t
                 ∧ center_y t' = center_y t ∧ width t' = width t
                 ∧ height t' = height t)
        targets targets'.
Proof.
  intros Himg. exists (Torch.flip_last img), (flip_row <$> targets).
  split_and!; [done|by apply flip_last_is_tensor3| |by rewrite length_fmap|].
  - intros k y x Hk Hy Hx. by eapply flip_last_pixel.
  - apply Forall2_fmap_r, Forall_Forall2_diag, Forall_true.
    intros [bi k x y bw bh]. unfold flip_row. by cbn.
Qed.

Lemma horisontal_flip_mirror_witness :
  Torch.is_tensor3 1 2 3
    [[[0%Qc; 1%Qc; Qc_of_Z 2]; [Qc_of_Z 3; Qc_of_Z 4; Qc_of_Z 5]]]
  ∧ ∃ (out : image) (targets' : targets_tensor),
      horisontal_flip
        [[[0%Qc; 1%Qc; Qc_of_Z 2]; [Qc_of_Z 3; Qc_of_Z 4; Qc_of_Z 5]]]
        (Some [sample_record 7 1]) = Ok (out, targets')
      ∧ Torch.is_tensor3 1 2 3 out
      ∧ (∀ k y x : nat, (k < 1)%nat → (y < 2)%nat → (x < 3)%nat →
           pixel out k y x
           = pixel [[[0%Qc; 1%Qc; Qc_of_Z 2]; [Qc_of_Z 3; Qc_of_Z 4; Qc_of_Z 5]]]
               k y (3 - 1 - x))
      ∧ length targets' = length [sample_record 7 1]
      ∧ Forall2 (λ t t' : target,
                   batch_index t' = batch_index t ∧ class_id t' = class_id t
                   ∧ center_y t' = center_y t ∧ width t' = width t
                   ∧ height t' = height t)
          [sample_record 7 1] targets'.
Proof.
  assert (Himg : Torch.is_tensor3 1 2 3
            [[[0%Qc; 1%Qc; Qc_of_Z 2]; [Qc_of_Z 3; Qc_of_Z 4; Qc_of_Z 5]]]).
  { split; [reflexivity|]. repeat constructor. }
  split; [exact Himg|].
  apply (horisontal_flip_mirror 1 2 3
           [[[0%Qc; 1%Qc; Qc_of_Z 2]; [Qc_of_Z 3; Qc_of_Z 4; Qc_of_Z 5]]]
           [sample_record 7 1]).
  exact Himg.
Defined.

(** ** Label files and the records of [__getitem__] *)

Lemma reshape5_fields (boxes : boxes_tensor) :
  reshape5 (concat (box_fields <$> boxes)) = Ok boxes.
Proof.
  induction boxes as [|[k x y w h] rest IH]; [done|].
  cbn [fmap list_fmap concat box_fields app reshape5
       box_class box_cx box_cy box_w box_h].
  change (list_fmap box (list Qc) box_fields rest) with (box_fields <$> rest).
  by rewrite IH.
Qed.

Lemma reshape5_length (flat : list Qc) :
  match reshape5 flat with
  | Ok boxes => length flat = (5 * length boxes)%nat
                ∧ concat (box_fields <$> boxes) = flat
  | Raise e => e = ValueError ∧ (length flat mod 5 ≠ 0)%nat
  end.
Proof.
  remember (length flat) as n eqn:Hn.
  revert flat Hn. induction (lt_wf n) as [n _ IH]. intros flat ->.
  destruct flat as [|a [|b [|c [|d [|e rest]]]]]; try (by split).
  specialize (IH (length rest) ltac:(simpl; lia) rest eq_refl).
  cbn [reshape5].
  destruct (reshape5 rest) as [boxes|err]; cbn [mbind result_bind].
  - destruct IH as [Hlen Hcat]. split; [simpl; lia|].
    cbn. do 5 f_equal. exact Hcat.
  - destruct IH as [-> Hmod]. split; [done|].
    change (length (a :: b :: c :: d :: e :: rest)) with (5 + length rest)%nat.
    replace (5 + length rest)%nat with (length rest + 1 * 5)%nat by lia.
    by rewrite Nat.Div0.mod_add.
Qed.

Lemma np_loadtxt_boxes (boxes : boxes_tensor) :
  np_loadtxt (Rows (box_fields <$> boxes)) = Ok (concat (box_fields <$> boxes)).
Proof.
  destruct boxes as [|b rest]; [done|]. cbn [fmap list_fmap np_loadtxt].
  match goal with
  | |- context [forallb ?f ?l] => assert (Hall : forallb f l = true)
  end.
  { apply forallb_forall. intros r Hr. apply in_map_iff in Hr as (b' & <- & _).
    done. }
  by rewrite Hall.
Qed.

(** What [remap_box] gives in pixels of the padded frame of side [S]. *)
Lemma remap_box_pixels (hf wf l r t b S : Z) (bx : box) :
  S ≠ 0 →
  let tg := remap_box hf wf (l, r, t, b) S S bx in
  batch_index tg = 0%Qc ∧ class_id tg = box_class bx
  ∧ (center_x tg * Qc_of_Z S
     = Qc_of_Z wf * box_cx bx + (Qc_of_Z l + Qc_of_Z r) / 2)%Qc
  ∧ (center_y tg * Qc_of_Z S
     = Qc_of_Z hf * box_cy bx + (Qc_of_Z t + Qc_of_Z b) / 2)%Qc
  ∧ (width tg * Qc_of_Z S = Qc_of_Z wf * box_w bx)%Qc
  ∧ (height tg * Qc_of_Z S = Qc_of_Z hf * box_h bx)%Qc.
Proof.
  intros HS.
  assert (HS' : Qc_of_Z S ≠ 0%Qc)
    by (rewrite <- Z2Qc_inj_0; intros E; by apply Z2Qc_inj in E).
  assert (H2 : (1 + 1)%Qc ≠ 0%Qc) by done.
  unfold remap_box. cbn [batch_index class_id center_x center_y width height].
  split_and!; try done; field; done.
Qed.

(** [__getitem__] on a label file whose rows are the five numbers of
    [boxes], one box per row. *)
Lemma getitem_labelled (env : world) (self : ListDataset) (index : Z) (u : Qc)
    (line lline : string) (img : image) (c h w : nat) (boxes : boxes_tensor) :
  img_files self !! Z.to_nat (index mod Z.of_nat (length (img_files self))) = Some line →
  label_files self !! Z.to_nat (index mod Z.of_nat (length (img_files self))) = Some lline →
  load_image env (augment self) (Py.rstrip line) = Ok img →
  Torch.is_tensor3 c h w img → (0 < c)%nat → (0 < h)%nat →
  label_at env (Py.rstrip lline) = Rows (box_fields <$> boxes) →
  ListDataset_getitem env self index u =
    let remapped :=
      remap_box (if normalized_labels self then Z.of_nat h else 1)
                (if normalized_labels self then Z.of_nat w else 1)
                (pad_to_square img 0%Qc).2
                (Z.max (Z.of_nat h) (Z.of_nat w))
                (Z.max (Z.of_nat h) (Z.of_nat w)) <$> boxes in
    if augment self && bool_decide (u < 1 / 2)%Qc
    then Ok (Py.rstrip line, Torch.flip_last (pad_to_square img 0%Qc).1,
             Some (flip_row <$> remapped))
    else Ok (Py.rstrip line, (pad_to_square img 0%Qc).1, Some remapped).
Proof.
  intros Hline Hlline Hload Himg Hc0 Hh0 Hrows.
  rewrite (getitem_eval env self index u line lline img c h w) by done.
  rewrite Hrows. cbn [path_exists]. rewrite np_loadtxt_boxes.
  cbn [mbind result_bind]. rewrite reshape5_fields. cbn [mbind result_bind].
  unfold remap_boxes.
  assert (Hmax : (Z.max (Z.of_nat h) (Z.of_nat w) =? 0) = false)
    by (apply Z.eqb_neq; lia).
  rewrite Hmax. cbn [mbind result_bind]. cbv zeta.
  destruct (augment self); [|done].
  by destruct (bool_decide (u < 1 / 2)%Qc).
Qed.

(** The padding of each axis adds up to what the side lacks, and its second
    half exceeds the first by at most one pixel. *)
Lemma pad_to_square_sums (c h w : nat) (img : image) (v : Qc) :
  Torch.is_tensor3 c h w img → (0 < c)%nat → (0 < h)%nat →
  ∃ l r t b : Z,
    (pad_to_square img v).2 = (l, r, t, b)
    ∧ 0 ≤ l ∧ 0 ≤ t
    ∧ l + r = Z.max (Z.of_nat h) (Z.of_nat w) - Z.of_nat w
    ∧ t + b = Z.max (Z.of_nat h) (Z.of_nat w) - Z.of_nat h
    ∧ 0 ≤ r - l ≤ 1 ∧ 0 ≤ b - t ≤ 1.
Proof.
  intros Himg Hc0 Hh0.
  rewrite (pad_to_square_eq c h w img v Himg Hc0 Hh0). cbn [snd].
  set (d := Z.abs (Z.of_nat h - Z.of_nat w)).
  destruct (half_split d ltac:(unfold d; lia)) as (Hf & Hceil & Hc').
  assert (Hhalf : 0 ≤ d - d / 2 - d / 2 ≤ 1).
  { pose proof (Z.div_mod d 2 ltac:(lia)).
    pose proof (Z.mod_pos_bound d 2 ltac:(lia)). lia. }
  destruct (Z.leb_spec (Z.of_nat h) (Z.of_nat w)).
  - exists 0, 0, (d / 2), (d - d / 2). split; [done|]. unfold d in *. lia.
  - exists (d / 2), (d - d / 2), 0, 0. split; [done|]. unfold d in *. lia.
Qed.

(** X4. For a label file with one box per row (five numbers each),
    [__getitem__] returns one record per row, in file order, with 0 in
    column 0 and the row's first number as the class, whether or not the
    flip is taken. *)
Theorem getitem_records (env : world) (self : ListDataset) (index : Z) (u : Qc)
    (line lline : string) (img : image) (c h w : nat) (boxes : boxes_tensor) :
  img_files self !! Z.to_nat (index mod Z.of_nat (length (img_files self))) = Some line →
  label_files self !! Z.to_nat (index mod Z.of_nat (length (img_files self))) = Some lline →
  load_image env (augment self) (Py.rstrip line) = Ok img →
  Torch.is_tensor3 c h w img → (0 < c)%nat → (0 < h)%nat →
  label_at env (Py.rstrip lline) = Rows (box_fields <$> boxes) →
  ∃ (out : image) (targets : targets_tensor),
    ListDataset_getitem env self index u = Ok (Py.rstrip line, out, Some targets)
    ∧ length targets = length boxes
    ∧ Forall2 (λ (b : box) (t : target),
                 batch_index t = 0%Qc ∧ class_id t = box_class b)
        boxes targets.
Proof.
  intros Hline Hlline Hload Himg Hc0 Hh0 Hrows.
  rewrite (getitem_labelled env self index u line lline img c h w boxes) by done.
  cbv zeta. destruct (pad_to_square img 0%Qc).2 as [[[l r] t] b].
  destruct (augment self && bool_decide (u < 1 / 2)%Qc);
    eexists _, _; (split; [reflexivity|]);
    rewrite ?length_fmap; (split; [done|]).
  - apply Forall2_fmap_r, Forall2_fmap_r, Forall_Forall2_diag, Forall_true.
    by intros bx.
  - apply Forall2_fmap_r, Forall_Forall2_diag, Forall_true. by intros bx.
Qed.

Lemma sample_a_facts :
  img_files sample_dataset
    !! Z.to_nat (0 mod Z.of_nat (length (img_files sample_dataset)))
    = Some (String.append "data/images/a.jpg" newline)
  ∧ label_files sample_dataset
      !! Z.to_nat (0 mod Z.of_nat (length (img_files sample_dataset)))
    = Some (String.append "data/labels/a.txt" newline)
  ∧ load_image sample_world (augment sample_dataset)
      (Py.rstrip (String.append "data/images/a.jpg" newline))
    = Ok (blank_image 3 50 100)
  ∧ label_at sample_world (Py.rstrip (String.append "data/labels/a.txt" newline))
    = Rows (box_fields
              <$> [Box 0%Qc (Q2Qc (1 # 2)) (Q2Qc (1 # 2)) (Q2Qc (1 # 5)) (Q2Qc (2 # 5))]).
Proof. split_and!; reflexivity. Defined.

Lemma getitem_records_witness :
  img_files sample_dataset
    !! Z.to_nat (0 mod Z.of_nat (length (img_files sample_dataset)))
    = Some (String.append "data/images/a.jpg" newline)
  ∧ label_files sample_dataset
      !! Z.to_nat (0 mod Z.of_nat (length (img_files sample_dataset)))
    = Some (String.append "data/labels/a.txt" newline)
  ∧ load_image sample_world (augment sample_dataset)
      (Py.rstrip (String.append "data/images/a.jpg" newline))
    = Ok (blank_image 3 50 100)
  ∧ Torch.is_tensor3 3 50 100 (blank_image 3 50 100) ∧ (0 < 3)%nat ∧ (0 < 50)%nat
  ∧ label_at sample_world (Py.rstrip (String.append "data/labels/a.txt" newline))
    = Rows (box_fields
              <$> [Box 0%Qc (Q2Qc (1 # 2)) (Q2Qc (1 # 2)) (Q2Qc (1 # 5)) (Q2Qc (2 # 5))])
  ∧ ∃ (out : image) (targets : targets_tensor),
      ListDataset_getitem sample_world sample_dataset 0 (Q2Qc (1 # 4))
        = Ok (Py.rstrip (String.append "data/images/a.jpg" newline), out, Some targets)
      ∧ length targets
        = length [Box 0%Qc (Q2Qc (1 # 2)) (Q2Qc (1 # 2)) (Q2Qc (1 # 5)) (Q2Qc (2 # 5))]
      ∧ Forall2 (λ (b : box) (t : target),
                   batch_index t = 0%Qc ∧ class_id t = box_class b)
          [Box 0%Qc (Q2Qc (1 # 2)) (Q2Qc (1 # 2)) (Q2Qc (1 # 5)) (Q2Qc (2 # 5))]
          targets.
Proof.
  destruct sample_a_facts as (H1 & H2 & H3 & H4).
  split_and!; [done|done|done|apply blank_image_is_tensor3|lia|lia|done|].
  apply (getitem_records sample_world sample_dataset 0 (Q2Qc (1 # 4)) _ _
           (blank_image 3 50 100) 3 50 100 _ H1 H2 H3
           (blank_image_is_tensor3 3 50 100) ltac:(lia) ltac:(lia) H4).
Defined.

(** X5. For a label file with one box per row and no flip, measured in
    pixels of the padded frame (side [S = max(h, w)]): the width and height of
    every record are those of its box ([w_factor * w] and [h_factor * h]),
    and its centre is the centre of the box moved by [left] (or [top]) plus
    half the difference of the two paddings of that axis, a difference that
    is 0 or 1: the centre is exact when [|h - w|] is even and half a pixel
    off when it is odd. *)
Theorem getitem_box_pixels (env : world) (self : ListDataset) (index : Z) (u : Qc)
    (line lline : string) (img : image) (c h w : nat) (boxes : boxes_tensor) :
  img_files self !! Z.to_nat (index mod Z.of_nat (length (img_files self))) = Some line →
  label_files self !! Z.to_nat (index mod Z.of_nat (length (img_files self))) = Some lline →
  load_image env (augment self) (Py.rstrip line) = Ok img →
  Torch.is_tensor3 c h w img → (0 < c)%nat → (0 < h)%nat →
  label_at env (Py.rstrip lline) = Rows (box_fields <$> boxes) →
  augment self && bool_decide (u < 1 / 2)%Qc = false →
  ∃ (out : image) (targets : targets_tensor) (l r t b : Z),
    ListDataset_getitem env self index u = Ok (Py.rstrip line, out, Some targets)
    ∧ (pad_to_square img 0%Qc).2 = (l, r, t, b)
    ∧ 0 ≤ r - l ≤ 1 ∧ 0 ≤ b - t ≤ 1
    ∧ Forall2
        (λ (bx : box) (tg : target),
           let S := Qc_of_Z (Z.max (Z.of_nat h) (Z.of_nat w)) in
           let wf := Qc_of_Z (if normalized_labels self then Z.of_nat w else 1) in
           let hf := Qc_of_Z (if normalized_labels self then Z.of_nat h else 1) in
           (width tg * S = wf * box_w bx)%Qc
           ∧ (height tg * S = hf * box_h bx)%Qc
           ∧ (center_x tg * S
              = wf * box_cx bx + Qc_of_Z l + Qc_of_Z (r - l) / 2)%Qc
           ∧ (center_y tg * S
              = hf * box_cy bx + Qc_of_Z t + Qc_of_Z (b - t) / 2)%Qc)
        boxes targets.
Proof.
  intros Hline Hlline Hload Himg Hc0 Hh0 Hrows Hflip.
  rewrite (getitem_labelled env self index u line lline img c h w boxes) by done.
  cbv zeta. rewrite Hflip.
  destruct (pad_to_square_sums c h w img 0%Qc Himg Hc0 Hh0)
    as (l & r & t & b & Hpad & _ & _ & _ & _ & Hrl & Hbt).
  rewrite Hpad. eexists _, _, l, r, t, b.
  split; [reflexivity|]. split_and!; try done; try lia.
  apply Forall2_fmap_r, Forall_Forall2_diag, Forall_true. intros bx. cbv zeta.
  destruct (remap_box_pixels
              (if normalized_labels self then Z.of_nat h else 1)
              (if normalized_labels self then Z.of_nat w else 1)
              l r t b (Z.max (Z.of_nat h) (Z.of_nat w)) bx ltac:(lia))
    as (_ & _ & Hx & Hy & Hw & Hh).
  assert (H2 : (1 + 1)%Qc ≠ 0%Qc) by done.
  split_and!; [done|done|..].
  - rewrite Hx, Z2Qc_inj_sub. field. done.
  - rewrite Hy, Z2Qc_inj_sub. field. done.
Qed.

Lemma getitem_box_pixels_witness :
  img_files sample_dataset
    !! Z.to_nat (0 mod Z.of_nat (length (img_files sample_dataset)))
    = Some (String.append "data/images/a.jpg" newline)
  ∧ label_files sample_dataset
      !! Z.to_nat (0 mod Z.of_nat (length (img_files sample_dataset)))
    = Some (String.append "data/labels/a.txt" newline)
  ∧ load_image sample_world (augment sample_dataset)
      (Py.rstrip (String.append "data/images/a.jpg" newline))
    = Ok (blank_image 3 50 100)
  ∧ Torch.is_tensor3 3 50 100 (blank_image 3 50 100) ∧ (0 < 3)%nat ∧ (0 < 50)%nat
  ∧ label_at sample_world (Py.rstrip (String.append "data/labels/a.txt" newline))
    = Rows (box_fields
              <$> [Box 0%Qc (Q2Qc (1 # 2)) (Q2Qc (1 # 2)) (Q2Qc (1 # 5)) (Q2Qc (2 # 5))])
  ∧ augment sample_dataset && bool_decide (Q2Qc (3 # 4) < 1 / 2)%Qc = false
  ∧ ∃ (out : image) (targets : targets_tensor) (l r t b : Z),
      ListDataset_getitem sample_world sample_dataset 0 (Q2Qc (3 # 4))
        = Ok (Py.rstrip (String.append "data/images/a.jpg" newline), out, Some targets)
      ∧ (pad_to_square (blank_image 3 50 100) 0%Qc).2 = (l, r, t, b)
      ∧ 0 ≤ r - l ≤ 1 ∧ 0 ≤ b - t ≤ 1
      ∧ Forall2
          (λ (bx : box) (tg : target),
             let S := Qc_of_Z (Z.max (Z.of_nat 50) (Z.of_nat 100)) in
             let wf := Qc_of_Z (if normalized_labels sample_dataset
                                then Z.of_nat 100 else 1) in
             let hf := Qc_of_Z (if normalized_labels sample_dataset
                                then Z.of_nat 50 else 1) in
             (width tg * S = wf * box_w bx)%Qc
             ∧ (height tg * S = hf * box_h bx)%Qc
             ∧ (center_x tg * S
                = wf * box_cx bx + Qc_of_Z l + Qc_of_Z (r - l) / 2)%Qc
             ∧ (center_y tg * S
                = hf * box_cy bx + Qc_of_Z t + Qc_of_Z (b - t) / 2)%Qc)
          [Box 0%Qc (Q2Qc (1 # 2)) (Q2Qc (1 # 2)) (Q2Qc (1 # 5)) (Q2Qc (2 # 5))]
          targets.
Proof.
  destruct sample_a_facts as (H1 & H2 & H3 & H4).
  split_and!; [done|done|done|apply blank_image_is_tensor3|lia|lia|done|done|].
  apply (getitem_box_pixels sample_world sample_dataset 0 (Q2Qc (3 # 4)) _ _
           (blank_image 3 50 100) 3 50 100 _ H1 H2 H3
           (blank_image_is_tensor3 3 50 100) ltac:(lia) ltac:(lia) H4 eq_refl).
Defined.

(** ** Failures of [__getitem__] *)

(** [__getitem__] once the list entries and the picture are there, written
    with the shape bookkeeping left as it is. *)
Lemma getitem_label_error (env : world) (self : ListDataset) (index : Z)
    (u : Qc) (line lline : string) (img : image) (e : exn) :
  img_files self !! Z.to_nat (index mod Z.of_nat (length (img_files self))) = Some line →
  label_files self !! Z.to_nat (index mod Z.of_nat (length (img_files self))) = Some lline →
  load_image env (augment self) (Py.rstrip line) = Ok img →
  path_exists (label_at env (Py.rstrip lline)) = true →
  (flat ← np_loadtxt (label_at env (Py.rstrip lline)); reshape5 flat) = Raise e →
  ListDataset_getitem env self index u = Raise e.
Proof.
  intros Hline Hlline Hload Hex Herr.
  assert (Hne : img_files self ≠ []) by (intros E; by rewrite E in Hline).
  assert (Hlen : 0 < Z.of_nat (length (img_files self)))
    by (destruct (img_files self); simpl in *; [done|lia]).
  pose proof (Z.mod_pos_bound index _ Hlen) as Hb.
  unfold ListDataset_getitem.
  rewrite (mod_nonempty _ index Hne). cbn [mbind result_bind].
  rewrite (getitem_lookup _ _ _ (proj1 Hb) Hline),
    (getitem_lookup _ _ _ (proj1 Hb) Hlline). cbn [mbind result_bind].
  rewrite Hload, Hex. cbn [mbind result_bind].
  destruct (Torch.shape img) as [[? h] w].
  destruct (if normalized_labels self then _ else _) as [h_factor w_factor].
  destruct (pad_to_square img 0%Qc) as [out pad].
  destruct (Torch.shape out) as [[? padded_h] padded_w].
  destruct (np_loadtxt (label_at env (Py.rstrip lline))) as [flat|e'];
    cbn [mbind result_bind] in *; [|congruence].
  by rewrite Herr.
Qed.

(** X7. A label file that exists but is malformed makes [__getitem__] raise
    ValueError, under every configuration and draw: this holds when the file
    does not parse as numbers, when its rows differ in length, and when the
    count of its numbers is not a multiple of 5.  The item is neither skipped
    nor given the no-annotations marker. *)
Theorem getitem_malformed_label (env : world) (self : ListDataset) (index : Z)
    (u : Qc) (line lline : string) (img : image) :
  img_files self !! Z.to_nat (index mod Z.of_nat (length (img_files self))) = Some line →
  label_files self !! Z.to_nat (index mod Z.of_nat (length (img_files self))) = Some lline →
  load_image env (augment self) (Py.rstrip line) = Ok img →
  (label_at env (Py.rstrip lline) = Unparsable
   ∨ (∃ rows : list (list Qc),
        label_at env (Py.rstrip lline) = Rows rows
        ∧ (length (concat rows) mod 5 ≠ 0)%nat)
   ∨ (∃ (r : list Qc) (rest : list (list Qc)) (r' : list Qc),
        label_at env (Py.rstrip lline) = Rows (r :: rest)
        ∧ r' ∈ rest ∧ length r' ≠ length r)) →
  ListDataset_getitem env self index u = Raise ValueError.
Proof.
  intros Hline Hlline Hload Hbad.
  apply (getitem_label_error env self index u line lline img ValueError);
    try done.
  - by destruct Hbad as [->|[(rows & -> & _)|(r & rest & r' & -> & _)]].
  - destruct Hbad as [->|[(rows & -> & Hmod)|(r & rest & r' & -> & Hin & Hlen)]].
    + done.
    + assert (Hflat : (reshape5 (concat rows)) = Raise ValueError).
      { pose proof (reshape5_length (concat rows)) as Hre.
        destruct (reshape5 (concat rows)) as [boxes|e].
        - destruct Hre as [Hre _]. rewrite Hre in Hmod.
          by rewrite Nat.mul_comm, Nat.Div0.mod_mul in Hmod.
        - by destruct Hre as [-> _]. }
      destruct rows as [|r rest]; [done|]. cbn [np_loadtxt].
      destruct (forallb _ rest); [|done]. cbn [mbind result_bind]. exact Hflat.
    + cbn [np_loadtxt].
      assert (Hall : forallb (λ r0 : list Qc, (length r0 =? length r)%nat) rest
                     = false).
      { apply not_true_is_false. intros Hall.
        rewrite forallb_forall in Hall.
        specialize (Hall r' ltac:(by apply list_elem_of_In)).
        by apply Nat.eqb_eq in Hall. }
      by rewrite Hall.
Qed.

Lemma getitem_malformed_label_witness :
  img_files sample_dataset
    !! Z.to_nat (0 mod Z.of_nat (length (img_files sample_dataset)))
    = Some (String.append "data/images/a.jpg" newline)
  ∧ label_files sample_dataset
      !! Z.to_nat (0 mod Z.of_nat (length (img_files sample_dataset)))
    = Some (String.append "data/labels/a.txt" newline)
  ∧ load_image
      (with_label sample_world "data/labels/a.txt"
         (Rows [[0%Qc; Q2Qc (1 # 2); Q2Qc (1 # 2); Q2Qc (1 # 5)]]))
      (augment sample_dataset)
      (Py.rstrip (String.append "data/images/a.jpg" newline))
    = Ok (blank_image 3 50 100)
  ∧ (∃ rows : list (list Qc),
       label_at
         (with_label sample_world "data/labels/a.txt"
            (Rows [[0%Qc; Q2Qc (1 # 2); Q2Qc (1 # 2); Q2Qc (1 # 5)]]))
         (Py.rstrip (String.append "data/labels/a.txt" newline))
       = Rows rows
       ∧ (length (concat rows) mod 5 ≠ 0)%nat)
  ∧ ListDataset_getitem
      (with_label sample_world "data/labels/a.txt"
         (Rows [[0%Qc; Q2Qc (1 # 2); Q2Qc (1 # 2); Q2Qc (1 # 5)]]))
      sample_dataset 0 (Q2Qc (3 # 4))
    = Raise ValueError.
Proof.
  destruct sample_a_facts as (H1 & H2 & _ & _).
  assert (H3 : load_image
      (with_label sample_world "data/labels/a.txt"
         (Rows [[0%Qc; Q2Qc (1 # 2); Q2Qc (1 # 2); Q2Qc (1 # 5)]]))
      (augment sample_dataset)
      (Py.rstrip (String.append "data/images/a.jpg" newline))
    = Ok (blank_image 3 50 100)) by reflexivity.
  assert (H4 : ∃ rows : list (list Qc),
       label_at
         (with_label sample_world "data/labels/a.txt"
            (Rows [[0%Qc; Q2Qc (1 # 2); Q2Qc (1 # 2); Q2Qc (1 # 5)]]))
         (Py.rstrip (String.append "data/labels/a.txt" newline))
       = Rows rows
       ∧ (length (concat rows) mod 5 ≠ 0)%nat).
  { eexists. split; [reflexivity|]. by vm_compute. }
  split_and!; [done|done|done|done|].
  apply (getitem_malformed_label _ sample_dataset 0 (Q2Qc (3 # 4)) _ _
           (blank_image 3 50 100) H1 H2 H3 (or_intror (or_introl H4))).
Defined.




(** ** The flip inside [__getitem__] *)

(** X9. Under [augment], the item for a draw below 0.5 is the item for a
    draw of at least 0.5 passed through [horisontal_flip]; this covers the
    failures too: an item that fails without the flip fails alike with it,
    and an item without annotations fails in the flip. *)
Theorem getitem_flip_composes (env : world) (self : ListDataset) (index : Z)
    (u1 u2 : Qc) :
  augment self = true → (u1 < 1 / 2)%Qc → ¬ (u2 < 1 / 2)%Qc →
  ListDataset_getitem env self index u1
  = ('(p, img, t) ← ListDataset_getitem env self index u2;
     '(img', t') ← horisontal_flip img t;
     Ok (p, img', Some t')).
Proof.
  intros Haug H1 H2. unfold ListDataset_getitem.
  rewrite Haug, (bool_decide_eq_true_2 _ H1), (bool_decide_eq_false_2 _ H2).
  destruct (Py.mod_ index _) as [k|]; [|done]. cbn [mbind result_bind].
  destruct (Py.getitem (img_files self) k) as [line|]; [|done].
  cbn [mbind result_bind].
  destruct (load_image env true (Py.rstrip line)) as [img|]; [|done].
  cbn [mbind result_bind].
  destruct (Torch.shape img) as [[? h] w].
  destruct (if normalized_labels self then _ else _) as [h_factor w_factor].
  destruct (pad_to_square img 0%Qc) as [out pad].
  destruct (Torch.shape out) as [[? padded_h] padded_w].
  destruct (Py.getitem (label_files self) k) as [lline|]; [|done].
  cbn [mbind result_bind].
  match goal with
  | |- (?m ≫= _) = _ => destruct m as [targets|]; [|done]
  end.
  reflexivity.
Qed.

Lemma getitem_flip_composes_witness :
  augment sample_dataset = true ∧ (Q2Qc (1 # 4) < 1 / 2)%Qc
  ∧ ¬ (Q2Qc (3 # 4) < 1 / 2)%Qc
  ∧ ListDataset_getitem sample_world sample_dataset 0 (Q2Qc (1 # 4))
    = ('(p, img, t) ← ListDataset_getitem sample_world sample_dataset 0 (Q2Qc (3 # 4));
       '(img', t') ← horisontal_flip img t;
       Ok (p, img', Some t')).
Proof.
  assert (H1 : (Q2Qc (1 # 4) < 1 / 2)%Qc) by (by vm_compute).
  assert (H2 : ¬ (Q2Qc (3 # 4) < 1 / 2)%Qc) by (by vm_compute).
  split_and!; [done|done|done|].
  apply (getitem_flip_composes sample_world sample_dataset 0
           (Q2Qc (1 # 4)) (Q2Qc (3 # 4)) eq_refl H1 H2).
Defined.

(** ** What [collate_fn] leaves alone *)

Lemma same_boxes_refl (a : targets_tensor) : same_boxes a a.
Proof. apply Forall_Forall2_diag, Forall_true. done. Qed.

Lemma same_boxes_trans (a b c : targets_tensor) :
  same_boxes a b → same_boxes b c → same_boxes a c.
Proof.
  unfold same_boxes. intros Hab. revert c.
  induction Hab as [|x y a b Hxy _ IH]; intros c Hbc.
  - inversion Hbc. apply Forall2_nil_2.
  - inversion Hbc as [|y' z b' c' Hyz Hrest]; subst.
    constructor; [|by apply IH].
    destruct Hxy as (? & ? & ? & ? & ?), Hyz as (? & ? & ? & ? & ?).
    split_and!; congruence.
Qed.

Lemma set_batch_index_same (i : nat) (a : targets_tensor) :
  same_boxes a (set_batch_index i a).
Proof.
  unfold same_boxes, set_batch_index.
  apply Forall2_fmap_r, Forall_Forall2_diag, Forall_true. done.
Qed.

(** Whatever the list of references, shared or not, the loop of lines
    149-150 keeps the set of stored tensors and changes column 0 only. *)
Lemma index_targets_frame (targets : list nat) (i : nat) (σ : heap) (l : nat) :
  match σ !! l with
  | None => index_targets i targets σ !! l = None
  | Some t => ∃ t', index_targets i targets σ !! l = Some t' ∧ same_boxes t t'
  end.
Proof.
  revert i σ. induction targets as [|l' rest IH]; intros i σ.
  { simpl. destruct (σ !! l) as [t|]; [|done]. eauto using same_boxes_refl. }
  simpl. specialize (IH (S i) (alter (set_batch_index i) l' σ)).
  destruct (decide (l' = l)) as [->|Hne].
  - rewrite lookup_alter_eq in IH. destruct (σ !! l) as [t|]; simpl in IH; [|done].
    destruct IH as (t' & Ht' & Hsame). exists t'. split; [done|].
    eapply same_boxes_trans; [apply set_batch_index_same|done].
  - by rewrite lookup_alter_ne in IH.
Qed.

Lemma same_boxes_concat (σ σ' : heap) (refs : list nat) :
  (∀ l, match σ !! l with
        | None => σ' !! l = None
        | Some t => ∃ t', σ' !! l = Some t' ∧ same_boxes t t'
        end) →
  same_boxes (concat (deref σ <$> refs)) (concat (deref σ' <$> refs)).
Proof.
  intros Hσ. induction refs as [|l rest IH]; [apply Forall2_nil_2|].
  cbn [fmap list_fmap concat]. apply Forall2_app; [|exact IH].
  unfold deref. specialize (Hσ l). destruct (σ !! l) as [t|].
  - destruct Hσ as (t' & -> & Hsame). done.
  - rewrite Hσ. apply Forall2_nil_2.
Qed.

Lemma stack_cases (imgs : list image) :
  Torch.stack imgs = Ok imgs ∨ Torch.stack imgs = Raise RuntimeError.
Proof.
  destruct imgs as [|a rest]; [by right|]. unfold Torch.stack.
  destruct (forallb _ rest); [by left|by right].
Qed.

Lemma getitem_ext (env : world) (a b : ListDataset) (index : Z) (u : Qc) :
  img_files a = img_files b → label_files a = label_files b →
  augment a = augment b → normalized_labels a = normalized_labels b →
  ListDataset_getitem env a index u = ListDataset_getitem env b index u.
Proof. intros H1 H2 H3 H4. unfold ListDataset_getitem. by rewrite H1, H2, H3, H4. Qed.

Lemma drawn_size_in_range (r : nat) :
  320 + 32 * Z.of_nat (r mod 10) ∈ Py.range 320 (608 + 1) 32.
Proof.
  rewrite multiscale_range.
  pose proof (Nat.mod_upper_bound r 10 ltac:(lia)) as Hb.
  destruct (r mod 10)%nat as [|[|[|[|[|[|[|[|[|[|k]]]]]]]]]];
    [simpl; set_solver ..|lia].
Qed.

Section FurtherProperties.

Variable interpolate : image → Z → image.

Hypothesis interpolate_shape :
  ∀ (img : image) (c h w : nat) (size : Z),
    Torch.is_tensor3 c h w img → (0 < c)%nat → (0 < h)%nat → (0 < w)%nat →
    0 < size →
    Torch.is_tensor3 c (Z.to_nat size) (Z.to_nat size) (interpolate img size).

(** [collate_fn] in one piece, for every input. *)
Lemma collate_fn_result (self : ListDataset) (σ : heap) (batch : list item)
    (r : nat) :
  collate_fn interpolate self σ batch r =
    match batch with
    | [] => (self, σ, Raise ValueError)
    | _ :: _ =>
        let σ' := index_targets 0 (batch_refs batch) σ in
        let size := if draws self then 320 + 32 * Z.of_nat (r mod 10)
                    else img_size self in
        let resized := (λ img, resize interpolate img size) <$> (item_image <$> batch) in
        match Torch.stack resized with
        | Ok imgs =>
            (set_batch_count (batch_count self + 1) (set_img_size size self), σ',
             Ok (item_path <$> batch, imgs,
                 match batch_refs batch with
                 | [] => None
                 | _ => Some (concat (deref σ' <$> batch_refs batch))
                 end))
        | Raise e => (set_img_size size self, σ', Raise e)
        end
    end.
Proof.
  clear interpolate_shape.
  unfold collate_fn. destruct batch as [|it rest]; [done|].
  fold (batch_refs (it :: rest)). cbv zeta.
  set (σ' := index_targets 0 (batch_refs (it :: rest)) σ).
  assert (Hcat : cat_or_none (deref σ' <$> batch_refs (it :: rest))
            = Ok match batch_refs (it :: rest) with
                 | [] => None
                 | _ => Some (concat (deref σ' <$> batch_refs (it :: rest)))
                 end).
  { unfold cat_or_none, Torch.cat. by destruct (batch_refs (it :: rest)). }
  rewrite Hcat. fold (draws self).
  assert (Hchoice :
    (if draws self then Py.random_choice r (Py.range 320 (608 + 1) 32)
     else Ok (img_size self))
    = Ok (if draws self then 320 + 32 * Z.of_nat (r mod 10) else img_size self)).
  { destruct (draws self); [apply random_choice_range|done]. }
  rewrite Hchoice. cbn [img_size set_img_size].
  by destruct (Torch.stack _).
Qed.

Lemma collate_fn_fields (self : ListDataset) (σ : heap) (batch : list item)
    (r : nat) :
  let self' := (collate_fn interpolate self σ batch r).1.1 in
  img_files self' = img_files self ∧ label_files self' = label_files self
  ∧ max_objects self' = max_objects self ∧ augment self' = augment self
  ∧ multiscale self' = multiscale self
  ∧ normalized_labels self' = normalized_labels self.
Proof.
  clear interpolate_shape.
  rewrite collate_fn_result. destruct batch as [|it rest]; [done|].
  cbv zeta. by destruct (Torch.stack _).
Qed.

(** X10. What a call of [collate_fn] changes, on every input and whether it
    returns or raises: of the dataset object only [img_size] and
    [batch_count]; the counter goes up by one exactly when the call returns;
    a resolution other than the old one is one drawn from
    [range(320, 609, 32)] in a call that draws; of the annotation tensors
    only those the batch refers to, and of these only column 0 (same number
    of rows, same columns 1 to 5), also when two items share a tensor. *)
Theorem collate_fn_frame (self : ListDataset) (σ : heap) (batch : list item)
    (r : nat) :
  let out := collate_fn interpolate self σ batch r in
  let self' := out.1.1 in
  let σ' := out.1.2 in
  img_files self' = img_files self ∧ label_files self' = label_files self
  ∧ max_objects self' = max_objects self ∧ augment self' = augment self
  ∧ multiscale self' = multiscale self
  ∧ normalized_labels self' = normalized_labels self
  ∧ batch_count self'
    = match out.2 with
      | Ok _ => batch_count self + 1
      | Raise _ => batch_count self
      end
  ∧ (img_size self' = img_size self
     ∨ draws self = true ∧ img_size self' ∈ Py.range 320 (608 + 1) 32)
  ∧ (∀ l : nat, l ∉ batch_refs batch → σ' !! l = σ !! l)
  ∧ (∀ l : nat,
       match σ !! l with
       | None => σ' !! l = None
       | Some t => ∃ t', σ' !! l = Some t' ∧ same_boxes t t'
       end).
Proof.
  clear interpolate_shape.
  cbv zeta. rewrite collate_fn_result. destruct batch as [|it rest].
  { cbn [fst snd]. split_and!; try done; [by left|].
    intros l. destruct (σ !! l) as [t|]; eauto using same_boxes_refl. }
  cbv zeta.
  assert (Hsize :
    (if draws self then 320 + 32 * Z.of_nat (r mod 10) else img_size self)
    = img_size self
    ∨ draws self = true
      ∧ (if draws self then 320 + 32 * Z.of_nat (r mod 10) else img_size self)
        ∈ Py.range 320 (608 + 1) 32).
  { destruct (draws self); [right; split; [done|apply drawn_size_in_range]|by left]. }
  destruct (Torch.stack _); cbn [fst snd];
    (split_and!; try done;
     [intros l Hl; by apply index_targets_notin
     |intros l; apply index_targets_frame]).
Qed.

(** X11. What a call of [collate_fn] gives back for a batch in which at
    least one item carries an annotation tensor, the images being
    [C]-channel tensors of positive height and width and the resolution used
    positive: the call returns; the paths are those of the batch items in
    order; there is one image per item, each the item's image resized to the
    resolution the object holds after the call, of shape [(N, C, S, S)]
    together; the annotations are the rows of the items' tensors in batch
    order, as they stand in the store after the call, unchanged in columns 1
    to 5.  Items may share a tensor. *)
Theorem collate_fn_output (self : ListDataset) (σ : heap) (batch : list item)
    (r c : nat) :
  (0 < c)%nat → images_ok c batch →
  (draws self = false → 0 < img_size self) →
  batch_refs batch ≠ [] →
  let out := collate_fn interpolate self σ batch r in
  ∃ (imgs : list image) (t : targets_tensor),
    out.2 = Ok (item_path <$> batch, imgs, Some t)
    ∧ imgs = (λ it, resize interpolate (item_image it) (img_size out.1.1))
               <$> batch
    ∧ Torch.is_tensor4 (length batch) c (Z.to_nat (img_size out.1.1))
        (Z.to_nat (img_size out.1.1)) imgs
    ∧ t = concat (deref out.1.2 <$> batch_refs batch)
    ∧ same_boxes (concat (deref σ <$> batch_refs batch)) t.
Proof.
  intros Hc0 Hok Hpos Hrefs. cbv zeta.
  assert (Hne : batch ≠ []) by (intros ->; by apply Hrefs).
  destruct (collate_fn_ok interpolate interpolate_shape self σ batch r c
              Hne Hc0 Hok Hpos) as [Hsize Heq].
  rewrite Heq. cbn [fst snd img_size set_img_size set_batch_count].
  destruct (batch_refs batch) as [|l refs] eqn:E; [done|]. rewrite <- E.
  eexists _, _. split_and!; [done| | |done|].
  - by rewrite <- list_fmap_compose.
  - by apply (resized_batch interpolate interpolate_shape).
  - apply same_boxes_concat. intros l'. apply index_targets_frame.
Qed.

(** X12. [__getitem__] and [__len__] do not read what [collate_fn] writes
    into the dataset object: after any call of [collate_fn], every index
    gives the item it gave before (and raises what it raised before), at
    the resolution change of multiscale training too. *)
Theorem getitem_after_collate (env : world) (self : ListDataset) (σ : heap)
    (batch : list item) (r : nat) (index : Z) (u : Qc) :
  let self' := (collate_fn interpolate self σ batch r).1.1 in
  ListDataset_getitem env self' index u = ListDataset_getitem env self index u
  ∧ ListDataset_len self' = ListDataset_len self.
Proof.
  clear interpolate_shape.
  cbv zeta.
  destruct (collate_fn_fields self σ batch r) as (H1 & H2 & _ & H4 & _ & H6).
  split; [by apply getitem_ext|]. unfold ListDataset_len. by rewrite H1.
Qed.

(** X13. Without multiscale the resolution never changes: over any run of
    [collate_fn] calls on one dataset object, whatever the batches and
    whatever the store, every completed call resizes with the [img_size]
    the object was built with, and the [k]-th completed call leaves the
    counter at its start value plus [k + 1]. *)
Theorem collate_run_fixed_resolution (self : ListDataset) (σ : heap)
    (calls : list (list item * nat)) :
  multiscale self = false →
  let out := collate_run interpolate self σ calls in
  img_size out.1 = img_size self
  ∧ (length out.2 ≤ length calls)%nat
  ∧ ∀ (k : nat) (s n : Z),
      out.2 !! k = Some (s, n) →
      s = img_size self ∧ n = batch_count self + Z.of_nat k + 1.
Proof.
  clear interpolate_shape.
  intros Hms. cbv zeta. revert self σ Hms.
  induction calls as [|[batch r] rest IH]; intros self σ Hms.
  { cbn. split_and!; [done|lia|]. intros k s n Hk. done. }
  cbn [collate_run]. rewrite collate_fn_result.
  assert (Hdraws : draws self = false) by (unfold draws; by rewrite Hms).
  destruct batch as [|it items].
  { cbn. split_and!; [done|lia|]. intros k s n Hk. done. }
  cbv zeta. rewrite Hdraws.
  destruct (Torch.stack _) as [imgs|e].
  - set (self1 := set_batch_count (batch_count self + 1)
                    (set_img_size (img_size self) self)).
    specialize (IH self1 (index_targets 0 (batch_refs (it :: items)) σ) Hms).
    destruct (collate_run interpolate self1 _ rest) as [final log].
    cbn [fst snd] in *. destruct IH as (Hfinal & Hlen & Hlog).
    split_and!; [done|simpl; lia|].
    intros [|k] s n Hk.
    + injection Hk as <- <-. cbn. split; [done|lia].
    + destruct (Hlog k s n Hk) as [-> ->]. cbn. split; [done|lia].
  - cbn. split_and!; [done|lia|]. intros k s n Hk. done.
Qed.

(** X14. [ImageFolder.__getitem__] on every input, with a decoder that
    gives 3-channel pictures and a positive [img_size]: on an empty folder
    it raises [ZeroDivisionError]; otherwise it takes the path at
    [index % len(files)], as it is (no [rstrip]) and for negative and
    too-large indices too; it raises [OSError] if that file does not
    decode, and otherwise returns the path with the picture padded with
    zeros to a square and resized to (3, img_size, img_size), without
    colour jitter. *)
Theorem ImageFolder_getitem_outcomes (env : world) (self : ImageFolder)
    (index : Z) :
  world_ok env → 0 < folder_img_size self →
  match files self !! Z.to_nat (index mod Z.of_nat (length (files self))) with
  | None =>
      files self = []
      ∧ ImageFolder_getitem interpolate env self index = Raise ZeroDivisionError
  | Some path =>
      match image_file env path with
      | None => ImageFolder_getitem interpolate env self index = Raise OSError
      | Some img =>
          let out := resize interpolate (pad_to_square img 0%Qc).1
                       (folder_img_size self) in
          ImageFolder_getitem interpolate env self index = Ok (path, out)
          ∧ Torch.is_tensor3 3 (Z.to_nat (folder_img_size self))
              (Z.to_nat (folder_img_size self)) out
      end
  end.
Proof.
  intros Hw Hsize.
  destruct (decide (files self = [])) as [E|Hne].
  { rewrite E. cbn. split; [done|]. unfold ImageFolder_getitem. by rewrite E. }
  destruct (getitem_mod (files self) index Hne) as (path & Hlook & Hget).
  rewrite Hlook. unfold ImageFolder_getitem.
  rewrite (mod_nonempty _ index Hne). cbn [mbind result_bind].
  rewrite Hget. cbn [mbind result_bind].
  unfold load_image.
  destruct (image_file env path) as [img|] eqn:Himg; [|done].
  cbn [mbind result_bind].
  destruct (Hw false path img) as (h & w & Hshape & Hh & Hw0).
  { unfold load_image. by rewrite Himg. }
  destruct (pad_to_square_shape 3 h w img 0%Qc Hshape ltac:(lia) Hh) as [Hout _].
  destruct (pad_to_square img 0%Qc) as [padded pad]. cbn [fst] in *.
  split; [done|]. unfold resize.
  eapply interpolate_shape; [exact Hout|lia..].
Qed.

(** X15. A batch loaded through [__getitem__] always collates: for any
    non-empty list of indices whose items load, with a decoder that gives
    3-channel pictures, [collate_fn] returns, although the pictures come
    out of [__getitem__] in different sizes; the result holds the items'
    paths in order and one (3, S, S) image per index, [S] the resolution
    the object holds after the call, and tensors that were in the store
    before the batch was loaded are not written to. *)
Theorem loaded_batch_collates (env : world) (self : ListDataset) (σ σ1 : heap)
    (requests : list (Z * Qc)) (batch : list item) (r : nat) :
  world_ok env → requests ≠ [] →
  (draws self = false → 0 < img_size self) →
  fetch env self σ requests = Ok (σ1, batch) →
  let out := collate_fn interpolate self σ1 batch r in
  let size := Z.to_nat (img_size out.1.1) in
  ∃ imgs targets,
    out.2 = Ok (item_path <$> batch, imgs, targets)
    ∧ Torch.is_tensor4 (length requests) 3 size size imgs
    ∧ batch_count out.1.1 = batch_count self + 1
    ∧ ∀ l : nat, is_Some (σ !! l) → out.1.2 !! l = σ !! l.
Proof.
  intros Hw Hne Hsize Hfetch. cbv zeta.
  destruct (fetch_batch_ok env self σ σ1 requests batch Hw Hne Hfetch)
    as (Hbatch & Himgs & _).
  destruct (fetch_spec env self requests σ σ1 batch Hfetch)
    as (Hlen & _ & Hnew & Hold & _).
  destruct (collate_fn_ok interpolate interpolate_shape self σ1 batch r 3
              Hbatch ltac:(lia) Himgs Hsize) as (Hpos & Hcall).
  rewrite Hcall. cbn [fst snd img_size set_img_size set_batch_count batch_count].
  eexists _, _. split_and!; [done| |done|].
  - rewrite <- Hlen.
    by apply (resized_batch interpolate interpolate_shape); [lia|..].
  - intros l Hl. rewrite index_targets_notin; [by apply Hold|].
    intros Hin. destruct (Hnew l Hin) as [Hnone _].
    rewrite Hnone in Hl. by destruct Hl.
Qed.

End FurtherProperties.

(** ** Errors before the label is read, label paths, shared tensors *)

(** X16. [ListDataset.__getitem__] on a picture it cannot load: with an
    empty list file it raises [ZeroDivisionError] (from [index % 0]) for
    every index; with a list entry whose file does not open or decode it
    raises [OSError], whatever the label file holds and whatever the
    flags. *)
Theorem getitem_unreadable (env : world) (self : ListDataset) (index : Z)
    (u : Qc) :
  match img_files self !! Z.to_nat (index mod Z.of_nat (length (img_files self))) with
  | None =>
      img_files self = []
      ∧ ListDataset_getitem env self index u = Raise ZeroDivisionError
  | Some line =>
      image_file env (Py.rstrip line) = None →
      ListDataset_getitem env self index u = Raise OSError
  end.
Proof.
  destruct (decide (img_files self = [])) as [E|Hne].
  { rewrite E. cbn. split; [done|]. unfold ListDataset_getitem. by rewrite E. }
  destruct (getitem_mod (img_files self) index Hne) as (line & Hlook & Hget).
  rewrite Hlook. intros Himg. unfold ListDataset_getitem.
  rewrite (mod_nonempty _ index Hne). cbn [mbind result_bind].
  rewrite Hget. cbn [mbind result_bind].
  unfold load_image. by rewrite Himg.
Qed.

Lemma replace_no_occurrence (old new s : string) :
  occurs old s = false → Py.replace s old new = s.
Proof.
  unfold Py.replace. induction s as [|c s IH]; [done|].
  cbn [occurs]. intros Hocc. apply orb_false_iff in Hocc as [Hpre Hrest].
  cbn [Py.replace_from]. rewrite Hpre. by rewrite IH.
Qed.

(** X17. The label path of [ListDataset.__init__] for a picture path that
    contains none of [images], [.png], [.jpg], [JPEGImages] is the picture
    path itself: [__getitem__] then looks for the annotations in the
    picture file. *)
Theorem label_path_without_token (lines : list string) (img_size : Z)
    (augment multiscale normalized_labels : bool) (k : nat) (path : string) :
  lines !! k = Some path →
  occurs "images" path = false → occurs ".png" path = false →
  occurs ".jpg" path = false → occurs "JPEGImages" path = false →
  label_files (ListDataset_init lines img_size augment multiscale normalized_labels)
    !! k = Some path.
Proof.
  intros Hk H1 H2 H3 H4. cbn [ListDataset_init label_files].
  rewrite list_lookup_fmap, Hk. cbn [fmap option_fmap option_map]. f_equal.
  unfold label_path_of.
  by rewrite (replace_no_occurrence _ _ _ H1), (replace_no_occurrence _ _ _ H2),
    (replace_no_occurrence _ _ _ H3), (replace_no_occurrence _ _ _ H4).
Qed.

Lemma label_path_without_token_witness :
  ["data/imgs/a.jpeg"; "data/imgs/b.jpeg"] !! 1%nat = Some "data/imgs/b.jpeg"
  ∧ occurs "images" "data/imgs/b.jpeg" = false
  ∧ occurs ".png" "data/imgs/b.jpeg" = false
  ∧ occurs ".jpg" "data/imgs/b.jpeg" = false
  ∧ occurs "JPEGImages" "data/imgs/b.jpeg" = false
  ∧ label_files (ListDataset_init ["data/imgs/a.jpeg"; "data/imgs/b.jpeg"]
                   416 true true true) !! 1%nat
    = Some "data/imgs/b.jpeg".
Proof.
  split_and!; [reflexivity..|].
  apply (label_path_without_token ["data/imgs/a.jpeg"; "data/imgs/b.jpeg"]
           416 true true true 1 "data/imgs/b.jpeg"); reflexivity.
Defined.

Lemma set_batch_index_twice (i j : nat) (boxes : targets_tensor) :
  set_batch_index j (set_batch_index i boxes) = set_batch_index j boxes.
Proof. unfold set_batch_index. by rewrite <- list_fmap_compose. Qed.

(** The loop of lines 149-150 on a list that may name one tensor more than
    once: the tensor keeps the index it was given last. *)
Lemma index_targets_last (targets : list nat) (i k : nat) (σ : heap) (l : nat) :
  targets !! k = Some l →
  (∀ k' : nat, (k < k')%nat → targets !! k' ≠ Some l) →
  index_targets i targets σ !! l = set_batch_index (i + k) <$> σ !! l.
Proof.
  revert i k σ. induction targets as [|l' rest IH]; intros i k σ Hk Hlast; [done|].
  cbn [index_targets]. destruct k as [|k]; simpl in Hk.
  - injection Hk as ->.
    rewrite index_targets_notin.
    + rewrite lookup_alter_eq. by rewrite Nat.add_0_r.
    + intros Hin. apply list_elem_of_lookup in Hin as [k' Hk'].
      by apply (Hlast (S k') ltac:(lia)).
  - rewrite (IH (S i) k _ Hk).
    2:{ intros k' Hlt. apply (Hlast (S k')). lia. }
    replace (S i + k)%nat with (i + S k)%nat by lia.
    destruct (decide (l' = l)) as [->|Hne].
    + rewrite lookup_alter_eq. destruct (σ !! l) as [t|]; [|done].
      cbn. by rewrite set_batch_index_twice.
    + by rewrite lookup_alter_ne.
Qed.

Section Sharing.

Variable interpolate : image → Z → image.

Hypothesis interpolate_shape :
  ∀ (img : image) (c h w : nat) (size : Z),
    Torch.is_tensor3 c h w img → (0 < c)%nat → (0 < h)%nat → (0 < w)%nat →
    0 < size →
    Torch.is_tensor3 c (Z.to_nat size) (Z.to_nat size) (interpolate img size).

(** X18. The batch index [collate_fn] writes when items share an
    annotation tensor: a tensor ends with the position (among the annotated
    items) of the last item that carries it, in all its rows; this holds
    whether the call then returns or raises. *)
Theorem collate_fn_shared_tensors (self : ListDataset) (σ : heap)
    (batch : list item) (r : nat) (k l : nat) :
  batch_refs batch !! k = Some l →
  (∀ k' : nat, (k < k')%nat → batch_refs batch !! k' ≠ Some l) →
  (collate_fn interpolate self σ batch r).1.2 !! l
  = set_batch_index k <$> σ !! l.
Proof.
  clear interpolate_shape. intros Hk Hlast. rewrite collate_fn_result.
  destruct batch as [|it rest]; [done|]. cbv zeta.
  pose proof (index_targets_last _ 0 k σ l Hk Hlast) as Hl.
  by destruct (Torch.stack _).
Qed.

(** X19. The two datasets prepare a picture the same way.  Let the folder
    list the stripped entries of the list file, in the same order, with a
    positive [img_size], and let the decoder give 3-channel pictures: where
    [ListDataset.__getitem__] without augmentation returns a picture,
    [ImageFolder.__getitem__] returns, for the same index, the same path and
    that picture resized to (3, img_size, img_size). *)
Theorem ImageFolder_matches_ListDataset (env : world) (folder : ImageFolder)
    (self : ListDataset) (index : Z) (u : Qc) (path : string) (img : image)
    (t : option targets_tensor) :
  world_ok env →
  files folder = Py.rstrip <$> img_files self → augment self = false →
  0 < folder_img_size folder →
  ListDataset_getitem env self index u = Ok (path, img, t) →
  ImageFolder_getitem interpolate env folder index
  = Ok (path, resize interpolate img (folder_img_size folder))
  ∧ Torch.is_tensor3 3 (Z.to_nat (folder_img_size folder))
      (Z.to_nat (folder_img_size folder))
      (resize interpolate img (folder_img_size folder)).
Proof.
  intros Hw Hfiles Haug Hsize Hget.
  destruct (getitem_image_ok env self index u path img t Hw Hget)
    as (s & Hshape & Hs).
  split; [|unfold resize; by eapply interpolate_shape; [exact Hshape|lia..]].
  destruct (decide (img_files self = [])) as [E|Hne].
  { unfold ListDataset_getitem in Hget. by rewrite E in Hget. }
  destruct (getitem_mod (img_files self) index Hne) as (line & Hlook & Hline).
  assert (Hlen : 0 < Z.of_nat (length (img_files self)))
    by (destruct (img_files self); simpl in *; [done|lia]).
  pose proof (Z.mod_pos_bound index _ Hlen) as Hb.
  assert (Hne' : Py.rstrip <$> img_files self ≠ [])
    by (by destruct (img_files self)).
  unfold ImageFolder_getitem. rewrite Hfiles.
  rewrite (mod_nonempty _ index Hne'). cbn [mbind result_bind].
  rewrite length_fmap.
  rewrite (getitem_lookup _ _ (Py.rstrip line) (proj1 Hb))
    by (by rewrite list_lookup_fmap, Hlook).
  cbn [mbind result_bind].
  unfold ListDataset_getitem in Hget.
  rewrite (mod_nonempty _ index Hne) in Hget. cbn [mbind result_bind] in Hget.
  rewrite Hline in Hget. cbn [mbind result_bind] in Hget.
  rewrite Haug in Hget.
  destruct (load_image env false (Py.rstrip line)) as [img0|]; [|done].
  cbn [mbind result_bind] in *.
  destruct (Torch.shape img0) as [[? ?] ?].
  destruct (if normalized_labels self then _ else _) as [h_factor w_factor].
  destruct (pad_to_square img0 0%Qc) as [out pad].
  destruct (Torch.shape out) as [[? padded_h] padded_w].
  destruct (Py.getitem (label_files self) _) as [lline|]; [|done].
  cbn [mbind result_bind] in Hget.
  match type of Hget with
  | (?m ≫= _) = _ => destruct m as [targets|]; [|done]
  end.
  cbn [mbind result_bind] in Hget. by injection Hget as <- <- _.
Qed.

End Sharing.

(** ** The further properties on the sample inputs *)

Lemma collate_run_fixed_resolution_witness :
  multiscale sample_dataset_fixed = false
  ∧ img_size (collate_run sample_resize sample_dataset_fixed sample_heap
                [(sample_batch, 3%nat); (sample_batch_none, 5%nat)]).1
    = img_size sample_dataset_fixed
  ∧ (length (collate_run sample_resize sample_dataset_fixed sample_heap
               [(sample_batch, 3%nat); (sample_batch_none, 5%nat)]).2
     ≤ length [(sample_batch, 3%nat); (sample_batch_none, 5%nat)])%nat
  ∧ ∀ (k : nat) (s n : Z),
      (collate_run sample_resize sample_dataset_fixed sample_heap
         [(sample_batch, 3%nat); (sample_batch_none, 5%nat)]).2 !! k
      = Some (s, n) →
      s = img_size sample_dataset_fixed
      ∧ n = batch_count sample_dataset_fixed + Z.of_nat k + 1.
Proof.
  split; [reflexivity|].
  apply (collate_run_fixed_resolution sample_resize sample_dataset_fixed
           sample_heap [(sample_batch, 3%nat); (sample_batch_none, 5%nat)]).
  reflexivity.
Defined.

Lemma collate_fn_output_witness :
  (0 < 3)%nat
  ∧ images_ok 3 [sample_item "a" (Some 2%nat); sample_item "b" None;
                 sample_item "c" (Some 0%nat); sample_item "d" (Some 2%nat)]
  ∧ (draws sample_dataset = false → 0 < img_size sample_dataset)
  ∧ batch_refs [sample_item "a" (Some 2%nat); sample_item "b" None;
                sample_item "c" (Some 0%nat); sample_item "d" (Some 2%nat)] ≠ []
  ∧ ∃ (imgs : list image) (t : targets_tensor),
      (collate_fn sample_resize sample_dataset sample_heap
         [sample_item "a" (Some 2%nat); sample_item "b" None;
          sample_item "c" (Some 0%nat); sample_item "d" (Some 2%nat)] 3).2
      = Ok (item_path <$> [sample_item "a" (Some 2%nat); sample_item "b" None;
                           sample_item "c" (Some 0%nat); sample_item "d" (Some 2%nat)],
            imgs, Some t)
      ∧ imgs = (λ it, resize sample_resize (item_image it)
                        (img_size (collate_fn sample_resize sample_dataset sample_heap
                                     [sample_item "a" (Some 2%nat); sample_item "b" None;
                                      sample_item "c" (Some 0%nat);
                                      sample_item "d" (Some 2%nat)] 3).1.1))
                 <$> [sample_item "a" (Some 2%nat); sample_item "b" None;
                      sample_item "c" (Some 0%nat); sample_item "d" (Some 2%nat)]
      ∧ Torch.is_tensor4
          (length [sample_item "a" (Some 2%nat); sample_item "b" None;
                   sample_item "c" (Some 0%nat); sample_item "d" (Some 2%nat)]) 3
          (Z.to_nat (img_size (collate_fn sample_resize sample_dataset sample_heap
                                 [sample_item "a" (Some 2%nat); sample_item "b" None;
                                  sample_item "c" (Some 0%nat);
                                  sample_item "d" (Some 2%nat)] 3).1.1))
          (Z.to_nat (img_size (collate_fn sample_resize sample_dataset sample_heap
                                 [sample_item "a" (Some 2%nat); sample_item "b" None;
                                  sample_item "c" (Some 0%nat);
                                  sample_item "d" (Some 2%nat)] 3).1.1))
          imgs
      ∧ t = concat (deref (collate_fn sample_resize sample_dataset sample_heap
                             [sample_item "a" (Some 2%nat); sample_item "b" None;
                              sample_item "c" (Some 0%nat);
                              sample_item "d" (Some 2%nat)] 3).1.2
                      <$> batch_refs [sample_item "a" (Some 2%nat); sample_item "b" None;
                                      sample_item "c" (Some 0%nat);
                                      sample_item "d" (Some 2%nat)])
      ∧ same_boxes
          (concat (deref sample_heap
                     <$> batch_refs [sample_item "a" (Some 2%nat); sample_item "b" None;
                                     sample_item "c" (Some 0%nat);
                                     sample_item "d" (Some 2%nat)]))
          t.
Proof.
  assert (Hok : images_ok 3 [sample_item "a" (Some 2%nat); sample_item "b" None;
                             sample_item "c" (Some 0%nat); sample_item "d" (Some 2%nat)])
    by (apply sample_items_ok; by repeat constructor).
  split_and!; [lia|exact Hok|done|done|].
  apply (collate_fn_output sample_resize sample_resize_shape sample_dataset
           sample_heap
           [sample_item "a" (Some 2%nat); sample_item "b" None;
            sample_item "c" (Some 0%nat); sample_item "d" (Some 2%nat)] 3 3);
    [lia|exact Hok|done|done].
Defined.

Lemma ImageFolder_getitem_outcomes_witness :
  world_ok sample_world ∧ 0 < folder_img_size sample_folder
  ∧ match files sample_folder
          !! Z.to_nat (-1 mod Z.of_nat (length (files sample_folder))) with
    | None =>
        files sample_folder = []
        ∧ ImageFolder_getitem sample_resize sample_world sample_folder (-1)
          = Raise ZeroDivisionError
    | Some path =>
        match image_file sample_world path with
        | None =>
            ImageFolder_getitem sample_resize sample_world sample_folder (-1)
            = Raise OSError
        | Some img =>
            let out := resize sample_resize (pad_to_square img 0%Qc).1
                         (folder_img_size sample_folder) in
            ImageFolder_getitem sample_resize sample_world sample_folder (-1)
            = Ok (path, out)
            ∧ Torch.is_tensor3 3 (Z.to_nat (folder_img_size sample_folder))
                (Z.to_nat (folder_img_size sample_folder)) out
        end
    end.
Proof.
  split_and!; [apply sample_world_ok|reflexivity|].
  apply (ImageFolder_getitem_outcomes sample_resize sample_resize_shape
           sample_world sample_folder (-1)); [apply sample_world_ok|reflexivity].
Defined.

Lemma loaded_batch_collates_witness :
  world_ok sample_world
  ∧ [(2, 0%Qc); (1, 0%Qc)] ≠ []
  ∧ (draws sample_dataset_fixed = false → 0 < img_size sample_dataset_fixed)
  ∧ fetch sample_world sample_dataset_fixed ∅ [(2, 0%Qc); (1, 0%Qc)]
    = Ok (<[0%nat := []]> ∅,
          [("data/images/c.jpg", blank_image 3 2 2, None);
           ("data/images/b.jpg", blank_image 3 4 4, Some 0%nat)])
  ∧ ∃ (imgs : list image) (targets : option targets_tensor),
      (collate_fn sample_resize sample_dataset_fixed (<[0%nat := []]> ∅)
         [("data/images/c.jpg", blank_image 3 2 2, None);
          ("data/images/b.jpg", blank_image 3 4 4, Some 0%nat)] 7).2
      = Ok (item_path <$> [("data/images/c.jpg", blank_image 3 2 2, None);
                           ("data/images/b.jpg", blank_image 3 4 4, Some 0%nat)],
            imgs, targets)
      ∧ Torch.is_tensor4 (length [(2, 0%Qc); (1, 0%Qc)]) 3
          (Z.to_nat (img_size (collate_fn sample_resize sample_dataset_fixed
                                 (<[0%nat := []]> ∅)
                                 [("data/images/c.jpg", blank_image 3 2 2, None);
                                  ("data/images/b.jpg", blank_image 3 4 4, Some 0%nat)]
                                 7).1.1))
          (Z.to_nat (img_size (collate_fn sample_resize sample_dataset_fixed
                                 (<[0%nat := []]> ∅)
                                 [("data/images/c.jpg", blank_image 3 2 2, None);
                                  ("data/images/b.jpg", blank_image 3 4 4, Some 0%nat)]
                                 7).1.1))
          imgs
      ∧ batch_count (collate_fn sample_resize sample_dataset_fixed
                       (<[0%nat := []]> ∅)
                       [("data/images/c.jpg", blank_image 3 2 2, None);
                        ("data/images/b.jpg", blank_image 3 4 4, Some 0%nat)]
                       7).1.1
        = batch_count sample_dataset_fixed + 1
      ∧ ∀ l : nat, is_Some ((∅ : heap) !! l) →
          (collate_fn sample_resize sample_dataset_fixed (<[0%nat := []]> ∅)
             [("data/images/c.jpg", blank_image 3 2 2, None);
              ("data/images/b.jpg", blank_image 3 4 4, Some 0%nat)] 7).1.2 !! l
          = (∅ : heap) !! l.
Proof.
  assert (Hfetch :
    fetch sample_world sample_dataset_fixed ∅ [(2, 0%Qc); (1, 0%Qc)]
    = Ok (<[0%nat := []]> ∅,
          [("data/images/c.jpg", blank_image 3 2 2, None);
           ("data/images/b.jpg", blank_image 3 4 4, Some 0%nat)]))
    by (vm_compute; reflexivity).
  split_and!; [apply sample_world_ok|done|done|exact Hfetch|].
  apply (loaded_batch_collates sample_resize sample_resize_shape sample_world
           sample_dataset_fixed ∅ (<[0%nat := []]> ∅) [(2, 0%Qc); (1, 0%Qc)]
           [("data/images/c.jpg", blank_image 3 2 2, None);
            ("data/images/b.jpg", blank_image 3 4 4, Some 0%nat)] 7);
    [apply sample_world_ok|done|done|exact Hfetch].
Defined.

Lemma collate_fn_shared_tensors_witness :
  batch_refs [sample_item "a" (Some 2%nat); sample_item "b" None;
              sample_item "c" (Some 0%nat); sample_item "d" (Some 2%nat)]
    !! 2%nat = Some 2%nat
  ∧ (∀ k' : nat, (2 < k')%nat →
       batch_refs [sample_item "a" (Some 2%nat); sample_item "b" None;
                   sample_item "c" (Some 0%nat); sample_item "d" (Some 2%nat)]
         !! k' ≠ Some 2%nat)
  ∧ (collate_fn sample_resize sample_dataset sample_heap
       [sample_item "a" (Some 2%nat); sample_item "b" None;
        sample_item "c" (Some 0%nat); sample_item "d" (Some 2%nat)] 3).1.2
      !! 2%nat
    = set_batch_index 2 <$> sample_heap !! 2%nat.
Proof.
  assert (Hlast : ∀ k' : nat, (2 < k')%nat →
    batch_refs [sample_item "a" (Some 2%nat); sample_item "b" None;
                sample_item "c" (Some 0%nat); sample_item "d" (Some 2%nat)]
      !! k' ≠ Some 2%nat).
  { intros [|[|[|k']]] Hlt; [lia..|]. done. }
  split_and!; [reflexivity|exact Hlast|].
  apply (collate_fn_shared_tensors sample_resize sample_dataset sample_heap
           [sample_item "a" (Some 2%nat); sample_item "b" None;
            sample_item "c" (Some 0%nat); sample_item "d" (Some 2%nat)]
           3 2 2); [reflexivity|exact Hlast].
Defined.

Lemma ImageFolder_matches_ListDataset_witness :
  world_ok sample_world
  ∧ files (MkImageFolder ["data/images/a.jpg"; "data/images/b.jpg";
                          "data/images/c.jpg"] 8)
    = Py.rstrip <$> img_files sample_dataset_fixed
  ∧ augment sample_dataset_fixed = false
  ∧ 0 < folder_img_size (MkImageFolder ["data/images/a.jpg"; "data/images/b.jpg";
                                        "data/images/c.jpg"] 8)
  ∧ ListDataset_getitem sample_world sample_dataset_fixed 5 0%Qc
    = Ok ("data/images/c.jpg", blank_image 3 2 2, None)
  ∧ ImageFolder_getitem sample_resize sample_world
      (MkImageFolder ["data/images/a.jpg"; "data/images/b.jpg";
                      "data/images/c.jpg"] 8) 5
    = Ok ("data/images/c.jpg", resize sample_resize (blank_image 3 2 2) 8)
  ∧ Torch.is_tensor3 3 (Z.to_nat 8) (Z.to_nat 8)
      (resize sample_resize (blank_image 3 2 2) 8).
Proof.
  assert (Hget : ListDataset_getitem sample_world sample_dataset_fixed 5 0%Qc
                 = Ok ("data/images/c.jpg", blank_image 3 2 2, None))
    by (vm_compute; reflexivity).
  split_and!; [apply sample_world_ok|reflexivity|reflexivity|reflexivity|exact Hget|..];
    apply (ImageFolder_matches_ListDataset sample_resize sample_resize_shape
             sample_world
             (MkImageFolder ["data/images/a.jpg"; "data/images/b.jpg";
                             "data/images/c.jpg"] 8)
             sample_dataset_fixed 5 0%Qc "data/images/c.jpg" (blank_image 3 2 2) None);
    [apply sample_world_ok|reflexivity|reflexivity|reflexivity|exact Hget
    |apply sample_world_ok|reflexivity|reflexivity|reflexivity|exact Hget].
Defined.
